(** * backstack.js: a shallow embedding of the navigation engine

    Two variants of the library live in the repository:
    - [src/public/lib/backstackjs/js/backstack.js]  (module [PublicLib] below),
    - [src/unnamed/part_001]                        (module [Part001] below).
    The classes [Backstack] and [TabBar], [Screen.destroy] and the
    go / back / go-and-clear overrides are textually the same in both and are
    embedded once; [Screen.initialise], the submit and refresh overrides and
    the [Tab] methods differ and are embedded once per variant. *)

From Stdlib Require Import ZArith Lia Ascii String.
From stdpp Require Import base list strings pretty.

Local Open Scope string_scope.
Local Open Scope Z_scope.
Local Open Scope list_scope.

(** ** JavaScript values used by the library *)

(** A reference to a heap-allocated [Screen] object. *)
Definition loc := nat.
Bind Scope nat_scope with loc.

(** Optional JavaScript values: [None] stands for [undefined] (or [null]
    where the source initialises a field with [null]).  The elements of a
    Backstack are Screen objects ([Screen[]] in the source's JSDoc, and
    [new Screen(...)] at every [push]), so what [screens.pop()] yields is an
    object reference, which is truthy, or [undefined]. *)
Definition ToBoolean_ref (v : option loc) : bool :=
  match v with Some _ => true | None => false end.

Definition ToBoolean_number (n : Z) : bool := negb (n =? 0).

Definition ToBoolean_flag (v : option bool) : bool :=
  match v with Some b => b | None => false end.

(** [v == null] *)
Definition is_null {A} (v : option A) : bool :=
  match v with Some _ => false | None => true end.

(** [a[i]] on a JavaScript array: [undefined] outside of [0 .. length-1]. *)
Definition array_get {A} (a : list A) (i : Z) : option A :=
  if i <? 0 then None else a !! Z.to_nat i.

Definition array_length {A} (a : list A) : Z := Z.of_nat (length a).

(** [a.pop()]: removes and returns the last element, [undefined] on []. *)
Definition array_pop {A} (a : list A) : option A * list A :=
  (last a, removelast a).

(** [a.push(x)]: appends and returns the new length. *)
Definition array_push {A} (a : list A) (x : A) : Z * list A :=
  (array_length a + 1, a ++ [x]).

Definition upper_ascii (c : ascii) : ascii :=
  let n := nat_of_ascii c in
  if ((97 <=? n) && (n <=? 122))%nat then ascii_of_nat (n - 32) else c.

Fixpoint toUpperCase (s : string) : string :=
  match s with
  | EmptyString => EmptyString
  | String c r => String (upper_ascii c) (toUpperCase r)
  end.

(** ** class Backstack *)

Module Backstack.

(** [this.screens]: an array of Screen references, top of stack last. *)
Record t := mk { screens : list loc }.

Definition constructor (initialScreens : list loc) : t := mk initialScreens.

Definition pop (b : t) : bool * t :=
  let success := false in
  if array_length (screens b) >? 1 then
    let '(popped, rest) := array_pop (screens b) in
    (ToBoolean_ref popped, mk rest)
  else (success, b).

Definition popForced (b : t) : bool * t :=
  let success := false in
  if array_length (screens b) >=? 1 then
    let '(popped, rest) := array_pop (screens b) in
    (ToBoolean_ref popped, mk rest)
  else (success, b).

Definition push (screen : loc) (b : t) : bool * t :=
  let '(len, arr) := array_push (screens b) screen in
  (ToBoolean_number len, mk arr).

(** [return this.screens[this.screens.length - 1]]; no exception is raised,
    the result is [undefined] ([None]) when the index is out of range. *)
Definition getCurrent (b : t) : option loc :=
  array_get (screens b) (array_length (screens b) - 1).

(** The three mutators, as a datatype of calls, to speak about sequences. *)
Inductive call := Push (screen : loc) | Pop | PopForced.

Definition run_call (c : call) (b : t) : bool * t :=
  match c with
  | Push s => push s b
  | Pop => pop b
  | PopForced => popForced b
  end.

Definition run_calls (cs : list call) (b : t) : t :=
  fold_left (fun b c => snd (run_call c b)) cs b.

Definition is_forced (c : call) : bool :=
  match c with PopForced => true | _ => false end.

Definition depth (b : t) : nat := length (screens b).

End Backstack.

(** ** The page: the part of the DOM and of jQuery that the library drives *)

Inductive EventName := click | submit.

Definition EventName_eqb (a b : EventName) : bool :=
  match a, b with
  | click, click | submit, submit => true
  | _, _ => false
  end.

(** The closures that the library hands to jQuery, defunctionalised: each
    constructor names the function expression in the source and carries the
    variables it closes over.  [tab] is the index in [TabBar.tabs] of the Tab
    whose [onClick]/[getHtml] created the closure; it determines the Tab
    ([self] in [Tab.getHtml]) and the callbacks that TabBar passed for it. *)
Inductive Handler :=
| TabSelect (tab : nat)                  (* setTabsClickListeners, first closure *)
| TabClick (tab : nat)                   (* Tab.onClick *)
| GoOverride (self : loc) (tab : nat)    (* Screen.setGoOverride *)
| BackOverride (self : loc) (tab : nat)  (* Screen.setBackOverride *)
| GoAndClearOverride (self : loc) (tab : nat)
| SubmitOverride (self : loc) (tab : nat)
| RefreshOverride (self : loc) (tab : nat).

(** What the markup says about an element. *)
Record Attrs := mkAttrs {
  at_id : string;
  at_classes : list string;
  at_href : string;
  at_action : string;
  at_method : string
}.

Record Element := mkElement {
  el_attrs : Attrs;
  el_classes : list string;              (* class attribute, live *)
  el_visibility : option string;         (* style.visibility *)
  el_listeners : list (EventName * Handler)
}.

Definition new_element (a : Attrs) : Element :=
  mkElement a (at_classes a) None [].

(** The document: the static page around the viewport, and the viewport
    (the element selected by [appViewId]) with its current children. *)
Record Page := mkPage {
  chrome : list Element;
  viewport_visibility : option string;
  viewport_html : string;
  viewport_children : list Element
}.

(** jQuery selectors as the library builds them: ["." + class], ["#" + id]. *)
Definition matches (sel : string) (e : Element) : bool :=
  match sel with
  | String "."%char cls => existsb (String.eqb cls) (el_classes e)
  | String "#"%char id => String.eqb id (at_id (el_attrs e))
  | _ => false
  end.

Definition jq_each (sel : string) (f : Element -> Element) (p : Page) : Page :=
  let g e := if matches sel e then f e else e in
  mkPage (map g (chrome p)) (viewport_visibility p) (viewport_html p)
         (map g (viewport_children p)).

Definition el_off (ev : EventName) (e : Element) : Element :=
  mkElement (el_attrs e) (el_classes e) (el_visibility e)
    (List.filter (fun l => negb (EventName_eqb (fst l) ev)) (el_listeners e)).

Definition el_on (ev : EventName) (h : Handler) (e : Element) : Element :=
  mkElement (el_attrs e) (el_classes e) (el_visibility e)
    (el_listeners e ++ [(ev, h)]).

Definition el_css_visibility (v : string) (e : Element) : Element :=
  mkElement (el_attrs e) (el_classes e) (Some v) (el_listeners e).

Definition el_addClass (c : string) (e : Element) : Element :=
  if existsb (String.eqb c) (el_classes e) then e
  else mkElement (el_attrs e) (el_classes e ++ [c]) (el_visibility e) (el_listeners e).

Definition el_removeClass (c : string) (e : Element) : Element :=
  mkElement (el_attrs e) (List.filter (fun c' => negb (String.eqb c' c)) (el_classes e))
    (el_visibility e) (el_listeners e).

Definition all_elements (p : Page) : list Element :=
  chrome p ++ viewport_children p.

(** Listeners for [ev] on the elements that [sel] selects. *)
Definition listeners_on (sel : string) (ev : EventName) (p : Page) : list Handler :=
  flat_map (fun e => if matches sel e
                     then map snd (List.filter (fun l => EventName_eqb (fst l) ev)
                                               (el_listeners e))
                     else []) (all_elements p).

(** ** Objects of the library and the state of the running page *)

Record Screen := mkScreen {
  url : string;
  htmlCode : option string;              (* null until fetched *)
  forceRefreshOnLoad : option bool;      (* absent ([None]) in part_001 *)
  goTerm : string;
  backTerm : string;
  goAndClearTerm : string;
  submitTerm : string;
  refreshTerm : string
}.

Record Tab := mkTab {
  backstack : Backstack.t;
  viewId : string
}.

Definition FormData := list (string * string).

(** The function expressions passed to [$.get] / [$.ajax], defunctionalised. *)
Inductive Continuation :=
| InitialiseCallbacks (self : loc) (isBackVisible : bool) (tab : nat)
| SubmitFormCallbacks (tab : nat).

(** The settings object of one request ([processData] and [contentType],
    which [Tab.submitForm] also sets, are left out: nothing reads them back).
    jQuery invokes the request's callbacks with [this] bound to this object,
    so a property assigned through [this] inside a callback lands here. *)
Record AjaxSettings := mkAjax {
  ajax_url : string;
  ajax_type : string;
  ajax_data : option FormData;
  ajax_callbacks : Continuation;
  ajax_completed : bool;
  ajax_forceRefreshOnLoad : option bool
}.

Inductive Response :=
| Success (body : string)
| Failure (status : Z) (statusText : string).

(** Effects that leave the library, in the order in which they happen. *)
Inductive Effect :=
| ConsoleLog (msg : string)
| ConsoleError (msg : string)
| JqOff (sel : string) (ev : EventName)
| JqOn (sel : string) (ev : EventName) (h : Handler)
| JqCss (sel : string) (prop value : string)
| JqHtml (sel : string) (html : option string)
| JqAddClass (sel cls : string)
| JqRemoveClass (sel cls : string)
| Ajax (id : nat) (url type : string) (data : option FormData)
| OnViewUpdated (tabViewId : string) (url : option string)
| OnError (tabViewId : string) (url : option string).

Record World := mkWorld {
  heap : list Screen;                    (* Screen objects, by reference *)
  tabs : list Tab;                       (* TabBar.tabs *)
  selectedTabViewId : string;            (* TabBar.selectedTabViewId *)
  appViewId : string;
  page : Page;
  requests : list AjaxSettings;          (* every request issued so far *)
  trace : list Effect
}.

Definition tabClassName := "btn-tab".
Definition tabSelectedClassName := "btn-tab-selected".

Inductive JsError :=
| TypeError (msg : string)
| ReferenceError (msg : string)
| DanglingReference.                     (* a reference outside the heap: no JavaScript state *)

(** ** A state-and-exception monad for method bodies *)

Inductive outcome (A : Type) :=
| Ret (a : A) (w : World)
| Throw (e : JsError) (w : World).
Arguments Ret {A} a w.
Arguments Throw {A} e w.

Definition M (A : Type) := World -> outcome A.

Definition ret {A} (a : A) : M A := fun w => Ret a w.

Definition bind {A B} (m : M A) (k : A -> M B) : M B :=
  fun w => match m w with
           | Ret a w' => k a w'
           | Throw e w' => Throw e w'
           end.

Definition throw {A} (e : JsError) : M A := fun w => Throw e w.

Notation "'let*' x ':=' m 'in' k" := (bind m (fun x => k))
  (at level 10, x name, m at level 100, k at level 200).
Notation "m1 >>> m2" := (bind m1 (fun _ => m2))
  (at level 100, m2 at level 200, right associativity).

Definition world_of {A} (o : outcome A) : World :=
  match o with Ret _ w => w | Throw _ w => w end.

Definition get {A} (f : World -> A) : M A := fun w => Ret (f w) w.
Definition modify (f : World -> World) : M unit := fun w => Ret tt (f w).

Definition with_heap (f : list Screen -> list Screen) (w : World) : World :=
  mkWorld (f (heap w)) (tabs w) (selectedTabViewId w) (appViewId w) (page w)
          (requests w) (trace w).
Definition with_tabs (f : list Tab -> list Tab) (w : World) : World :=
  mkWorld (heap w) (f (tabs w)) (selectedTabViewId w) (appViewId w) (page w)
          (requests w) (trace w).
Definition with_selected (s : string) (w : World) : World :=
  mkWorld (heap w) (tabs w) s (appViewId w) (page w) (requests w) (trace w).
Definition with_page (f : Page -> Page) (w : World) : World :=
  mkWorld (heap w) (tabs w) (selectedTabViewId w) (appViewId w) (f (page w))
          (requests w) (trace w).
Definition with_requests (f : list AjaxSettings -> list AjaxSettings) (w : World) : World :=
  mkWorld (heap w) (tabs w) (selectedTabViewId w) (appViewId w) (page w)
          (f (requests w)) (trace w).
Definition with_trace (f : list Effect -> list Effect) (w : World) : World :=
  mkWorld (heap w) (tabs w) (selectedTabViewId w) (appViewId w) (page w)
          (requests w) (f (trace w)).

Definition emit (e : Effect) : M unit := modify (with_trace (fun t => t ++ [e])).

Definition console_log (msg : string) : M unit := emit (ConsoleLog msg).
Definition console_error (msg : string) : M unit := emit (ConsoleError msg).

(** Dereferencing a Screen reference and a Tab captured by a closure. *)
Definition deref (l : loc) : M Screen :=
  fun w => match heap w !! l with Some s => Ret s w | None => Throw DanglingReference w end.

Definition the_tab (tab : nat) : M Tab :=
  fun w => match tabs w !! tab with Some t => Ret t w | None => Throw DanglingReference w end.

Definition update_screen (l : loc) (f : Screen -> Screen) : M unit :=
  let* s := deref l in modify (with_heap (fun h => <[l := f s]> h)).

Definition update_backstack (tab : nat) (b : Backstack.t) : M unit :=
  let* t := the_tab tab in
  modify (with_tabs (fun ts => <[tab := mkTab b (viewId t)]> ts)).

(** Calling a method on the result of an expression that may be [undefined]. *)
Definition method_of {A} (name : string) (receiver : option A) : M A :=
  match receiver with
  | Some r => ret r
  | None => throw (TypeError ("Cannot read properties of undefined (reading '" +:+ name +:+ "')"))
  end.

(** *** jQuery calls *)

Definition jq_off (sel : string) (ev : EventName) : M unit :=
  modify (with_page (jq_each sel (el_off ev))) >>> emit (JqOff sel ev).

Definition jq_on (sel : string) (ev : EventName) (h : Handler) : M unit :=
  modify (with_page (jq_each sel (el_on ev h))) >>> emit (JqOn sel ev h).

Definition jq_css_visibility (sel : string) (v : string) : M unit :=
  modify (with_page (jq_each sel (el_css_visibility v))) >>>
  emit (JqCss sel "visibility" v).

Definition jq_addClass (sel cls : string) : M unit :=
  modify (with_page (jq_each sel (el_addClass cls))) >>> emit (JqAddClass sel cls).

Definition jq_removeClass (sel cls : string) : M unit :=
  modify (with_page (jq_each sel (el_removeClass cls))) >>> emit (JqRemoveClass sel cls).

(** [$.ajax(settings)]: the request is recorded; it completes in a later turn
    of the event loop.  Returns the position of the settings object. *)
Definition jq_ajax (u type : string) (data : option FormData) (k : Continuation) : M unit :=
  let* id := get (fun w => length (requests w)) in
  modify (with_requests (fun rs => rs ++ [mkAjax u type data k false None])) >>>
  emit (Ajax id u type data).

(** A turn of the event loop delivers an event to one element of the page;
    the listeners bound to that element run (no bubbling is modelled). *)
Inductive ElemRef := InChrome (i : nat) | InViewport (i : nat).

Definition element_at (r : ElemRef) (p : Page) : option Element :=
  match r with
  | InChrome i => chrome p !! i
  | InViewport i => viewport_children p !! i
  end.

Definition all_refs (p : Page) : list ElemRef :=
  map InChrome (seq 0 (length (chrome p))) ++
  map InViewport (seq 0 (length (viewport_children p))).

Definition select_refs (sel : string) (p : Page) : list ElemRef :=
  List.filter (fun r => match element_at r p with
                        | Some e => matches sel e
                        | None => false
                        end) (all_refs p).

(** ** class Screen: the methods that read the same in both variants *)

Module ScreenCommon.

Definition clearGoOverride (self : loc) : M unit :=
  let* this := deref self in jq_off (goTerm this) click.

Definition clearBackOverride (self : loc) : M unit :=
  let* this := deref self in jq_off (backTerm this) click.

Definition clearGoAndClearOverride (self : loc) : M unit :=
  let* this := deref self in jq_off (goAndClearTerm this) click.

Definition clearSubmitOverride (self : loc) : M unit :=
  let* this := deref self in jq_off (submitTerm this) submit.

Definition clearRefreshOverride (self : loc) : M unit :=
  let* this := deref self in jq_off (refreshTerm this) click.

Definition destroy (self : loc) : M unit :=
  clearGoOverride self >>>
  clearBackOverride self >>>
  clearGoAndClearOverride self >>>
  clearSubmitOverride self >>>
  clearRefreshOverride self.

(** The [callback] arguments are the closures built in [Tab.getHtml]
    ([Tab.setCurrentScreenHTML] in part_001) for the Tab with index [tab]. *)
Definition setGoOverride (self : loc) (tab : nat) : M unit :=
  let* this := deref self in jq_on (goTerm this) click (GoOverride self tab).

Definition setBackOverride (self : loc) (tab : nat) : M unit :=
  let* this := deref self in jq_on (backTerm this) click (BackOverride self tab).

Definition setGoAndClearOverride (self : loc) (tab : nat) : M unit :=
  let* this := deref self in
  jq_on (goAndClearTerm this) click (GoAndClearOverride self tab).

Definition setSubmitOverride (self : loc) (tab : nat) : M unit :=
  let* this := deref self in jq_on (submitTerm this) submit (SubmitOverride self tab).

Definition setRefreshOverride (self : loc) (tab : nat) : M unit :=
  let* this := deref self in jq_on (refreshTerm this) click (RefreshOverride self tab).

Definition setBackVisibilityOverride (self : loc) (isVisible : bool) : M unit :=
  let* this := deref self in
  if isVisible then jq_css_visibility (backTerm this) "visible"
  else jq_css_visibility (backTerm this) "hidden".

Definition setupOverrides (self : loc) (isBackVisible : bool) (tab : nat) : M unit :=
  setBackVisibilityOverride self isBackVisible >>>
  setGoOverride self tab >>>
  setBackOverride self tab >>>
  setGoAndClearOverride self tab >>>
  setSubmitOverride self tab >>>
  setRefreshOverride self tab.

(** The five (selector, event) pairs on which a Screen installs interceptors. *)
Definition interceptors (s : Screen) : list (string * EventName) :=
  [ (goTerm s, click); (backTerm s, click); (goAndClearTerm s, click);
    (submitTerm s, submit); (refreshTerm s, click) ].

End ScreenCommon.

(** ** class Tab and class TabBar: the methods that read the same in both variants *)

Module TabCommon.

(** [Tab.onClick]: binds the closure [function () { preCreate(); ... }]. *)
Definition onClick (tab : nat) : M unit :=
  let* this := the_tab tab in jq_on ("#" +:+ viewId this) click (TabClick tab).

(** The call [this.backstack.getCurrent()]. *)
Definition backstack_getCurrent (tab : nat) : M (option loc) :=
  let* this := the_tab tab in
  ret (Backstack.getCurrent (backstack this)).

Definition destroy (tab : nat) : M unit :=
  let* top := backstack_getCurrent tab in
  let* current := method_of "destroy" top in
  ScreenCommon.destroy current.

Definition isHeaderBackVisible (tab : nat) : M bool :=
  let* this := the_tab tab in
  ret (array_length (Backstack.screens (backstack this)) >? 1).

(** The calls [this.backstack.pop()], [.popForced()], [.push(screen)]. *)
Definition backstack_pop (tab : nat) : M bool :=
  let* this := the_tab tab in
  let '(r, b) := Backstack.pop (backstack this) in
  update_backstack tab b >>> ret r.

Definition backstack_popForced (tab : nat) : M bool :=
  let* this := the_tab tab in
  let '(r, b) := Backstack.popForced (backstack this) in
  update_backstack tab b >>> ret r.

Definition backstack_push (tab : nat) (screen : loc) : M bool :=
  let* this := the_tab tab in
  let '(r, b) := Backstack.push screen (backstack this) in
  update_backstack tab b >>> ret r.

End TabCommon.

Module TabBarCommon.

(** [this.tabs.find(...)]: the first Tab with that view id. *)
Fixpoint find_from (i : nat) (ts : list Tab) (tabViewId : string) : option nat :=
  match ts with
  | [] => None
  | t :: r => if String.eqb (viewId t) tabViewId then Some i
              else find_from (S i) r tabViewId
  end.

Definition findTab (tabViewId : string) : M (option nat) :=
  let* ts := get tabs in
  match find_from 0 ts tabViewId with
  | Some selectedTab => ret (Some selectedTab)
  | None =>
      console_error ("backstack.js findTab(): could not find tab with id '"
                     +:+ tabViewId +:+ "'") >>>
      ret None
  end.

Definition addSelectedViewClass (view : string) : M unit :=
  jq_addClass view tabSelectedClassName.

Definition removeSelectedViewClass (view : string) : M unit :=
  jq_removeClass view tabSelectedClassName.

(** [this.tabs.forEach(function (tab) { ... })] *)
Fixpoint forEach_tab (f : nat -> M unit) (i n : nat) : M unit :=
  match n with
  | O => ret tt
  | S n' => f i >>> forEach_tab f (S i) n'
  end.

Definition setTabsClickListeners : M unit :=
  let* n := get (fun w => length (tabs w)) in
  forEach_tab (fun tab =>
    let* t := the_tab tab in
    jq_on ("#" +:+ viewId t) click (TabSelect tab) >>>
    TabCommon.onClick tab) 0%nat n.

(** The closure [function () { removeSelectedViewClass(...); addSelectedViewClass(...) }]. *)
Definition select_closure (tab : nat) : M unit :=
  let* t := the_tab tab in
  removeSelectedViewClass ("." +:+ "btn-tab") >>>
  addSelectedViewClass ("#" +:+ viewId t).

(** The closure [function () { findTab(selectedTabViewId).destroy(); selectedTabViewId = tab.viewId }]
    passed to [animateOut]. *)
Definition animateOut_onComplete (tab : nat) : M unit :=
  let* sel := get selectedTabViewId in
  let* found := findTab sel in
  let* previous := method_of "destroy" found in
  TabCommon.destroy previous >>>
  let* t := the_tab tab in
  modify (with_selected (viewId t)).

End TabBarCommon.

(** [$(appViewId).html(htmlCode)]: with a string, the children of the viewport
    are replaced by the parsed markup (their listeners go with them); with
    [undefined], jQuery's [.html] is the getter and changes nothing. *)
Definition jq_html (parse_html : string -> list Attrs) (htmlCode : option string) : M unit :=
  let* sel := get appViewId in
  match htmlCode with
  | Some h =>
      modify (with_page (fun p =>
        mkPage (chrome p) (viewport_visibility p) h (map new_element (parse_html h))))
  | None => ret tt
  end >>>
  emit (JqHtml sel htmlCode).

(** [$(viewId).css("visibility", v)] on the viewport. *)
Definition jq_viewport_visibility (v : string) : M unit :=
  let* sel := get appViewId in
  modify (with_page (fun p =>
    mkPage (chrome p) (Some v) (viewport_html p) (viewport_children p))) >>>
  emit (JqCss sel "visibility" v).

(** What an event handler sees of the event: [this.href], [e.target.action],
    [e.target.method], and what [$(submitTerm).serializeArray()] returns. *)
Record EventData := mkEventData {
  ev_href : string;
  ev_action : string;
  ev_method : string;
  ev_serialized : FormData
}.

Definition event_on (e : Element) (serialized : FormData) : EventData :=
  mkEventData (at_href (el_attrs e)) (at_action (el_attrs e))
              (at_method (el_attrs e)) serialized.

(** Turns of the event loop. *)
Inductive Input :=
| UserClick (target : ElemRef)
| UserSubmit (target : ElemRef) (serialized : FormData)
| AjaxResponse (id : nat) (r : Response).

(** jQuery runs the listeners that were on the element when the event
    arrived, in the order in which they were bound; an exception ends the turn. *)
Fixpoint run_listeners (run : Handler -> M unit) (hs : list Handler) : M unit :=
  match hs with
  | [] => ret tt
  | h :: r => run h >>> run_listeners run r
  end.

Definition listeners_of (ev : EventName) (e : Element) : list Handler :=
  map snd (List.filter (fun l => EventName_eqb (fst l) ev) (el_listeners e)).

Definition dispatch (run : Handler -> EventData -> M unit) (ev : EventName)
    (target : ElemRef) (serialized : FormData) : M unit :=
  let* p := get page in
  match element_at target p with
  | Some e => run_listeners (fun h => run h (event_on e serialized)) (listeners_of ev e)
  | None => ret tt
  end.

(** ** src/public/lib/backstackjs/js/backstack.js *)

Module PublicLib.
Section WithBrowser.

Variable parse_html : string -> list Attrs.

(** *** class TabBar: the callbacks it hands to its Tabs *)

Definition animateIn : M unit :=
  console_log "animateIn(): starting" >>>
  jq_viewport_visibility "visible".

Definition animateOut (onComplete : M unit) : M unit :=
  console_log "animateOut(): starting" >>>
  jq_viewport_visibility "hidden" >>>
  onComplete.

(** [preCreate]: the first closure passed to [tab.onClick]. *)
Definition preCreate (tab : nat) : M unit :=
  animateOut (TabBarCommon.animateOut_onComplete tab).

(** [onGetHTML]: the second closure passed to [tab.onClick]. *)
Definition onGetHTML (tab : nat) (htmlCode url : option string) : M unit :=
  jq_html parse_html htmlCode >>>
  let* t := the_tab tab in
  emit (OnViewUpdated (viewId t) url) >>>
  animateIn.

(** *** class Screen *)

(** [new Screen(url)]: allocates the object and returns its reference. *)
Definition new_Screen (u : string) : M loc :=
  let* l := get (fun w => length (heap w)) in
  modify (with_heap (fun h => h ++ [
    mkScreen u None (Some false) ".bs-override-go" ".bs-override-back"
             ".bs-override-clear" ".bs-override-submit" ".bs-override-refresh"])) >>>
  ret l.

(** The function passed to [$.get] by [initialise] and [initialiseIgnoreCache].
    [this] is the settings object of the request, [self] is the Screen. *)
Definition initialise_callback (this : nat) (self : loc) (isBackVisible : bool)
    (tab : nat) (htmlCode : string) : M unit :=
  modify (with_requests (fun rs =>
    match rs !! this with
    | Some r => <[this := mkAjax (ajax_url r) (ajax_type r) (ajax_data r)
                            (ajax_callbacks r) (ajax_completed r) (Some false)]> rs
    | None => rs
    end)) >>>
  update_screen self (fun s =>
    mkScreen (url s) (Some htmlCode) (forceRefreshOnLoad s) (goTerm s) (backTerm s)
             (goAndClearTerm s) (submitTerm s) (refreshTerm s)) >>>
  let* s := deref self in
  onGetHTML tab (Some htmlCode) (Some (url s)) >>>
  ScreenCommon.setupOverrides self isBackVisible tab.

Definition initialiseIgnoreCache (self : loc) (isBackVisible : bool) (tab : nat) : M unit :=
  let* this := deref self in
  jq_ajax (url this) "GET" None (InitialiseCallbacks self isBackVisible tab).

Definition initialise (self : loc) (isBackVisible : bool) (tab : nat) : M unit :=
  let* this := deref self in
  if is_null (htmlCode this) || ToBoolean_flag (forceRefreshOnLoad this)
  then jq_ajax (url this) "GET" None (InitialiseCallbacks self isBackVisible tab)
  else
    onGetHTML tab (htmlCode this) (Some (url this)) >>>
    ScreenCommon.setupOverrides self isBackVisible tab.

(** *** class Tab *)

Definition getHtml (tab : nat) : M unit :=
  let* top := TabCommon.backstack_getCurrent tab in
  let* current := method_of "initialise" top in
  let* isBackVisible := TabCommon.isHeaderBackVisible tab in
  initialise current isBackVisible tab.

Definition submitForm (tab : nat) (action method : string) (data : FormData) : M unit :=
  jq_ajax action (toUpperCase method) (Some data) (SubmitFormCallbacks tab).

Definition onGo (tab : nat) (u : string) : M unit :=
  let* screen := new_Screen u in
  let* pushed := TabCommon.backstack_push tab screen in
  if pushed then getHtml tab
  else console_error ("onGo(): could not push screen with url '" +:+ u
                      +:+ "' to the backstack.").

Definition onBack (tab : nat) : M unit :=
  let* popped := TabCommon.backstack_pop tab in
  if popped then getHtml tab
  else
    let* this := the_tab tab in
    console_log ("onBack(): did not pop Screen from backstack, though this could be because it's the last in stack. backstack length = "
                 +:+ pretty (array_length (Backstack.screens (backstack this)))).

Definition onGoAndClear (tab : nat) (u : string) : M unit :=
  TabCommon.backstack_popForced tab >>>
  let* screen := new_Screen u in
  TabCommon.backstack_push tab screen >>>
  getHtml tab.

Definition onSubmit (tab : nat) (action method : string) (data : FormData) : M unit :=
  submitForm tab action method data.

Definition onRefresh (tab : nat) : M unit :=
  getHtml tab.

(** *** The bodies of the closures bound to DOM events *)

Definition set_forceRefreshOnLoad (self : loc) (b : bool) : M unit :=
  update_screen self (fun s =>
    mkScreen (url s) (htmlCode s) (Some b) (goTerm s) (backTerm s)
             (goAndClearTerm s) (submitTerm s) (refreshTerm s)).

Definition run_handler (h : Handler) (e : EventData) : M unit :=
  match h with
  | TabSelect tab => TabBarCommon.select_closure tab
  | TabClick tab => preCreate tab >>> getHtml tab
  | GoOverride self tab =>
      console_log "setGoOverride(): onClick" >>>
      ScreenCommon.destroy self >>>
      onGo tab (ev_href e)
  | BackOverride self tab =>
      ScreenCommon.destroy self >>>
      onBack tab
  | GoAndClearOverride self tab =>
      ScreenCommon.destroy self >>>
      onGoAndClear tab (ev_href e)
  | SubmitOverride self tab =>
      set_forceRefreshOnLoad self true >>>
      onSubmit tab (ev_action e) (ev_method e) (ev_serialized e)
  | RefreshOverride self tab =>
      console_log "setRefreshOverride(): onClick" >>>
      set_forceRefreshOnLoad self true >>>
      ScreenCommon.destroy self >>>
      onRefresh tab
  end.

(** *** Completion of a request *)

Definition run_callbacks (this : nat) (k : Continuation) (r : Response) : M unit :=
  match k, r with
  | InitialiseCallbacks self isBackVisible tab, Success body =>
      initialise_callback this self isBackVisible tab body
  | InitialiseCallbacks _ _ _, Failure _ _ => ret tt     (* [$.get] was given no error callback *)
  | SubmitFormCallbacks tab, Success _ =>
      onGetHTML tab None None                            (* [onSuccess()] without arguments *)
  | SubmitFormCallbacks tab, Failure status statusText =>
      console_error ("setSubmitOverride(): onFailure: " +:+ pretty status
                     +:+ " " +:+ statusText)
  end.

Definition complete (id : nat) (r : Response) : M unit :=
  let* rs := get requests in
  match rs !! id with
  | Some req =>
      if ajax_completed req then ret tt
      else
        modify (with_requests (fun rs =>
          <[id := mkAjax (ajax_url req) (ajax_type req) (ajax_data req)
                         (ajax_callbacks req) true (ajax_forceRefreshOnLoad req)]> rs)) >>>
        run_callbacks id (ajax_callbacks req) r
  | None => ret tt
  end.

(** *** The event loop *)

Definition handle (i : Input) : M unit :=
  match i with
  | UserClick target => dispatch run_handler click target []
  | UserSubmit target serialized => dispatch run_handler submit target serialized
  | AjaxResponse id r => complete id r
  end.

Definition step (i : Input) (w : World) : World := world_of (handle i w).

Definition run (inputs : list Input) (w : World) : World :=
  fold_left (fun w i => step i w) inputs w.

(** *** TabBar: construction *)

Definition clickTab (tabViewId : string) : M unit :=
  let* p := get page in
  fold_right (fun target k => dispatch run_handler click target [] >>> k) (ret tt)
             (select_refs ("#" +:+ tabViewId) p).

(** [new TabBar(tabs, appViewId, selectedTabViewId, transitionSpeed, onViewUpdated)],
    run on a page whose Screens have been allocated. *)
Definition new_TabBar (tabs0 : list Tab) (appViewId0 selectedTabViewId0 : string) : M unit :=
  modify (fun w => mkWorld (heap w) tabs0 selectedTabViewId0 appViewId0 (page w)
                           (requests w) (trace w)) >>>
  TabBarCommon.setTabsClickListeners >>>
  clickTab selectedTabViewId0.

End WithBrowser.
End PublicLib.

(** ** src/unnamed/part_001 *)

Module Part001.
Section WithBrowser.

Variable parse_html : string -> list Attrs.

(** *** class TabBar: the callbacks it hands to its Tabs *)

Definition animateIn : M unit :=
  jq_viewport_visibility "visible".

Definition animateOut (onComplete : M unit) : M unit :=
  jq_viewport_visibility "hidden" >>>
  onComplete.

Definition preCreate (tab : nat) : M unit :=
  animateOut (TabBarCommon.animateOut_onComplete tab).

(** The second and third closures passed to [tab.onClick]. *)
Definition onSuccess (tab : nat) (htmlCode url : option string) : M unit :=
  jq_html parse_html htmlCode >>>
  let* t := the_tab tab in
  emit (OnViewUpdated (viewId t) url) >>>
  animateIn.

Definition onError (tab : nat) (url : option string) : M unit :=
  let* t := the_tab tab in
  emit (OnError (viewId t) url).

(** *** class Screen *)

Definition new_Screen (u : string) : M loc :=
  let* l := get (fun w => length (heap w)) in
  modify (with_heap (fun h => h ++ [
    mkScreen u None None ".bs-override-go" ".bs-override-back"
             ".bs-override-clear" ".bs-override-submit" ".bs-override-refresh"])) >>>
  ret l.

(** [Screen.getHtml]; both callbacks are the closures built by [initialise]. *)
Definition Screen_getHtml (action method : string) (data : option FormData)
    (callbacks : Continuation) : M unit :=
  jq_ajax action (toUpperCase method) data callbacks.

(** The success and error closures that [initialise] passes to [getHtml]. *)
Definition initialise_success (self : loc) (isBackVisible : bool) (tab : nat)
    (htmlCode action : string) : M unit :=
  update_screen self (fun s =>
    mkScreen (url s) (Some htmlCode) (forceRefreshOnLoad s) (goTerm s)
             (backTerm s) (goAndClearTerm s) (submitTerm s) (refreshTerm s)) >>>
  onSuccess tab (Some htmlCode) (Some action) >>>
  ScreenCommon.setupOverrides self isBackVisible tab.

Definition initialise_error (tab : nat) (status : Z) (statusText action : string) : M unit :=
  console_error ("Screen initialise(): onError: " +:+ pretty status +:+ " "
                 +:+ statusText) >>>
  onError tab (Some action).

Definition initialise (self : loc) (method : string) (data : option FormData)
    (isBackVisible forceRefresh : bool) (tab : nat) : M unit :=
  let* this := deref self in
  if is_null (htmlCode this) || forceRefresh
  then Screen_getHtml (url this) method data (InitialiseCallbacks self isBackVisible tab)
  else
    onSuccess tab (htmlCode this) (Some (url this)) >>>
    ScreenCommon.setupOverrides self isBackVisible tab.

(** *** class Tab *)

Definition setCurrentScreenHTML (tab : nat) (method : string) (data : option FormData)
    (forceRefresh : bool) : M unit :=
  let* top := TabCommon.backstack_getCurrent tab in
  let* current := method_of "initialise" top in
  let* isBackVisible := TabCommon.isHeaderBackVisible tab in
  initialise current method data isBackVisible forceRefresh tab.

Definition onGo (tab : nat) (u : string) : M unit :=
  let* screen := new_Screen u in
  let* pushed := TabCommon.backstack_push tab screen in
  if pushed then setCurrentScreenHTML tab "GET" None true
  else console_error ("onGo(): could not push screen with url '" +:+ u
                      +:+ "' to the backstack.").

Definition onBack (tab : nat) : M unit :=
  let* popped := TabCommon.backstack_pop tab in
  if popped then setCurrentScreenHTML tab "GET" None false
  else
    let* this := the_tab tab in
    console_log ("onBack(): did not pop Screen from backstack, though this could be because it's the last in stack. backstack length = "
                 +:+ pretty (array_length (Backstack.screens (backstack this)))).

Definition onGoAndClear (tab : nat) (u : string) : M unit :=
  TabCommon.backstack_popForced tab >>>
  onGo tab u.

(** The [else] branch reads the variable [url], which is not in scope there. *)
Definition onSubmit (tab : nat) (action method : string) (data : option FormData) : M unit :=
  let* screen := new_Screen action in
  let* pushed := TabCommon.backstack_push tab screen in
  if pushed then setCurrentScreenHTML tab method data false
  else throw (ReferenceError "url is not defined").

Definition onRefresh (tab : nat) : M unit :=
  setCurrentScreenHTML tab "GET" None false.

(** *** The bodies of the closures bound to DOM events *)

Definition run_handler (h : Handler) (e : EventData) : M unit :=
  match h with
  | TabSelect tab => TabBarCommon.select_closure tab
  | TabClick tab => preCreate tab >>> setCurrentScreenHTML tab "GET" None true
  | GoOverride self tab =>
      ScreenCommon.destroy self >>>
      onGo tab (ev_href e)
  | BackOverride self tab =>
      ScreenCommon.destroy self >>>
      onBack tab
  | GoAndClearOverride self tab =>
      ScreenCommon.destroy self >>>
      onGoAndClear tab (ev_href e)
  | SubmitOverride self tab =>
      ScreenCommon.destroy self >>>
      onSubmit tab (ev_action e) (ev_method e) (Some (ev_serialized e))
  | RefreshOverride self tab =>
      ScreenCommon.destroy self >>>
      onRefresh tab
  end.

(** *** Completion of a request *)

Definition run_callbacks (req : AjaxSettings) (r : Response) : M unit :=
  match ajax_callbacks req, r with
  | InitialiseCallbacks self isBackVisible tab, Success body =>
      initialise_success self isBackVisible tab body (ajax_url req)
  | InitialiseCallbacks _ _ tab, Failure status statusText =>
      initialise_error tab status statusText (ajax_url req)
  | SubmitFormCallbacks _, _ => ret tt                  (* never issued by this variant *)
  end.

Definition complete (id : nat) (r : Response) : M unit :=
  let* rs := get requests in
  match rs !! id with
  | Some req =>
      if ajax_completed req then ret tt
      else
        modify (with_requests (fun rs =>
          <[id := mkAjax (ajax_url req) (ajax_type req) (ajax_data req)
                         (ajax_callbacks req) true (ajax_forceRefreshOnLoad req)]> rs)) >>>
        run_callbacks req r
  | None => ret tt
  end.

(** *** The event loop *)

Definition handle (i : Input) : M unit :=
  match i with
  | UserClick target => dispatch run_handler click target []
  | UserSubmit target serialized => dispatch run_handler submit target serialized
  | AjaxResponse id r => complete id r
  end.

Definition step (i : Input) (w : World) : World := world_of (handle i w).

Definition run (inputs : list Input) (w : World) : World :=
  fold_left (fun w i => step i w) inputs w.

Definition clickTab (tabViewId : string) : M unit :=
  let* p := get page in
  fold_right (fun target k => dispatch run_handler click target [] >>> k) (ret tt)
             (select_refs ("#" +:+ tabViewId) p).

Definition new_TabBar (tabs0 : list Tab) (appViewId0 selectedTabViewId0 : string) : M unit :=
  modify (fun w => mkWorld (heap w) tabs0 selectedTabViewId0 appViewId0 (page w)
                           (requests w) (trace w)) >>>
  TabBarCommon.setTabsClickListeners >>>
  clickTab selectedTabViewId0.

End WithBrowser.
End Part001.

(** ** A small page to run the library on *)

Module Demo.

(** Every fetched fragment carries one control of each kind. *)
Definition parse_html (h : string) : list Attrs :=
  [ mkAttrs "go" ["bs-override-go"] "page2" EmptyString EmptyString;
    mkAttrs "back" ["bs-override-back"] EmptyString EmptyString EmptyString;
    mkAttrs "clear" ["bs-override-clear"] "page3" EmptyString EmptyString;
    mkAttrs "form" ["bs-override-submit"] EmptyString "save.endpoint" "post";
    mkAttrs "refresh" ["bs-override-refresh"] EmptyString EmptyString EmptyString ].

Definition tab_button (id : string) : Element :=
  new_element (mkAttrs id ["btn-tab"] EmptyString EmptyString EmptyString).

Definition nav_back : Element :=
  new_element (mkAttrs "nav-back" ["bs-override-back"] EmptyString EmptyString EmptyString).

Definition page0 : Page :=
  mkPage [nav_back; tab_button "tab-one"; tab_button "tab-two"] None EmptyString [].

Definition screen0 (variant_flag : option bool) (u : string) : Screen :=
  mkScreen u None variant_flag ".bs-override-go" ".bs-override-back"
           ".bs-override-clear" ".bs-override-submit" ".bs-override-refresh".

(** Before [new TabBar(...)]: two Screens allocated, nothing else. *)
Definition world0 (variant_flag : option bool) : World :=
  mkWorld [screen0 variant_flag "Home"; screen0 variant_flag "Other"] [] EmptyString EmptyString
          page0 [] [].

Definition tab_one : Tab := mkTab (Backstack.constructor [0%nat]) "tab-one".
Definition tab_two : Tab := mkTab (Backstack.constructor [1%nat]) "tab-two".

Definition tabs0 : list Tab := [tab_one; tab_two].

Definition stack_urls (w : World) (tab : nat) : list (option string) :=
  match tabs w !! tab with
  | Some t => map (fun l => option_map url (heap w !! l)) (Backstack.screens (backstack t))
  | None => []
  end.

(** [new TabBar(tabs0, "main", "tab-one", ...)], then the first response. *)
Definition lib_start : World :=
  world_of (PublicLib.new_TabBar parse_html tabs0 "main" "tab-one" (world0 (Some false))).

Definition lib_home : World :=
  PublicLib.run parse_html [AjaxResponse 0 (Success "<home>")] lib_start.

Definition part001_start : World :=
  world_of (Part001.new_TabBar parse_html tabs0 "main" "tab-one" (world0 None)).

Definition part001_home : World :=
  Part001.run parse_html [AjaxResponse 0 (Success "<home>")] part001_start.

(** The Home Screen once its markup is cached. *)
Definition home (variant_flag : option bool) : Screen :=
  mkScreen "Home" (Some "<home>") variant_flag ".bs-override-go" ".bs-override-back"
           ".bs-override-clear" ".bs-override-submit" ".bs-override-refresh".

(** The controls of the rendered fragment, by position in the viewport. *)
Definition go_link : ElemRef := InViewport 0.
Definition back_link : ElemRef := InViewport 1.
Definition clear_link : ElemRef := InViewport 2.
Definition form : ElemRef := InViewport 3.
Definition refresh_button : ElemRef := InViewport 4.
Definition tab_two_button : ElemRef := InChrome 2.

End Demo.

(** * Vocabulary of the statements *)

(** The line that [Tab.onBack] logs when the stack holds one Screen. *)
Definition onBack_diagnostic : string :=
  "onBack(): did not pop Screen from backstack, though this could be because it's the last in stack. backstack length = 1".

Definition set_stack (tab : nat) (t : Tab) (stack : list loc) (w : World) : World :=
  with_tabs (fun ts => <[tab := mkTab (Backstack.mk stack) (viewId t)]> ts) w.

(** [new Screen(url)] in either variant. *)
Definition fresh_screen (flag : option bool) (u : string) : Screen :=
  mkScreen u None flag ".bs-override-go" ".bs-override-back"
           ".bs-override-clear" ".bs-override-submit" ".bs-override-refresh".

(** The world with one more Screen object. *)
Definition alloc (s : Screen) (w : World) : World := with_heap (fun h => h ++ [s]) w.

(** The world with one more request in flight. *)
Definition send (u type : string) (data : option FormData) (k : Continuation)
    (w : World) : World :=
  with_trace (fun tr => tr ++ [Ajax (length (requests w)) u type data])
    (with_requests (fun rs => rs ++ [mkAjax u type data k false None]) w).

(** What go-and-clear leaves behind, in terms of the world it started from:
    [flag] is the value the variant's constructor gives [forceRefreshOnLoad]. *)
Definition replaced (flag : option bool) (tab : nat) (t : Tab) (dest : string)
    (w w' : World) : Prop :=
  let n := length (heap w) in
  let stack' := removelast (Backstack.screens (backstack t)) ++ [n] in
  tabs w' = <[tab := mkTab (Backstack.mk stack') (viewId t)]> (tabs w)
  /\ heap w' = heap w ++ [fresh_screen flag dest]
  /\ requests w' = requests w ++
       [mkAjax dest "GET" None
               (InitialiseCallbacks n (1 <? length stack')%nat tab) false None]
  /\ trace w' = trace w ++ [Ajax (length (requests w)) dest "GET" None]
  /\ page w' = page w
  /\ selectedTabViewId w' = selectedTabViewId w.

Definition empty_tab_world : World :=
  mkWorld [] [mkTab (Backstack.constructor []) "tab-one"] "tab-one" "main"
          Demo.page0 [] [].

(** What the engine raises for a method call on [undefined]. *)
Definition undefined_receiver (name : string) : JsError :=
  TypeError ("Cannot read properties of undefined (reading '" +:+ name +:+ "')").

Definition on_ev (ev : EventName) (l : EventName * Handler) : bool :=
  EventName_eqb (fst l) ev.

(** No listener for [ev] on [e] if [sel] selects it. *)
Definition silent (sel : string) (ev : EventName) (e : Element) : Prop :=
  matches sel e = true -> List.filter (on_ev ev) (el_listeners e) = [].

(** What [$(sel).off(ev)] does to one element. *)
Definition off_if (sel : string) (ev : EventName) (e : Element) : Element :=
  if matches sel e then el_off ev e else e.

(** The page after the five [off] calls of [Screen.destroy]. *)
Definition release (its : list (string * EventName)) (p : Page) : Page :=
  fold_left (fun p it => jq_each (fst it) (el_off (snd it)) p) its p.

(** The five [off] calls, as they appear in the trace. *)
Definition off_calls (its : list (string * EventName)) : list Effect :=
  map (fun it => JqOff (fst it) (snd it)) its.

(** The world after [Screen.destroy] on the Screen [s]. *)
Definition destroyed (s : Screen) (w : World) : World :=
  with_trace (fun tr => tr ++ off_calls (ScreenCommon.interceptors s))
    (with_page (release (ScreenCommon.interceptors s)) w).

(** The world after one [off] call. *)
Definition off_world (sel : string) (ev : EventName) (w : World) : World :=
  with_trace (fun tr => tr ++ [JqOff sel ev]) (with_page (jq_each sel (el_off ev)) w).

Definition preserves (R : World -> World -> Prop) {A} (m : M A) : Prop :=
  forall w, R w (world_of (m w)).

Definition trace_extends (w w' : World) : Prop :=
  exists post, trace w' = trace w ++ post.

(** [TabBar.selectedTabViewId] is the same in [w'] as in [w]. *)
Definition same_selection (w w' : World) : Prop :=
  selectedTabViewId w' = selectedTabViewId w.

(** [$(appViewId).css("visibility", "hidden")], on the page and on the world. *)
Definition hidden_page (p : Page) : Page :=
  mkPage (chrome p) (Some "hidden") (viewport_html p) (viewport_children p).

Definition hide (w : World) : World :=
  with_trace (fun tr => tr ++ [JqCss (appViewId w) "visibility" "hidden"])
    (with_page hidden_page w).

(** The world in which the tab-click closure starts fetching or re-using the
    markup of the clicked Tab, related to the world [w] in which the click
    arrived: [before] lists the effects that precede the release of the
    listeners of [ps], the Screen that was current in the previously selected
    Tab. *)
Definition torn_down (before : list Effect) (ps : Screen) (t : Tab)
    (w w1 : World) : Prop :=
  trace w1 = trace w ++ before ++ off_calls (ScreenCommon.interceptors ps)
  /\ Forall (fun it => listeners_on (fst it) (snd it) (page w1) = [])
            (ScreenCommon.interceptors ps)
  /\ viewport_html (page w1) = viewport_html (page w)
  /\ selectedTabViewId w1 = viewId t
  /\ heap w1 = heap w /\ tabs w1 = tabs w /\ requests w1 = requests w.

(** The effect is a write of markup into the viewport. *)
Definition is_html_write (e : Effect) : bool :=
  match e with JqHtml _ _ => true | _ => false end.

Definition logged (e : Effect) (w : World) : World :=
  with_trace (fun tr => tr ++ [e]) w.

Definition rendered (parse_html : string -> list Attrs) (h : string) (w : World) : World :=
  logged (JqHtml (appViewId w) (Some h))
    (with_page (fun p => mkPage (chrome p) (viewport_visibility p) h
                                (map new_element (parse_html h))) w).

Definition revealed (w : World) : World :=
  logged (JqCss (appViewId w) "visibility" "visible")
    (with_page (fun p => mkPage (chrome p) (Some "visible") (viewport_html p)
                                (viewport_children p)) w).

Definition on_world (sel : string) (ev : EventName) (h : Handler) (w : World) : World :=
  logged (JqOn sel ev h) (with_page (jq_each sel (el_on ev h)) w).

Definition css_world (sel v : string) (w : World) : World :=
  logged (JqCss sel "visibility" v) (with_page (jq_each sel (el_css_visibility v)) w).

(** The world after [setupOverrides]. *)
Definition bound (s : Screen) (self : loc) (isBackVisible : bool) (tab : nat)
    (w : World) : World :=
  on_world (refreshTerm s) click (RefreshOverride self tab)
    (on_world (submitTerm s) submit (SubmitOverride self tab)
       (on_world (goAndClearTerm s) click (GoAndClearOverride self tab)
          (on_world (backTerm s) click (BackOverride self tab)
             (on_world (goTerm s) click (GoOverride self tab)
                (css_world (backTerm s) (if isBackVisible then "visible" else "hidden")
                   w))))).

(** The world after TabBar's [onGetHTML] / [onSuccess] closure has rendered [h]. *)
Definition PublicLib_shown (parse_html : string -> list Attrs) (t : Tab) (h : string)
    (u : option string) (w : World) : World :=
  revealed (logged (ConsoleLog "animateIn(): starting")
              (logged (OnViewUpdated (viewId t) u) (rendered parse_html h w))).

Definition Part001_shown (parse_html : string -> list Attrs) (t : Tab) (h : string)
    (u : option string) (w : World) : World :=
  revealed (logged (OnViewUpdated (viewId t) u) (rendered parse_html h w)).

(** The Screen with [htmlCode] set to the response; the world with the
    Screen object at [self] replaced. *)
Definition cache (body : string) (s : Screen) : Screen :=
  mkScreen (url s) (Some body) (forceRefreshOnLoad s) (goTerm s) (backTerm s)
           (goAndClearTerm s) (submitTerm s) (refreshTerm s).

Definition store (self : loc) (s : Screen) (w : World) : World :=
  with_heap (fun h => <[self := s]> h) w.

(** The request with position [id] is marked completed. *)
Definition mark_completed (id : nat) (req : AjaxSettings) (w : World) : World :=
  with_requests (fun rs =>
    <[id := mkAjax (ajax_url req) (ajax_type req) (ajax_data req)
                   (ajax_callbacks req) true (ajax_forceRefreshOnLoad req)]> rs) w.

(** [this.forceRefreshOnLoad = false], [this] being the settings object [id]. *)
Definition flag_on_settings (id : nat) (w : World) : World :=
  with_requests (fun rs =>
    match rs !! id with
    | Some r => <[id := mkAjax (ajax_url r) (ajax_type r) (ajax_data r)
                            (ajax_callbacks r) (ajax_completed r) (Some false)]> rs
    | None => rs
    end) w.

(** What [Tab.onSubmit] of part_001 leaves behind, and what the completion of
    its request leaves behind. *)
Definition submitted (tab : nat) (t : Tab) (action method : string)
    (data : option FormData) (w w1 : World) : Prop :=
  let n := length (heap w) in
  let stack' := Backstack.screens (backstack t) ++ [n] in
  tabs w1 = <[tab := mkTab (Backstack.mk stack') (viewId t)]> (tabs w)
  /\ heap w1 = heap w ++ [fresh_screen None action]
  /\ requests w1 = requests w ++
       [mkAjax action (toUpperCase method) data
               (InitialiseCallbacks n (1 <? length stack')%nat tab) false None]
  /\ page w1 = page w.

(** What the success of that request leaves behind, [w1] being the world
    after [Tab.onSubmit] and [w] the world before it. *)
Definition response_shown (tab : nat) (action body : string) (w w1 w2 : World) : Prop :=
  let n := length (heap w) in
  tabs w2 = tabs w1
  /\ viewport_html (page w2) = body
  /\ (exists s2, heap w2 !! n = Some s2 /\ url s2 = action /\ htmlCode s2 = Some body)
  /\ last (trace w2) = Some (JqOn ".bs-override-refresh" click (RefreshOverride n tab)).

(** What [Tab.onSubmit] of public/lib leaves behind. *)
Definition only_sent (tab : nat) (action method : string) (data : FormData)
    (w w1 : World) : Prop :=
  tabs w1 = tabs w /\ heap w1 = heap w /\ page w1 = page w
  /\ requests w1 = requests w ++
       [mkAjax action (toUpperCase method) (Some data) (SubmitFormCallbacks tab) false None].

Definition flagged (s : Screen) : Screen :=
  mkScreen (url s) (htmlCode s) (Some true) (goTerm s) (backTerm s)
           (goAndClearTerm s) (submitTerm s) (refreshTerm s).

Definition no_event : EventData := mkEventData EmptyString EmptyString EmptyString [].

(** The serialized form of scenario E. *)
Definition x_is_1 : FormData := [("x", "1")].

(** public/lib, Home shown, then its form submitted: Home is marked stale. *)
Definition lib_after_submit : World :=
  PublicLib.run Demo.parse_html [UserSubmit Demo.form x_is_1] Demo.lib_home.

(** The effect is the sending of a request. *)
Definition is_ajax (e : Effect) : bool :=
  match e with Ajax _ _ _ _ => true | _ => false end.

Definition went (flag : option bool) (tab : nat) (t : Tab) (dest : string)
    (w w' : World) : Prop :=
  let n := length (heap w) in
  let stack' := Backstack.screens (backstack t) ++ [n] in
  tabs w' = <[tab := mkTab (Backstack.mk stack') (viewId t)]> (tabs w)
  /\ heap w' = heap w ++ [fresh_screen flag dest]
  /\ requests w' = requests w ++
       [mkAjax dest "GET" None
               (InitialiseCallbacks n (1 <=? Backstack.depth (backstack t))%nat tab)
               false None]
  /\ trace w' = trace w ++ [Ajax (length (requests w)) dest "GET" None]
  /\ page w' = page w
  /\ selectedTabViewId w' = selectedTabViewId w.

(** What [Tab.onBack] leaves behind when the Screen below the top has its
    markup [c] cached and is served from the cache. *)
Definition went_back (tab : nat) (t : Tab) (prev : loc) (s : Screen) (c : string)
    (w w' : World) : Prop :=
  tabs w' = <[tab := mkTab (Backstack.mk (removelast (Backstack.screens (backstack t))))
                           (viewId t)]> (tabs w)
  /\ heap w' = heap w
  /\ requests w' = requests w
  /\ viewport_html (page w') = c
  /\ In (JqHtml (appViewId w) (Some c)) (trace w')
  /\ In (OnViewUpdated (viewId t) (Some (url s))) (trace w')
  /\ In (JqOn (backTerm s) click (BackOverride prev tab)) (trace w').

(** public/lib and part_001 after Scenario A: go to page2 from Home, the
    markup of page2 has arrived. *)
Definition lib_page2 : World :=
  PublicLib.run Demo.parse_html
    [UserClick Demo.go_link; AjaxResponse 1 (Success "<p2>")] Demo.lib_home.

Definition part001_page2 : World :=
  Part001.run Demo.parse_html
    [UserClick Demo.go_link; AjaxResponse 1 (Success "<p2>")] Demo.part001_home.

(** public/lib after Scenario A, with Home marked stale by a submit before
    the go: the form on Home is submitted, then the go link is clicked. *)
Definition lib_page2_stale_home : World :=
  PublicLib.run Demo.parse_html
    [UserSubmit Demo.form x_is_1; UserClick Demo.go_link;
     AjaxResponse 2 (Success "<p2>")] Demo.lib_home.

Definition findTab_error (tabViewId : string) : Effect :=
  ConsoleError ("backstack.js findTab(): could not find tab with id '"
                +:+ tabViewId +:+ "'").

(** No Tab of the TabBar has the view id [v]. *)
Definition no_tab_with (v : string) (w : World) : Prop :=
  forall i t, tabs w !! i = Some t -> viewId t <> v.

(** The world in which a tab click ends when the selection names no Tab. *)
Definition stuck (before : list Effect) (w w' : World) : Prop :=
  trace w' = trace w ++ before
             ++ [JqCss (appViewId w) "visibility" "hidden";
                 findTab_error (selectedTabViewId w)]
  /\ viewport_visibility (page w') = Some "hidden"
  /\ viewport_html (page w') = viewport_html (page w)
  /\ selectedTabViewId w' = selectedTabViewId w
  /\ tabs w' = tabs w /\ heap w' = heap w /\ requests w' = requests w.

(** The demo page with a TabBar constructed for an initial id that no Tab has. *)
Definition lib_wrong_start : World :=
  world_of (PublicLib.new_TabBar Demo.parse_html Demo.tabs0 "main" "tab-nine"
              (Demo.world0 (Some false))).

Definition has_class (c : string) (e : Element) : bool :=
  existsb (String.eqb c) (el_classes e).

(** The listeners that [setupOverrides] adds to the element [e], in the order
    in which it adds them. *)
Definition installed (s : Screen) (self : loc) (tab : nat) (e : Element)
    : list (EventName * Handler) :=
  (if matches (goTerm s) e then [(click, GoOverride self tab)] else [])
  ++ (if matches (backTerm s) e then [(click, BackOverride self tab)] else [])
  ++ (if matches (goAndClearTerm s) e then [(click, GoAndClearOverride self tab)] else [])
  ++ (if matches (submitTerm s) e then [(submit, SubmitOverride self tab)] else [])
  ++ (if matches (refreshTerm s) e then [(click, RefreshOverride self tab)] else []).

(** The element [e'] is [e] after [setupOverrides]. *)
Definition overridden (s : Screen) (self : loc) (isBackVisible : bool) (tab : nat)
    (e e' : Element) : Prop :=
  el_attrs e' = el_attrs e
  /\ el_classes e' = el_classes e
  /\ el_listeners e' = el_listeners e ++ installed s self tab e
  /\ el_visibility e'
     = if matches (backTerm s) e
       then Some (if isBackVisible then "visible" else "hidden")
       else el_visibility e.

(** The page answers no event on the controls of the Screen [s]. *)
Definition disarmed (run : Handler -> EventData -> M unit) (s : Screen) (w : World) : Prop :=
  forall sel ev r e data,
    In (sel, ev) (ScreenCommon.interceptors s) ->
    element_at r (page w) = Some e ->
    matches sel e = true ->
    dispatch run ev r data w = Ret tt w.

Definition initialise_error_line (status : Z) (statusText : string) : Effect :=
  ConsoleError ("Screen initialise(): onError: " +:+ pretty status +:+ " " +:+ statusText).

(** What the failure closure of [setSubmitOverride] in public/lib logs. *)
Definition submit_failure_line (status : Z) (statusText : string) : Effect :=
  ConsoleError ("setSubmitOverride(): onFailure: " +:+ pretty status +:+ " " +:+ statusText).

(** The world [w'] differs from [w] in that request [id] is completed and in
    the effects [said]: the Screens, the stacks, the page are those of [w]. *)
Definition only_said (id : nat) (said : list Effect) (w w' : World) : Prop :=
  trace w' = trace w ++ said
  /\ heap w' = heap w /\ tabs w' = tabs w /\ page w' = page w
  /\ selectedTabViewId w' = selectedTabViewId w
  /\ length (requests w') = length (requests w)
  /\ option_map ajax_completed (requests w' !! id) = Some true.

(** part_001: the go link is clicked on Home, the request is in flight. *)
Definition part001_going : World :=
  Part001.run Demo.parse_html [UserClick Demo.go_link] Demo.part001_home.

Definition gentle (f : Screen -> Screen) : Prop :=
  forall s, url (f s) = url s
            /\ ScreenCommon.interceptors (f s) = ScreenCommon.interceptors s
            /\ (htmlCode s <> None -> htmlCode (f s) <> None).

(** The Tab whose closures a listener carries. *)
Definition handler_tab (h : Handler) : nat :=
  match h with
  | TabSelect tab | TabClick tab => tab
  | GoOverride _ tab | BackOverride _ tab | GoAndClearOverride _ tab
  | SubmitOverride _ tab | RefreshOverride _ tab => tab
  end.

Definition populated (w : World) : Prop :=
  Forall (fun t => (1 <= Backstack.depth (backstack t))%nat) (tabs w).

Definition stays_populated (w w' : World) : Prop := populated w -> populated w'.

Definition persists (w w' : World) : Prop :=
  forall l s, heap w !! l = Some s ->
    exists s', heap w' !! l = Some s'
               /\ url s' = url s
               /\ ScreenCommon.interceptors s' = ScreenCommon.interceptors s
               /\ (htmlCode s <> None -> htmlCode s' <> None).

Definition only_stack_of (tab : nat) (w w' : World) : Prop :=
  length (tabs w') = length (tabs w)
  /\ forall i t, tabs w !! i = Some t ->
       exists t', tabs w' !! i = Some t' /\ viewId t' = viewId t
                  /\ (i <> tab -> t' = t).

Definition navigation_kept (w w' : World) : Prop :=
  tabs w' = tabs w
  /\ selectedTabViewId w' = selectedTabViewId w
  /\ length (heap w') = length (heap w).

Fixpoint tab_listeners (i : nat) (ts : list Tab) (e : Element)
    : list (EventName * Handler) :=
  match ts with
  | [] => []
  | t :: r =>
      (if matches ("#" +:+ viewId t) e
       then [(click, TabSelect i); (click, TabClick i)] else [])
      ++ tab_listeners (S i) r e
  end.

(** The page [p'] is [p] where each element has got the listeners [ls]. *)
Definition gained (ls : Element -> list (EventName * Handler)) (p p' : Page) : Prop :=
  viewport_html p' = viewport_html p
  /\ (forall r, element_at r p = None -> element_at r p' = None)
  /\ forall r e, element_at r p = Some e ->
       exists e', element_at r p' = Some e'
                  /\ el_attrs e' = el_attrs e
                  /\ el_classes e' = el_classes e
                  /\ el_visibility e' = el_visibility e
                  /\ el_listeners e' = el_listeners e ++ ls e.

(** What one turn of the loop of [setTabsClickListeners] does. *)
Definition tab_bound (tab : nat) (t : Tab) (w : World) : World :=
  on_world ("#" +:+ viewId t) click (TabClick tab)
    (on_world ("#" +:+ viewId t) click (TabSelect tab) w).

(** * Proofs *)

(** ** Facts about JavaScript arrays *)

Lemma removelast_snoc {A} (l : list A) (x : A) : removelast (l ++ [x]) = l.
Proof. apply removelast_last. Qed.

Lemma last_removelast {A} (l : list A) (x : A) :
  last l = Some x -> l = removelast l ++ [x].
Proof.
  destruct l as [|a l] using rev_ind; [discriminate|].
  rewrite last_snoc. intros [= ->]. now rewrite removelast_last.
Qed.

Lemma length_removelast_lt {A} (l : list A) :
  l <> [] -> S (length (removelast l)) = length l.
Proof.
  destruct l as [|a l] using rev_ind; [congruence|].
  intros _. rewrite removelast_last, length_app. simpl. lia.
Qed.

Lemma array_get_last {A} (l : list A) :
  array_get l (array_length l - 1) = last l.
Proof.
  unfold array_get, array_length.
  destruct l as [|a l] using rev_ind; [reflexivity|].
  rewrite length_app, last_snoc. simpl.
  destruct (Z.ltb_spec (Z.of_nat (length l + 1) - 1) 0); [lia|].
  replace (Z.to_nat (Z.of_nat (length l + 1) - 1)) with (length l) by lia.
  rewrite lookup_app_r by lia. now rewrite Nat.sub_diag.
Qed.

Lemma last_is_Some {A} (l : list A) : (1 <= length l)%nat -> exists x, last l = Some x.
Proof.
  destruct l as [|a l] using rev_ind; simpl; [lia|].
  intros _. exists a. apply last_snoc.
Qed.

Module BackstackFacts.
Import Backstack.

Lemma pop_eq (b : t) :
  pop b = if (1 <? depth b)%nat
          then (true, mk (removelast (screens b)))
          else (false, b).
Proof.
  unfold pop, depth, array_pop, array_length.
  destruct (Nat.ltb_spec 1 (length (screens b))) as [H|H].
  - destruct (Z.gtb_spec (Z.of_nat (length (screens b))) 1); [|lia].
    destruct (last_is_Some (screens b)) as [x ->]; [lia|]. reflexivity.
  - destruct (Z.gtb_spec (Z.of_nat (length (screens b))) 1); [lia|]. reflexivity.
Qed.

Lemma popForced_eq (b : t) :
  popForced b = if (1 <=? depth b)%nat
                then (true, mk (removelast (screens b)))
                else (false, b).
Proof.
  unfold popForced, depth, array_pop, array_length.
  destruct (Nat.leb_spec 1 (length (screens b))) as [H|H].
  - destruct (Z.geb_spec (Z.of_nat (length (screens b))) 1); [|lia].
    destruct (last_is_Some (screens b)) as [x ->]; [lia|]. reflexivity.
  - destruct (Z.geb_spec (Z.of_nat (length (screens b))) 1); [lia|]. reflexivity.
Qed.

Lemma push_eq (s : loc) (b : t) : push s b = (true, mk (screens b ++ [s])).
Proof.
  unfold push, array_push, array_length, ToBoolean_number.
  destruct (Z.eqb_spec (Z.of_nat (length (screens b)) + 1) 0); [lia|]. reflexivity.
Qed.

Lemma getCurrent_eq (b : t) : getCurrent b = last (screens b).
Proof. apply array_get_last. Qed.

Lemma depth_pop (b : t) : (1 <= depth b -> 1 <= depth (snd (pop b)))%nat.
Proof.
  rewrite pop_eq. destruct (Nat.ltb_spec 1 (depth b)) as [H|H]; simpl; [|tauto].
  intros _. unfold depth in *. simpl.
  assert (screens b <> []) by (destruct (screens b); simpl in *; [lia|congruence]).
  pose proof (length_removelast_lt (screens b) ltac:(assumption)). lia.
Qed.

Lemma depth_push (s : loc) (b : t) : (1 <= depth (snd (push s b)))%nat.
Proof. rewrite push_eq. unfold depth. simpl. rewrite length_app. simpl. lia. Qed.

Lemma run_calls_snoc (cs : list call) (c : call) (b : t) :
  run_calls (cs ++ [c]) b = snd (run_call c (run_calls cs b)).
Proof. unfold run_calls. now rewrite fold_left_app. Qed.

Lemma never_emptied (cs : list call) (b : t) :
  (1 <= depth b)%nat ->
  forallb (fun c => negb (is_forced c)) cs = true ->
  (1 <= depth (run_calls cs b))%nat.
Proof.
  revert b. induction cs as [|c cs IH]; intros b Hb Hcs; [exact Hb|].
  simpl in Hcs. apply andb_true_iff in Hcs as [Hc Hcs].
  change (run_calls (c :: cs) b) with (run_calls cs (snd (run_call c b))).
  apply IH; [|exact Hcs].
  destruct c; simpl in *; [apply depth_push|now apply depth_pop|discriminate].
Qed.

End BackstackFacts.

(** C1. [pop] removes the top Screen only when more than one Screen is on
    the stack, and returns [true] exactly when it removed one; hence a
    Backstack that starts with a Screen keeps one under every sequence of
    [push] and [pop] calls without [popForced]; and after every sequence of
    calls [getCurrent] yields the top Screen whenever the stack is not empty. *)
Theorem backstack_stack_discipline (cs : list Backstack.call) (b : Backstack.t) :
  let b' := Backstack.run_calls cs b in
  Backstack.pop b' =
    (if (1 <? Backstack.depth b')%nat
     then (true, Backstack.mk (removelast (Backstack.screens b')))
     else (false, b'))
  /\ (fst (Backstack.pop b') = true <->
      (Backstack.depth (snd (Backstack.pop b')) < Backstack.depth b')%nat)
  /\ ((1 <= Backstack.depth b)%nat ->
      forallb (fun c => negb (Backstack.is_forced c)) cs = true ->
      (1 <= Backstack.depth b')%nat)
  /\ ((1 <= Backstack.depth b')%nat ->
      exists s, Backstack.getCurrent b' = Some s /\ last (Backstack.screens b') = Some s).
Proof.
  intros b'. split; [apply BackstackFacts.pop_eq|]. split; [|split].
  - rewrite BackstackFacts.pop_eq.
    destruct (Nat.ltb_spec 1 (Backstack.depth b')) as [H|H]; simpl.
    + split; [intros _|reflexivity]. unfold Backstack.depth in *. simpl.
      assert (Backstack.screens b' <> [])
        by (destruct (Backstack.screens b'); simpl in *; [lia|congruence]).
      pose proof (length_removelast_lt (Backstack.screens b') ltac:(assumption)). lia.
    + split; [discriminate|lia].
  - apply BackstackFacts.never_emptied.
  - intros H. rewrite BackstackFacts.getCurrent_eq.
    destruct (last_is_Some (Backstack.screens b') H) as [x Hx]. eauto.
Qed.

Lemma backstack_stack_discipline_witness :
  Backstack.run_calls [Backstack.Push 7%nat; Backstack.Pop; Backstack.Pop]
                      (Backstack.mk [3%nat]) = Backstack.mk [3%nat]
  /\ exists s, Backstack.getCurrent (Backstack.mk [3%nat]) = Some s.
Proof.
  split; [reflexivity|].
  destruct (backstack_stack_discipline
              [Backstack.Push 7%nat; Backstack.Pop; Backstack.Pop]
              (Backstack.mk [3%nat])) as (_ & _ & Hkeep & Hcur).
  destruct (Hcur (Hkeep (le_n 1) eq_refl)) as [s [Hs _]].
  exists s. exact Hs.
Defined.

(** ** Running method bodies on a symbolic world *)

Lemma bind_Ret {A B} (m : M A) (k : A -> M B) (w w' : World) (a : A) :
  m w = Ret a w' -> bind m k w = k a w'.
Proof. unfold bind. now intros ->. Qed.

Lemma bind_Throw {A B} (m : M A) (k : A -> M B) (w w' : World) (e : JsError) :
  m w = Throw e w' -> bind m k w = Throw e w'.
Proof. unfold bind. now intros ->. Qed.

Lemma deref_Some (l : loc) (s : Screen) (w : World) :
  heap w !! l = Some s -> deref l w = Ret s w.
Proof. unfold deref. now intros ->. Qed.

Lemma the_tab_Some (tab : nat) (t : Tab) (w : World) :
  tabs w !! tab = Some t -> the_tab tab w = Ret t w.
Proof. unfold the_tab. now intros ->. Qed.

Lemma Tab_eta (t : Tab) : mkTab (backstack t) (viewId t) = t.
Proof. now destruct t. Qed.

Lemma Backstack_eta (b : Backstack.t) : Backstack.mk (Backstack.screens b) = b.
Proof. now destruct b. Qed.

Lemma World_eta (w : World) :
  mkWorld (heap w) (tabs w) (selectedTabViewId w) (appViewId w) (page w)
          (requests w) (trace w) = w.
Proof. now destruct w. Qed.

Lemma update_backstack_same (tab : nat) (t : Tab) (w : World) :
  tabs w !! tab = Some t ->
  update_backstack tab (backstack t) w = Ret tt w.
Proof.
  intros H. unfold update_backstack. rewrite (bind_Ret _ _ _ _ _ (the_tab_Some _ _ _ H)).
  unfold modify, with_tabs. rewrite Tab_eta, list_insert_id by exact H.
  now rewrite World_eta.
Qed.

Lemma backstack_pop_single (tab : nat) (t : Tab) (w : World) :
  tabs w !! tab = Some t -> Backstack.depth (backstack t) = 1%nat ->
  TabCommon.backstack_pop tab w = Ret false w.
Proof.
  intros H Hd. unfold TabCommon.backstack_pop.
  rewrite (bind_Ret _ _ _ _ _ (the_tab_Some _ _ _ H)).
  rewrite BackstackFacts.pop_eq, Hd. simpl.
  now rewrite (bind_Ret _ _ _ _ _ (update_backstack_same _ _ _ H)).
Qed.

Lemma array_length_depth (b : Backstack.t) :
  array_length (Backstack.screens b) = Z.of_nat (Backstack.depth b).
Proof. reflexivity. Qed.

(** C7. On a Tab whose Backstack holds exactly one Screen, [Tab.onBack]
    returns normally and changes nothing but the console: the stack, every
    Screen object, the page and the list of requests are as before (no fetch
    is issued), and one diagnostic line is logged.  Both variants. *)
Theorem onBack_single_screen_noop (parse_html : string -> list Attrs)
    (w : World) (tab : nat) (t : Tab) :
  tabs w !! tab = Some t ->
  Backstack.depth (backstack t) = 1%nat ->
  PublicLib.onBack parse_html tab w
    = Ret tt (with_trace (fun tr => tr ++ [ConsoleLog onBack_diagnostic]) w)
  /\ Part001.onBack parse_html tab w
    = Ret tt (with_trace (fun tr => tr ++ [ConsoleLog onBack_diagnostic]) w).
Proof.
  intros H Hd.
  pose proof (backstack_pop_single tab t w H Hd) as Hpop.
  split.
  - unfold PublicLib.onBack. rewrite (bind_Ret _ _ _ _ _ Hpop).
    rewrite (bind_Ret _ _ _ _ _ (the_tab_Some _ _ _ H)).
    rewrite array_length_depth, Hd. reflexivity.
  - unfold Part001.onBack. rewrite (bind_Ret _ _ _ _ _ Hpop).
    rewrite (bind_Ret _ _ _ _ _ (the_tab_Some _ _ _ H)).
    rewrite array_length_depth, Hd. reflexivity.
Qed.

(** ** The Backstack calls made by Tab, run on a world *)

(** The world with the Backstack of Tab [tab] replaced by [stack]. *)

Lemma update_backstack_run (tab : nat) (t : Tab) (b : Backstack.t) (w : World) :
  tabs w !! tab = Some t ->
  update_backstack tab b w = Ret tt (set_stack tab t (Backstack.screens b) w).
Proof.
  intros H. unfold update_backstack.
  rewrite (bind_Ret _ _ _ _ _ (the_tab_Some _ _ _ H)).
  unfold set_stack. now rewrite Backstack_eta.
Qed.

Lemma backstack_push_run (tab : nat) (t : Tab) (s : loc) (w : World) :
  tabs w !! tab = Some t ->
  TabCommon.backstack_push tab s w
    = Ret true (set_stack tab t (Backstack.screens (backstack t) ++ [s]) w).
Proof.
  intros H. unfold TabCommon.backstack_push.
  rewrite (bind_Ret _ _ _ _ _ (the_tab_Some _ _ _ H)).
  rewrite BackstackFacts.push_eq.
  now rewrite (bind_Ret _ _ _ _ _ (update_backstack_run _ _ _ _ H)).
Qed.

Lemma backstack_popForced_run (tab : nat) (t : Tab) (w : World) :
  tabs w !! tab = Some t ->
  TabCommon.backstack_popForced tab w
    = Ret (1 <=? Backstack.depth (backstack t))%nat
          (set_stack tab t (removelast (Backstack.screens (backstack t))) w).
Proof.
  intros H. unfold TabCommon.backstack_popForced.
  rewrite (bind_Ret _ _ _ _ _ (the_tab_Some _ _ _ H)).
  rewrite BackstackFacts.popForced_eq.
  destruct (Nat.leb_spec 1 (Backstack.depth (backstack t))) as [Hd|Hd].
  - now rewrite (bind_Ret _ _ _ _ _ (update_backstack_run _ _ _ _ H)).
  - rewrite (bind_Ret _ _ _ _ _ (update_backstack_run _ _ _ _ H)).
    unfold Backstack.depth in Hd.
    destruct (Backstack.screens (backstack t)); simpl in *; [reflexivity|lia].
Qed.

Lemma backstack_pop_run (tab : nat) (t : Tab) (w : World) :
  tabs w !! tab = Some t -> (1 < Backstack.depth (backstack t))%nat ->
  TabCommon.backstack_pop tab w
    = Ret true (set_stack tab t (removelast (Backstack.screens (backstack t))) w).
Proof.
  intros H Hd. unfold TabCommon.backstack_pop.
  rewrite (bind_Ret _ _ _ _ _ (the_tab_Some _ _ _ H)).
  rewrite BackstackFacts.pop_eq.
  destruct (Nat.ltb_spec 1 (Backstack.depth (backstack t))); [|lia].
  now rewrite (bind_Ret _ _ _ _ _ (update_backstack_run _ _ _ _ H)).
Qed.

Lemma tabs_set_stack (tab : nat) (t : Tab) (stack : list loc) (w : World) :
  tabs w !! tab = Some t ->
  tabs (set_stack tab t stack w) !! tab = Some (mkTab (Backstack.mk stack) (viewId t)).
Proof.
  intros H. unfold set_stack. cbn. apply list_lookup_insert_eq.
  now apply lookup_lt_Some in H.
Qed.

Lemma set_stack_twice (tab : nat) (t t' : Tab) (s1 s2 : list loc) (w : World) :
  viewId t' = viewId t ->
  set_stack tab t' s2 (set_stack tab t s1 w) = set_stack tab t s2 w.
Proof.
  intros E. unfold set_stack, with_tabs. cbn. rewrite E. now rewrite list_insert_insert_eq.
Qed.

Lemma backstack_getCurrent_run (tab : nat) (t : Tab) (w : World) :
  tabs w !! tab = Some t ->
  TabCommon.backstack_getCurrent tab w = Ret (last (Backstack.screens (backstack t))) w.
Proof.
  intros H. unfold TabCommon.backstack_getCurrent.
  rewrite (bind_Ret _ _ _ _ _ (the_tab_Some _ _ _ H)).
  now rewrite BackstackFacts.getCurrent_eq.
Qed.

Lemma isHeaderBackVisible_run (tab : nat) (t : Tab) (w : World) :
  tabs w !! tab = Some t ->
  TabCommon.isHeaderBackVisible tab w
    = Ret (1 <? Backstack.depth (backstack t))%nat w.
Proof.
  intros H. unfold TabCommon.isHeaderBackVisible.
  rewrite (bind_Ret _ _ _ _ _ (the_tab_Some _ _ _ H)).
  unfold ret. f_equal. rewrite array_length_depth.
  destruct (Nat.ltb_spec 1 (Backstack.depth (backstack t)));
    destruct (Z.gtb_spec (Z.of_nat (Backstack.depth (backstack t))) 1); lia || reflexivity.
Qed.

Lemma PublicLib_new_Screen_run (u : string) (w : World) :
  PublicLib.new_Screen u w = Ret (length (heap w)) (alloc (fresh_screen (Some false) u) w).
Proof. reflexivity. Qed.

Lemma Part001_new_Screen_run (u : string) (w : World) :
  Part001.new_Screen u w = Ret (length (heap w)) (alloc (fresh_screen None u) w).
Proof. reflexivity. Qed.

Lemma heap_alloc (s : Screen) (w : World) :
  heap (alloc s w) !! length (heap w) = Some s.
Proof.
  unfold alloc. cbn. rewrite lookup_app_r by lia. now rewrite Nat.sub_diag.
Qed.

Lemma jq_ajax_run (u type : string) (data : option FormData) (k : Continuation) (w : World) :
  jq_ajax u type data k w = Ret tt (send u type data k w).
Proof. reflexivity. Qed.

(** A Tab navigates to a Screen that has no cached markup: a request goes out. *)
Lemma PublicLib_getHtml_uncached (parse_html : string -> list Attrs)
    (tab : nat) (t : Tab) (cur : loc) (s : Screen) (w : World) :
  tabs w !! tab = Some t ->
  last (Backstack.screens (backstack t)) = Some cur ->
  heap w !! cur = Some s ->
  is_null (htmlCode s) || ToBoolean_flag (forceRefreshOnLoad s) = true ->
  PublicLib.getHtml parse_html tab w
    = Ret tt (send (url s) "GET" None
                (InitialiseCallbacks cur (1 <? Backstack.depth (backstack t))%nat tab) w).
Proof.
  intros Ht Hc Hs Hn. unfold PublicLib.getHtml.
  rewrite (bind_Ret _ _ _ _ _ (backstack_getCurrent_run _ _ _ Ht)), Hc. cbn [method_of].
  rewrite (bind_Ret _ _ _ _ _ (eq_refl : ret cur w = Ret cur w)).
  rewrite (bind_Ret _ _ _ _ _ (isHeaderBackVisible_run _ _ _ Ht)).
  unfold PublicLib.initialise.
  rewrite (bind_Ret _ _ _ _ _ (deref_Some _ _ _ Hs)), Hn.
  apply jq_ajax_run.
Qed.

Lemma Part001_setCurrentScreenHTML_fetch (parse_html : string -> list Attrs)
    (tab : nat) (t : Tab) (cur : loc) (s : Screen) (w : World)
    (method : string) (data : option FormData) (forceRefresh : bool) :
  tabs w !! tab = Some t ->
  last (Backstack.screens (backstack t)) = Some cur ->
  heap w !! cur = Some s ->
  is_null (htmlCode s) || forceRefresh = true ->
  Part001.setCurrentScreenHTML parse_html tab method data forceRefresh w
    = Ret tt (send (url s) (toUpperCase method) data
                (InitialiseCallbacks cur (1 <? Backstack.depth (backstack t))%nat tab) w).
Proof.
  intros Ht Hc Hs Hn. unfold Part001.setCurrentScreenHTML.
  rewrite (bind_Ret _ _ _ _ _ (backstack_getCurrent_run _ _ _ Ht)), Hc. cbn [method_of].
  rewrite (bind_Ret _ _ _ _ _ (eq_refl : ret cur w = Ret cur w)).
  rewrite (bind_Ret _ _ _ _ _ (isHeaderBackVisible_run _ _ _ Ht)).
  unfold Part001.initialise.
  rewrite (bind_Ret _ _ _ _ _ (deref_Some _ _ _ Hs)), Hn.
  apply jq_ajax_run.
Qed.

(** C8. [Tab.onGoAndClear(destination)] force-pops the current Screen, pushes
    a new Screen for the destination and issues a GET for it; nothing is
    rendered from a cache.  From a one-Screen stack the result is the
    one-Screen stack holding the new Screen.  Both variants. *)
Theorem onGoAndClear_replaces (parse_html : string -> list Attrs)
    (w : World) (tab : nat) (t : Tab) (dest : string) :
  tabs w !! tab = Some t ->
  (exists w', PublicLib.onGoAndClear parse_html tab dest w = Ret tt w'
              /\ replaced (Some false) tab t dest w w')
  /\ (exists w', Part001.onGoAndClear parse_html tab dest w = Ret tt w'
                 /\ replaced None tab t dest w w')
  /\ (forall home, Backstack.screens (backstack t) = [home] ->
      removelast (Backstack.screens (backstack t)) ++ [length (heap w)]
        = [length (heap w)]).
Proof.
  intros Ht.
  set (n := length (heap w)).
  set (popped := removelast (Backstack.screens (backstack t))).
  pose proof (backstack_popForced_run tab t w Ht) as Hpop. fold popped in Hpop.
  set (w1 := set_stack tab t popped w) in *.
  assert (Ht1 : tabs w1 !! tab = Some (mkTab (Backstack.mk popped) (viewId t)))
    by now apply tabs_set_stack.
  split; [|split].
  - eexists. split.
    + unfold PublicLib.onGoAndClear.
      rewrite (bind_Ret _ _ _ _ _ Hpop).
      rewrite (bind_Ret _ _ _ _ _ (PublicLib_new_Screen_run dest w1)).
      set (w2 := alloc _ w1).
      assert (Ht2 : tabs w2 !! tab = Some (mkTab (Backstack.mk popped) (viewId t)))
        by exact Ht1.
      rewrite (bind_Ret _ _ _ _ _ (backstack_push_run tab _ (length (heap w1)) w2 Ht2)).
      cbn [backstack Backstack.screens viewId].
      eapply PublicLib_getHtml_uncached.
      * apply tabs_set_stack. exact Ht2.
      * cbn. apply last_snoc.
      * cbn. rewrite lookup_app_r by (cbn; lia). cbn. rewrite Nat.sub_diag. reflexivity.
      * reflexivity.
    + unfold replaced, send, set_stack, alloc, w1, set_stack, with_tabs. cbn.
      fold n popped. repeat split; try reflexivity.
      now rewrite list_insert_insert_eq.
  - eexists. split.
    + unfold Part001.onGoAndClear, Part001.onGo.
      rewrite (bind_Ret _ _ _ _ _ Hpop).
      rewrite (bind_Ret _ _ _ _ _ (Part001_new_Screen_run dest w1)).
      set (w2 := alloc _ w1).
      assert (Ht2 : tabs w2 !! tab = Some (mkTab (Backstack.mk popped) (viewId t)))
        by exact Ht1.
      rewrite (bind_Ret _ _ _ _ _ (backstack_push_run tab _ (length (heap w1)) w2 Ht2)).
      cbn [backstack Backstack.screens viewId].
      eapply Part001_setCurrentScreenHTML_fetch.
      * apply tabs_set_stack. exact Ht2.
      * cbn. apply last_snoc.
      * cbn. rewrite lookup_app_r by (cbn; lia). cbn. rewrite Nat.sub_diag. reflexivity.
      * reflexivity.
    + unfold replaced, send, set_stack, alloc, w1, set_stack, with_tabs. cbn.
      fold n popped. repeat split; try reflexivity.
      now rewrite list_insert_insert_eq.
  - intros home E. unfold popped. now rewrite E.
Qed.

Lemma backstack_push_cases (tab : nat) (s : loc) (w : World) :
  (exists w', TabCommon.backstack_push tab s w = Ret true w')
  \/ (exists e w', TabCommon.backstack_push tab s w = Throw e w').
Proof.
  destruct (tabs w !! tab) as [t|] eqn:Ht.
  - left. eexists. exact (backstack_push_run tab t s w Ht).
  - right. unfold TabCommon.backstack_push, bind, the_tab. rewrite Ht. eauto.
Qed.

Lemma bind_push_branch {B} (tab : nat) (s : loc) (yes no : M B) (w : World) :
  bind (TabCommon.backstack_push tab s) (fun pushed => if pushed then yes else no) w
  = bind (TabCommon.backstack_push tab s) (fun _ => yes) w.
Proof.
  unfold bind.
  destruct (backstack_push_cases tab s w) as [[w' ->]|[e [w' ->]]]; reflexivity.
Qed.

(** C10. [Backstack.push] returns [true] for every Screen and every stack;
    so [Tab.onGo] (both variants) and [Tab.onSubmit] (part_001) behave as the
    same methods with the failure branch deleted. *)
Theorem push_always_succeeds :
  (forall (screen : loc) (b : Backstack.t), fst (Backstack.push screen b) = true)
  /\ (forall parse_html tab u w,
        PublicLib.onGo parse_html tab u w
        = (let* screen := PublicLib.new_Screen u in
           TabCommon.backstack_push tab screen >>> PublicLib.getHtml parse_html tab) w)
  /\ (forall parse_html tab u w,
        Part001.onGo parse_html tab u w
        = (let* screen := Part001.new_Screen u in
           TabCommon.backstack_push tab screen >>>
           Part001.setCurrentScreenHTML parse_html tab "GET" None true) w)
  /\ (forall parse_html tab action method data w,
        Part001.onSubmit parse_html tab action method data w
        = (let* screen := Part001.new_Screen action in
           TabCommon.backstack_push tab screen >>>
           Part001.setCurrentScreenHTML parse_html tab method data false) w).
Proof.
  split; [|split; [|split]].
  - intros screen b. now rewrite BackstackFacts.push_eq.
  - intros. unfold PublicLib.onGo.
    rewrite !(bind_Ret _ _ _ _ _ (PublicLib_new_Screen_run u w)).
    apply bind_push_branch.
  - intros. unfold Part001.onGo.
    rewrite !(bind_Ret _ _ _ _ _ (Part001_new_Screen_run u w)).
    apply bind_push_branch.
  - intros. unfold Part001.onSubmit.
    rewrite !(bind_Ret _ _ _ _ _ (Part001_new_Screen_run action w)).
    apply bind_push_branch.
Qed.

(** ** [getCurrent] on an empty Backstack *)

(** A page whose only Tab was constructed with no Screen. *)

(** C6, as stated, fails: on an empty Backstack the call
    [this.backstack.getCurrent()] completes normally, with [undefined]. *)
Lemma getCurrent_empty_returns :
  Backstack.getCurrent (Backstack.constructor []) = None
  /\ TabCommon.backstack_getCurrent 0 empty_tab_world = Ret None empty_tab_world
  /\ ~ (exists e w', TabCommon.backstack_getCurrent 0 empty_tab_world = Throw e w').
Proof.
  split; [reflexivity|]. split; [reflexivity|].
  intros (e & w' & H). discriminate H.
Qed.

(** C6, amended. On an empty Backstack [getCurrent] returns [undefined] and
    raises nothing; the failure is the TypeError of the caller that invokes a
    method on that result: [Tab.destroy], [Tab.getHtml] and
    [Tab.setCurrentScreenHTML] stop there, leaving the world as it was. *)
Theorem getCurrent_empty_undefined (parse_html : string -> list Attrs)
    (w : World) (tab : nat) (t : Tab) :
  tabs w !! tab = Some t ->
  Backstack.screens (backstack t) = [] ->
  Backstack.getCurrent (backstack t) = None
  /\ TabCommon.backstack_getCurrent tab w = Ret None w
  /\ TabCommon.destroy tab w = Throw (undefined_receiver "destroy") w
  /\ PublicLib.getHtml parse_html tab w = Throw (undefined_receiver "initialise") w
  /\ (forall method data forceRefresh,
        Part001.setCurrentScreenHTML parse_html tab method data forceRefresh w
        = Throw (undefined_receiver "initialise") w).
Proof.
  intros Ht He.
  pose proof (backstack_getCurrent_run tab t w Ht) as Hcur. rewrite He in Hcur. cbn in Hcur.
  split; [rewrite BackstackFacts.getCurrent_eq, He; reflexivity|].
  split; [exact Hcur|].
  split; [|split].
  - unfold TabCommon.destroy. now rewrite (bind_Ret _ _ _ _ _ Hcur).
  - unfold PublicLib.getHtml. now rewrite (bind_Ret _ _ _ _ _ Hcur).
  - intros. unfold Part001.setCurrentScreenHTML. now rewrite (bind_Ret _ _ _ _ _ Hcur).
Qed.

Lemma getCurrent_empty_undefined_witness :
  TabCommon.destroy 0 empty_tab_world
  = Throw (undefined_receiver "destroy") empty_tab_world.
Proof.
  exact (proj1 (proj2 (proj2
    (getCurrent_empty_undefined Demo.parse_html empty_tab_world 0
       (mkTab (Backstack.constructor []) "tab-one") eq_refl eq_refl)))).
Defined.

(** ** Releasing listeners *)

(** The listener [l] is for the event [ev]. *)

Lemma flat_map_nil {A B} (f : A -> list B) (l : list A) :
  flat_map f l = [] <-> Forall (fun a => f a = []) l.
Proof.
  induction l as [|a l IH]; simpl.
  - split; [constructor|reflexivity].
  - split.
    + intros H. apply app_eq_nil in H as [Ha Hl]. constructor; [exact Ha|now apply IH].
    + intros H. inversion_clear H as [|? ? Ha Hl]. rewrite Ha. now apply IH.
Qed.

Lemma filter_negb_id {A} (f : A -> bool) (l : list A) :
  List.filter f l = [] -> List.filter (fun x => negb (f x)) l = l.
Proof.
  induction l as [|a l IH]; simpl; [reflexivity|].
  destruct (f a); simpl; [discriminate|]. intros H. now rewrite IH.
Qed.

Lemma filter_filter_negb {A} (f : A -> bool) (l : list A) :
  List.filter f (List.filter (fun x => negb (f x)) l) = [].
Proof.
  induction l as [|a l IH]; simpl; [reflexivity|].
  destruct (f a) eqn:E; simpl; [exact IH|]. now rewrite E.
Qed.

Lemma filter_nil_filter {A} (f g : A -> bool) (l : list A) :
  List.filter f l = [] -> List.filter f (List.filter g l) = [].
Proof.
  induction l as [|a l IH]; simpl; [reflexivity|].
  destruct (f a) eqn:E; [discriminate|].
  intros H. destruct (g a); simpl; [rewrite E|]; now apply IH.
Qed.

Section Listeners.

Variables (sel : string) (ev : EventName).

Lemma unbound_iff (p : Page) :
  listeners_on sel ev p = [] <-> Forall (silent sel ev) (all_elements p).
Proof.
  unfold listeners_on. rewrite flat_map_nil.
  apply Forall_iff. intros e. unfold silent, on_ev.
  destruct (matches sel e).
  - split; [intros H _|intros H; specialize (H eq_refl)].
    + destruct (List.filter _ (el_listeners e)); [reflexivity|discriminate].
    + now rewrite H.
  - split; [discriminate|reflexivity].
Qed.

Lemma off_if_silent_id (e : Element) : silent sel ev e -> off_if sel ev e = e.
Proof.
  unfold silent, off_if. destruct (matches sel e); [|reflexivity].
  intros H. specialize (H eq_refl). unfold el_off.
  change (fun l : EventName * Handler => negb (EventName_eqb (fst l) ev))
    with (fun l => negb (on_ev ev l)).
  rewrite filter_negb_id by exact H. now destruct e.
Qed.

Lemma off_if_makes_silent (e : Element) : silent sel ev (off_if sel ev e).
Proof.
  unfold silent, off_if. destruct (matches sel e) eqn:E.
  - intros _. cbn. apply (filter_filter_negb (on_ev ev)).
  - rewrite E. discriminate.
Qed.

End Listeners.

Lemma matches_el_off (sel : string) (ev : EventName) (e : Element) :
  matches sel (el_off ev e) = matches sel e.
Proof. reflexivity. Qed.

Lemma off_if_keeps_silent (sel sel' : string) (ev ev' : EventName) (e : Element) :
  silent sel ev e -> silent sel ev (off_if sel' ev' e).
Proof.
  unfold silent, off_if. intros H.
  destruct (matches sel' e); [|exact H].
  rewrite matches_el_off. intros Hm. cbn. apply filter_nil_filter. now apply H.
Qed.

Lemma jq_each_off_elements (sel : string) (ev : EventName) (p : Page) :
  all_elements (jq_each sel (el_off ev) p) = map (off_if sel ev) (all_elements p).
Proof. unfold all_elements, jq_each. cbn. now rewrite map_app. Qed.

Lemma map_id_Forall {A} (f : A -> A) (l : list A) :
  Forall (fun a => f a = a) l -> map f l = l.
Proof. induction 1; simpl; congruence. Qed.

(** [off] on a selection that has no such listener changes nothing. *)
Lemma jq_each_off_unbound (sel : string) (ev : EventName) (p : Page) :
  listeners_on sel ev p = [] -> jq_each sel (el_off ev) p = p.
Proof.
  rewrite unbound_iff. unfold all_elements. intros H.
  apply Forall_app in H as [Hc Hv]. unfold jq_each.
  rewrite !map_id_Forall.
  - now destruct p.
  - eapply Forall_impl; [exact Hv|]. intros e. apply off_if_silent_id.
  - eapply Forall_impl; [exact Hc|]. intros e. apply off_if_silent_id.
Qed.

Lemma jq_each_off_releases (sel : string) (ev : EventName) (p : Page) :
  listeners_on sel ev (jq_each sel (el_off ev) p) = [].
Proof.
  rewrite unbound_iff, jq_each_off_elements. apply Forall_map.
  apply Forall_forall. intros e _. apply off_if_makes_silent.
Qed.

Lemma jq_each_off_keeps (sel sel' : string) (ev ev' : EventName) (p : Page) :
  listeners_on sel ev p = [] ->
  listeners_on sel ev (jq_each sel' (el_off ev') p) = [].
Proof.
  rewrite !unbound_iff, jq_each_off_elements. intros H. apply Forall_map.
  eapply Forall_impl; [exact H|]. intros e. apply off_if_keeps_silent.
Qed.

Lemma release_keeps (its : list (string * EventName)) (sel : string) (ev : EventName)
    (p : Page) :
  listeners_on sel ev p = [] -> listeners_on sel ev (release its p) = [].
Proof.
  revert p. induction its as [|it its IH]; intros p H; [exact H|].
  simpl. apply IH. now apply jq_each_off_keeps.
Qed.

Lemma release_releases (its : list (string * EventName)) (p : Page) :
  Forall (fun it => listeners_on (fst it) (snd it) (release its p) = []) its.
Proof.
  revert p. induction its as [|it its IH]; intros p; [constructor|].
  simpl. constructor; [|apply IH].
  apply release_keeps, jq_each_off_releases.
Qed.

Lemma release_unbound (its : list (string * EventName)) (p : Page) :
  Forall (fun it => listeners_on (fst it) (snd it) p = []) its ->
  release its p = p.
Proof.
  induction 1 as [|it its H _ IH]; [reflexivity|].
  simpl. now rewrite jq_each_off_unbound.
Qed.

Lemma clear_run (self : loc) (s : Screen) (term : Screen -> string) (ev : EventName)
    (w : World) :
  heap w !! self = Some s ->
  (let* this := deref self in jq_off (term this) ev) w = Ret tt (off_world (term s) ev w).
Proof. intros H. now rewrite (bind_Ret _ _ _ _ _ (deref_Some _ _ _ H)). Qed.

Lemma off_worlds (its : list (string * EventName)) (w : World) :
  fold_left (fun w it => off_world (fst it) (snd it) w) its w
  = with_trace (fun tr => tr ++ off_calls its) (with_page (release its) w).
Proof.
  revert w. induction its as [|it its IH]; intros w.
  - destruct w. unfold with_trace, with_page. cbn. now rewrite app_nil_r.
  - cbn [fold_left]. rewrite IH. destruct w.
    unfold with_trace, with_page, off_world, with_trace, with_page. cbn.
    now rewrite <- app_assoc.
Qed.

Lemma Screen_destroy_run (self : loc) (s : Screen) (w : World) :
  heap w !! self = Some s ->
  ScreenCommon.destroy self w = Ret tt (destroyed s w).
Proof.
  intros H. unfold ScreenCommon.destroy, ScreenCommon.clearGoOverride,
    ScreenCommon.clearBackOverride, ScreenCommon.clearGoAndClearOverride,
    ScreenCommon.clearSubmitOverride, ScreenCommon.clearRefreshOverride.
  erewrite bind_Ret by (apply (clear_run self s goTerm); exact H).
  erewrite bind_Ret by (apply (clear_run self s backTerm); exact H).
  erewrite bind_Ret by (apply (clear_run self s goAndClearTerm); exact H).
  erewrite bind_Ret by (apply (clear_run self s submitTerm); exact H).
  rewrite (clear_run self s refreshTerm) by exact H.
  f_equal. exact (off_worlds (ScreenCommon.interceptors s) w).
Qed.

(** C9. [Screen.destroy] leaves no listener on any of the Screen's five
    (selector, event) pairs, and a second call right after it returns
    normally and changes nothing in the page or in any object: it only
    repeats the five [off] calls. *)
Theorem destroy_idempotent (self : loc) (s : Screen) (w : World) :
  heap w !! self = Some s ->
  exists w1,
    ScreenCommon.destroy self w = Ret tt w1
    /\ Forall (fun it => listeners_on (fst it) (snd it) (page w1) = [])
              (ScreenCommon.interceptors s)
    /\ length (ScreenCommon.interceptors s) = 5%nat
    /\ ScreenCommon.destroy self w1
       = Ret tt (with_trace
                   (fun tr => tr ++ off_calls (ScreenCommon.interceptors s)) w1)
    /\ page (world_of (ScreenCommon.destroy self w1)) = page w1.
Proof.
  intros H. exists (destroyed s w).
  assert (Hrel : Forall (fun it => listeners_on (fst it) (snd it)
                                     (page (destroyed s w)) = [])
                        (ScreenCommon.interceptors s))
    by apply release_releases.
  assert (H1 : heap (destroyed s w) !! self = Some s) by exact H.
  assert (Hsecond : ScreenCommon.destroy self (destroyed s w)
                    = Ret tt (with_trace
                        (fun tr => tr ++ off_calls (ScreenCommon.interceptors s))
                        (destroyed s w))).
  { rewrite (Screen_destroy_run self s _ H1). f_equal.
    unfold destroyed at 1. f_equal.
    unfold with_page. rewrite (release_unbound _ _ Hrel). apply World_eta. }
  repeat split; try assumption.
  - now apply Screen_destroy_run.
  - now rewrite Hsecond.
Qed.

(** ** What the methods of the library never undo *)

(** [preserves R m]: whatever [m] does, normally or by raising, the world it
    leaves is [R]-related to the world it was started in. *)

(** [R] is any preorder that holds across an update of the Screens, of a
    Backstack, of the page, of the requests, and across an addition to the
    trace. *)
Section Preserves.

Variable R : World -> World -> Prop.
Hypothesis R_refl : forall w, R w w.
Hypothesis R_trans : forall w1 w2 w3, R w1 w2 -> R w2 w3 -> R w1 w3.
Hypothesis R_heap : forall f w, R w (with_heap f w).
Hypothesis R_tabs : forall f w, R w (with_tabs f w).
Hypothesis R_page : forall f w, R w (with_page f w).
Hypothesis R_requests : forall f w, R w (with_requests f w).
Hypothesis R_emit : forall e w, R w (with_trace (fun tr => tr ++ [e]) w).

Lemma preserves_ret {A} (a : A) : preserves R (ret a).
Proof. intros w. apply R_refl. Qed.

Lemma preserves_throw {A} (e : JsError) : preserves R (@throw A e).
Proof. intros w. apply R_refl. Qed.

Lemma preserves_get {A} (f : World -> A) : preserves R (get f).
Proof. intros w. apply R_refl. Qed.

Lemma preserves_bind {A B} (m : M A) (k : A -> M B) :
  preserves R m -> (forall a, preserves R (k a)) -> preserves R (bind m k).
Proof.
  intros Hm Hk w. unfold bind. specialize (Hm w).
  destruct (m w) as [a w'|e w']; cbn in *; [|exact Hm].
  eapply R_trans; [exact Hm|apply Hk].
Qed.

Lemma preserves_deref (l : loc) : preserves R (deref l).
Proof. intros w. unfold deref. destruct (heap w !! l); apply R_refl. Qed.

Lemma preserves_the_tab (tab : nat) : preserves R (the_tab tab).
Proof. intros w. unfold the_tab. destruct (tabs w !! tab); apply R_refl. Qed.

Lemma preserves_method_of {A} (name : string) (r : option A) :
  preserves R (method_of name r).
Proof. destruct r; [apply preserves_ret|apply preserves_throw]. Qed.

Lemma preserves_emit (e : Effect) : preserves R (emit e).
Proof. intros w. apply R_emit. Qed.

Lemma preserves_with_heap f : preserves R (modify (with_heap f)).
Proof. intros w. apply R_heap. Qed.
Lemma preserves_with_tabs f : preserves R (modify (with_tabs f)).
Proof. intros w. apply R_tabs. Qed.
Lemma preserves_with_page f : preserves R (modify (with_page f)).
Proof. intros w. apply R_page. Qed.
Lemma preserves_with_requests f : preserves R (modify (with_requests f)).
Proof. intros w. apply R_requests. Qed.

Ltac frame :=
  repeat first
    [ progress intros
    | simple apply preserves_ret | simple apply preserves_throw | simple apply preserves_get
    | simple apply preserves_deref | simple apply preserves_the_tab | simple apply preserves_method_of
    | simple apply preserves_emit | simple apply preserves_with_heap | simple apply preserves_with_tabs
    | simple apply preserves_with_page | simple apply preserves_with_requests
    | assumption
    | simple apply preserves_bind
    | match goal with
      | |- preserves _ (if ?x then _ else _) => destruct x
      | |- preserves _ (match ?x with _ => _ end) => destruct x
      end ].

(** jQuery *)
Lemma preserves_jq_off sel ev : preserves R (jq_off sel ev).
Proof. unfold jq_off. frame. Qed.
Lemma preserves_jq_on sel ev h : preserves R (jq_on sel ev h).
Proof. unfold jq_on. frame. Qed.
Lemma preserves_jq_css_visibility sel v : preserves R (jq_css_visibility sel v).
Proof. unfold jq_css_visibility. frame. Qed.
Lemma preserves_jq_addClass sel c : preserves R (jq_addClass sel c).
Proof. unfold jq_addClass. frame. Qed.
Lemma preserves_jq_removeClass sel c : preserves R (jq_removeClass sel c).
Proof. unfold jq_removeClass. frame. Qed.
Lemma preserves_jq_ajax u ty d k : preserves R (jq_ajax u ty d k).
Proof. unfold jq_ajax. frame. Qed.
Lemma preserves_jq_html parse h : preserves R (jq_html parse h).
Proof. unfold jq_html. frame. Qed.
Lemma preserves_jq_viewport_visibility v : preserves R (jq_viewport_visibility v).
Proof. unfold jq_viewport_visibility. frame. Qed.
Lemma preserves_console_log s : preserves R (console_log s).
Proof. apply preserves_emit. Qed.
Lemma preserves_console_error s : preserves R (console_error s).
Proof. apply preserves_emit. Qed.
Lemma preserves_update_screen l f : preserves R (update_screen l f).
Proof. unfold update_screen. frame. Qed.
Lemma preserves_update_backstack tab b : preserves R (update_backstack tab b).
Proof. unfold update_backstack. frame. Qed.

Ltac frame2 :=
  repeat first
    [ progress intros
    | simple apply preserves_jq_off | simple apply preserves_jq_on | simple apply preserves_jq_css_visibility
    | simple apply preserves_jq_addClass | simple apply preserves_jq_removeClass
    | simple apply preserves_jq_ajax | simple apply preserves_jq_html
    | simple apply preserves_jq_viewport_visibility
    | simple apply preserves_console_log | simple apply preserves_console_error
    | simple apply preserves_update_screen | simple apply preserves_update_backstack
    | simple apply preserves_ret | simple apply preserves_throw | simple apply preserves_get
    | simple apply preserves_deref | simple apply preserves_the_tab | simple apply preserves_method_of
    | simple apply preserves_emit | simple apply preserves_with_heap | simple apply preserves_with_tabs
    | simple apply preserves_with_page | simple apply preserves_with_requests
    | assumption
    | simple apply preserves_bind
    | match goal with
      | |- preserves _ (if ?x then _ else _) => destruct x
      | |- preserves _ (match ?x with _ => _ end) => destruct x
      end ].

(** Screen, Tab *)
Lemma preserves_Screen_destroy self : preserves R (ScreenCommon.destroy self).
Proof.
  unfold ScreenCommon.destroy, ScreenCommon.clearGoOverride,
    ScreenCommon.clearBackOverride, ScreenCommon.clearGoAndClearOverride,
    ScreenCommon.clearSubmitOverride, ScreenCommon.clearRefreshOverride. frame2.
Qed.

Lemma preserves_setupOverrides self b tab :
  preserves R (ScreenCommon.setupOverrides self b tab).
Proof.
  unfold ScreenCommon.setupOverrides, ScreenCommon.setBackVisibilityOverride,
    ScreenCommon.setGoOverride, ScreenCommon.setBackOverride,
    ScreenCommon.setGoAndClearOverride, ScreenCommon.setSubmitOverride,
    ScreenCommon.setRefreshOverride. frame2.
Qed.

Lemma preserves_Tab_destroy tab : preserves R (TabCommon.destroy tab).
Proof.
  unfold TabCommon.destroy, TabCommon.backstack_getCurrent. frame2;
  try apply preserves_Screen_destroy.
Qed.

Lemma preserves_backstack_getCurrent tab : preserves R (TabCommon.backstack_getCurrent tab).
Proof. unfold TabCommon.backstack_getCurrent. frame2. Qed.
Lemma preserves_isHeaderBackVisible tab : preserves R (TabCommon.isHeaderBackVisible tab).
Proof. unfold TabCommon.isHeaderBackVisible. frame2. Qed.
Lemma preserves_backstack_pop tab : preserves R (TabCommon.backstack_pop tab).
Proof. unfold TabCommon.backstack_pop. frame2. Qed.
Lemma preserves_backstack_popForced tab : preserves R (TabCommon.backstack_popForced tab).
Proof. unfold TabCommon.backstack_popForced. frame2. Qed.
Lemma preserves_backstack_push tab s : preserves R (TabCommon.backstack_push tab s).
Proof. unfold TabCommon.backstack_push. frame2. Qed.
Lemma preserves_findTab v : preserves R (TabBarCommon.findTab v).
Proof. unfold TabBarCommon.findTab. frame2. Qed.
Lemma preserves_select_closure tab : preserves R (TabBarCommon.select_closure tab).
Proof.
  unfold TabBarCommon.select_closure, TabBarCommon.removeSelectedViewClass,
    TabBarCommon.addSelectedViewClass. frame2.
Qed.

Ltac frame3 :=
  repeat first
    [ progress intros
    | simple apply preserves_Screen_destroy | simple apply preserves_setupOverrides
    | simple apply preserves_Tab_destroy | simple apply preserves_backstack_getCurrent
    | simple apply preserves_isHeaderBackVisible | simple apply preserves_backstack_pop
    | simple apply preserves_backstack_popForced | simple apply preserves_backstack_push
    | simple apply preserves_findTab | simple apply preserves_select_closure
    | progress frame2 ].

Section PublicLib.
Variable parse_html : string -> list Attrs.

Lemma preserves_PublicLib_onGetHTML tab h u :
  preserves R (PublicLib.onGetHTML parse_html tab h u).
Proof. unfold PublicLib.onGetHTML, PublicLib.animateIn. frame3. Qed.

Lemma preserves_PublicLib_initialise self b tab :
  preserves R (PublicLib.initialise parse_html self b tab).
Proof.
  unfold PublicLib.initialise. frame3; try apply preserves_PublicLib_onGetHTML.
Qed.

Lemma preserves_PublicLib_getHtml tab : preserves R (PublicLib.getHtml parse_html tab).
Proof. unfold PublicLib.getHtml. frame3; try apply preserves_PublicLib_initialise. Qed.

Lemma preserves_PublicLib_onGo tab u : preserves R (PublicLib.onGo parse_html tab u).
Proof.
  unfold PublicLib.onGo, PublicLib.new_Screen. frame3;
  try apply preserves_PublicLib_getHtml.
Qed.

Lemma preserves_PublicLib_onBack tab : preserves R (PublicLib.onBack parse_html tab).
Proof. unfold PublicLib.onBack. frame3; try apply preserves_PublicLib_getHtml. Qed.

Lemma preserves_PublicLib_onGoAndClear tab u :
  preserves R (PublicLib.onGoAndClear parse_html tab u).
Proof.
  unfold PublicLib.onGoAndClear, PublicLib.new_Screen. frame3;
  try apply preserves_PublicLib_getHtml.
Qed.

Lemma preserves_PublicLib_onSubmit tab a m d :
  preserves R (PublicLib.onSubmit tab a m d).
Proof. unfold PublicLib.onSubmit, PublicLib.submitForm. frame3. Qed.

Lemma preserves_PublicLib_callbacks this k r :
  preserves R (PublicLib.run_callbacks parse_html this k r).
Proof.
  unfold PublicLib.run_callbacks, PublicLib.initialise_callback.
  destruct k, r; frame3; try apply preserves_PublicLib_onGetHTML.
Qed.

Lemma preserves_PublicLib_complete id r :
  preserves R (PublicLib.complete parse_html id r).
Proof.
  unfold PublicLib.complete. frame3; try apply preserves_PublicLib_callbacks.
Qed.
End PublicLib.

Section Part001.
Variable parse_html : string -> list Attrs.

Lemma preserves_Part001_onSuccess tab h u :
  preserves R (Part001.onSuccess parse_html tab h u).
Proof. unfold Part001.onSuccess, Part001.animateIn. frame3. Qed.

Lemma preserves_Part001_onError tab u : preserves R (Part001.onError tab u).
Proof. unfold Part001.onError. frame3. Qed.

Lemma preserves_Part001_initialise self m d b f tab :
  preserves R (Part001.initialise parse_html self m d b f tab).
Proof.
  unfold Part001.initialise, Part001.Screen_getHtml.
  frame3; try apply preserves_Part001_onSuccess.
Qed.

Lemma preserves_Part001_setCurrentScreenHTML tab m d f :
  preserves R (Part001.setCurrentScreenHTML parse_html tab m d f).
Proof.
  unfold Part001.setCurrentScreenHTML. frame3; try apply preserves_Part001_initialise.
Qed.

Lemma preserves_Part001_onGo tab u : preserves R (Part001.onGo parse_html tab u).
Proof.
  unfold Part001.onGo, Part001.new_Screen. frame3;
  try apply preserves_Part001_setCurrentScreenHTML.
Qed.

Lemma preserves_Part001_onBack tab : preserves R (Part001.onBack parse_html tab).
Proof. unfold Part001.onBack. frame3; try apply preserves_Part001_setCurrentScreenHTML. Qed.

Lemma preserves_Part001_onGoAndClear tab u :
  preserves R (Part001.onGoAndClear parse_html tab u).
Proof. unfold Part001.onGoAndClear. frame3; try apply preserves_Part001_onGo. Qed.

Lemma preserves_Part001_onSubmit tab a m d :
  preserves R (Part001.onSubmit parse_html tab a m d).
Proof.
  unfold Part001.onSubmit, Part001.new_Screen. frame3;
  try apply preserves_Part001_setCurrentScreenHTML.
Qed.

Lemma preserves_Part001_onRefresh tab : preserves R (Part001.onRefresh parse_html tab).
Proof. apply preserves_Part001_setCurrentScreenHTML. Qed.

Lemma preserves_Part001_complete id r :
  preserves R (Part001.complete parse_html id r).
Proof.
  unfold Part001.complete, Part001.run_callbacks, Part001.initialise_success,
    Part001.initialise_error.
  frame3; try first [apply preserves_Part001_onSuccess | apply preserves_Part001_onError].
Qed.
End Part001.

Lemma preserves_run_listeners (run : Handler -> M unit) (hs : list Handler) :
  (forall h, preserves R (run h)) -> preserves R (run_listeners run hs).
Proof.
  intros H. induction hs as [|h hs IH]; cbn [run_listeners].
  - apply preserves_ret.
  - apply preserves_bind; [apply H|intros _; exact IH].
Qed.

Lemma preserves_dispatch run ev target data :
  (forall h e, preserves R (run h e)) -> preserves R (dispatch run ev target data).
Proof.
  intros H. unfold dispatch. apply preserves_bind; [apply preserves_get|].
  intros p. destruct (element_at target p); [|apply preserves_ret].
  apply preserves_run_listeners. intros h. apply H.
Qed.

Lemma preserves_fold (inputs : list Input) (step : Input -> World -> World) (w : World) :
  (forall i w, R w (step i w)) ->
  R w (fold_left (fun w i => step i w) inputs w).
Proof.
  intros H. revert w. induction inputs as [|i inputs IH]; intros w; cbn [fold_left].
  - apply R_refl.
  - eapply R_trans; [apply H|apply IH].
Qed.

End Preserves.

(** *** The trace only grows; the selection is written by the tab-click closure only *)

(** The trace of [w'] continues the trace of [w]. *)

Lemma trace_extends_refl (w : World) : trace_extends w w.
Proof. exists []. now rewrite app_nil_r. Qed.

Lemma trace_extends_trans (w1 w2 w3 : World) :
  trace_extends w1 w2 -> trace_extends w2 w3 -> trace_extends w1 w3.
Proof.
  intros [p1 H1] [p2 H2]. exists (p1 ++ p2). now rewrite H2, H1, app_assoc.
Qed.

Lemma trace_extends_silent (w w' : World) : trace w' = trace w -> trace_extends w w'.
Proof. intros H. exists []. now rewrite app_nil_r. Qed.

Lemma trace_extends_emit (e : Effect) (w : World) :
  trace_extends w (with_trace (fun tr => tr ++ [e]) w).
Proof. now exists [e]. Qed.

Lemma same_selection_trans (w1 w2 w3 : World) :
  same_selection w1 w2 -> same_selection w2 w3 -> same_selection w1 w3.
Proof. unfold same_selection. congruence. Qed.

Section TraceGrows.

Variable parse_html : string -> list Attrs.

Ltac by_frame L :=
  apply L; first [ exact trace_extends_refl | exact trace_extends_trans
                 | exact trace_extends_emit
                 | intros; now apply trace_extends_silent ].

Lemma grows_bind {A B} (m : M A) (k : A -> M B) :
  preserves trace_extends m -> (forall a, preserves trace_extends (k a)) -> preserves trace_extends (bind m k).
Proof. apply preserves_bind. exact trace_extends_trans. Qed.

Lemma grows_animateOut_onComplete tab : preserves trace_extends (TabBarCommon.animateOut_onComplete tab).
Proof.
  unfold TabBarCommon.animateOut_onComplete.
  apply grows_bind; [apply preserves_get, trace_extends_refl|intros sel].
  apply grows_bind; [by_frame preserves_findTab|intros found].
  apply grows_bind; [by_frame preserves_method_of|intros prev].
  apply grows_bind; [by_frame preserves_Tab_destroy|intros _].
  apply grows_bind; [by_frame preserves_the_tab|intros t].
  intros w. now apply trace_extends_silent.
Qed.

Lemma grows_PublicLib_preCreate tab : preserves trace_extends (PublicLib.preCreate tab).
Proof.
  unfold PublicLib.preCreate, PublicLib.animateOut.
  apply grows_bind; [by_frame preserves_console_log|intros _].
  apply grows_bind; [by_frame preserves_jq_viewport_visibility|intros _].
  apply grows_animateOut_onComplete.
Qed.

Lemma grows_Part001_preCreate tab : preserves trace_extends (Part001.preCreate tab).
Proof.
  unfold Part001.preCreate, Part001.animateOut.
  apply grows_bind; [by_frame preserves_jq_viewport_visibility|intros _].
  apply grows_animateOut_onComplete.
Qed.

Lemma grows_PublicLib_run_handler h e : preserves trace_extends (PublicLib.run_handler parse_html h e).
Proof.
  destruct h; cbn [PublicLib.run_handler].
  - by_frame preserves_select_closure.
  - apply grows_bind; [apply grows_PublicLib_preCreate|intros _].
    by_frame preserves_PublicLib_getHtml.
  - apply grows_bind; [by_frame preserves_console_log|intros _].
    apply grows_bind; [by_frame preserves_Screen_destroy|intros _].
    by_frame preserves_PublicLib_onGo.
  - apply grows_bind; [by_frame preserves_Screen_destroy|intros _].
    by_frame preserves_PublicLib_onBack.
  - apply grows_bind; [by_frame preserves_Screen_destroy|intros _].
    by_frame preserves_PublicLib_onGoAndClear.
  - apply grows_bind; [by_frame preserves_update_screen|intros _].
    by_frame preserves_PublicLib_onSubmit.
  - apply grows_bind; [by_frame preserves_console_log|intros _].
    apply grows_bind; [by_frame preserves_update_screen|intros _].
    apply grows_bind; [by_frame preserves_Screen_destroy|intros _].
    by_frame preserves_PublicLib_getHtml.
Qed.

Lemma grows_Part001_run_handler h e : preserves trace_extends (Part001.run_handler parse_html h e).
Proof.
  destruct h; cbn [Part001.run_handler].
  - by_frame preserves_select_closure.
  - apply grows_bind; [apply grows_Part001_preCreate|intros _].
    by_frame preserves_Part001_setCurrentScreenHTML.
  - apply grows_bind; [by_frame preserves_Screen_destroy|intros _].
    by_frame preserves_Part001_onGo.
  - apply grows_bind; [by_frame preserves_Screen_destroy|intros _].
    by_frame preserves_Part001_onBack.
  - apply grows_bind; [by_frame preserves_Screen_destroy|intros _].
    by_frame preserves_Part001_onGoAndClear.
  - apply grows_bind; [by_frame preserves_Screen_destroy|intros _].
    by_frame preserves_Part001_onSubmit.
  - apply grows_bind; [by_frame preserves_Screen_destroy|intros _].
    by_frame preserves_Part001_onRefresh.
Qed.

Lemma PublicLib_step_grows i w : trace_extends w (PublicLib.step parse_html i w).
Proof.
  unfold PublicLib.step. revert w. change (preserves trace_extends (PublicLib.handle parse_html i)).
  destruct i; cbn [PublicLib.handle].
  - apply preserves_dispatch;
      [exact trace_extends_refl|exact trace_extends_trans|apply grows_PublicLib_run_handler].
  - apply preserves_dispatch;
      [exact trace_extends_refl|exact trace_extends_trans|apply grows_PublicLib_run_handler].
  - by_frame preserves_PublicLib_complete.
Qed.

Lemma Part001_step_grows i w : trace_extends w (Part001.step parse_html i w).
Proof.
  unfold Part001.step. revert w. change (preserves trace_extends (Part001.handle parse_html i)).
  destruct i; cbn [Part001.handle].
  - apply preserves_dispatch;
      [exact trace_extends_refl|exact trace_extends_trans|apply grows_Part001_run_handler].
  - apply preserves_dispatch;
      [exact trace_extends_refl|exact trace_extends_trans|apply grows_Part001_run_handler].
  - by_frame preserves_Part001_complete.
Qed.

Lemma PublicLib_run_grows inputs w : trace_extends w (PublicLib.run parse_html inputs w).
Proof.
  unfold PublicLib.run.
  apply (preserves_fold trace_extends trace_extends_refl trace_extends_trans
           inputs (PublicLib.step parse_html) w).
  apply PublicLib_step_grows.
Qed.

Lemma Part001_run_grows inputs w : trace_extends w (Part001.run parse_html inputs w).
Proof.
  unfold Part001.run.
  apply (preserves_fold trace_extends trace_extends_refl trace_extends_trans
           inputs (Part001.step parse_html) w).
  apply Part001_step_grows.
Qed.

Lemma PublicLib_getHtml_grows tab w :
  trace_extends w (world_of (PublicLib.getHtml parse_html tab w)).
Proof. revert w. by_frame preserves_PublicLib_getHtml. Qed.

Lemma Part001_setCurrentScreenHTML_grows tab m d f w :
  trace_extends w (world_of (Part001.setCurrentScreenHTML parse_html tab m d f w)).
Proof. revert w. by_frame preserves_Part001_setCurrentScreenHTML. Qed.

Lemma PublicLib_getHtml_same_selection tab w :
  same_selection w (world_of (PublicLib.getHtml parse_html tab w)).
Proof.
  revert w. apply preserves_PublicLib_getHtml;
    first [exact same_selection_trans | intros; reflexivity].
Qed.

Lemma Part001_setCurrentScreenHTML_same_selection tab m d f w :
  same_selection w (world_of (Part001.setCurrentScreenHTML parse_html tab m d f w)).
Proof.
  revert w. apply preserves_Part001_setCurrentScreenHTML;
    first [exact same_selection_trans | intros; reflexivity].
Qed.

End TraceGrows.

(** ** Switching tabs *)

Lemma findTab_run (v : string) (prev : nat) (w : World) :
  TabBarCommon.find_from 0 (tabs w) v = Some prev ->
  TabBarCommon.findTab v w = Ret (Some prev) w.
Proof. intros H. unfold TabBarCommon.findTab, bind, get. now rewrite H. Qed.

Lemma Tab_destroy_run (tab : nat) (t : Tab) (cur : loc) (s : Screen) (w : World) :
  tabs w !! tab = Some t ->
  Backstack.getCurrent (backstack t) = Some cur ->
  heap w !! cur = Some s ->
  TabCommon.destroy tab w = Ret tt (destroyed s w).
Proof.
  intros Ht Hc Hs. unfold TabCommon.destroy.
  rewrite (bind_Ret _ _ _ _ _ (backstack_getCurrent_run _ _ _ Ht)).
  rewrite <- BackstackFacts.getCurrent_eq, Hc. cbn [method_of].
  rewrite (bind_Ret _ _ _ _ _ (eq_refl : ret cur w = Ret cur w)).
  now apply Screen_destroy_run.
Qed.

Lemma jq_viewport_hidden_run (w : World) :
  jq_viewport_visibility "hidden" w = Ret tt (hide w).
Proof. reflexivity. Qed.

Lemma animateOut_onComplete_run (tab prev : nat) (t pt : Tab) (pcur : loc)
    (ps : Screen) (w : World) :
  tabs w !! tab = Some t ->
  TabBarCommon.find_from 0 (tabs w) (selectedTabViewId w) = Some prev ->
  tabs w !! prev = Some pt ->
  Backstack.getCurrent (backstack pt) = Some pcur ->
  heap w !! pcur = Some ps ->
  TabBarCommon.animateOut_onComplete tab w
    = Ret tt (with_selected (viewId t) (destroyed ps w)).
Proof.
  intros Ht Hf Hpt Hc Hs. unfold TabBarCommon.animateOut_onComplete.
  rewrite (bind_Ret _ _ _ _ _ (eq_refl : get selectedTabViewId w = Ret _ w)).
  rewrite (bind_Ret _ _ _ _ _ (findTab_run _ _ _ Hf)). cbn [method_of].
  rewrite (bind_Ret _ _ _ _ _ (eq_refl : ret prev w = Ret prev w)).
  rewrite (bind_Ret _ _ _ _ _ (Tab_destroy_run _ _ _ _ _ Hpt Hc Hs)).
  assert (Ht' : tabs (destroyed ps w) !! tab = Some t) by exact Ht.
  now rewrite (bind_Ret _ _ _ _ _ (the_tab_Some _ _ _ Ht')).
Qed.

Lemma release_viewport_html (its : list (string * EventName)) (p : Page) :
  viewport_html (release its p) = viewport_html p.
Proof.
  revert p. induction its as [|it its IH]; intros p; [reflexivity|].
  simpl. now rewrite IH.
Qed.

Lemma PublicLib_preCreate_run (tab prev : nat) (t pt : Tab) (pcur : loc)
    (ps : Screen) (w : World) :
  tabs w !! tab = Some t ->
  TabBarCommon.find_from 0 (tabs w) (selectedTabViewId w) = Some prev ->
  tabs w !! prev = Some pt ->
  Backstack.getCurrent (backstack pt) = Some pcur ->
  heap w !! pcur = Some ps ->
  exists w1,
    PublicLib.preCreate tab w = Ret tt w1
    /\ torn_down [ConsoleLog "animateOut(): starting";
                  JqCss (appViewId w) "visibility" "hidden"] ps t w w1.
Proof.
  intros Ht Hf Hpt Hc Hs. eexists. split.
  - unfold PublicLib.preCreate, PublicLib.animateOut.
    rewrite (bind_Ret _ _ _ _ _ (eq_refl : console_log _ w = Ret tt _)).
    rewrite (bind_Ret _ _ _ _ _ (jq_viewport_hidden_run _)).
    eapply animateOut_onComplete_run; [exact Ht|exact Hf|exact Hpt|exact Hc|exact Hs].
  - unfold torn_down. split; [|split; [|split]].
    + cbn. now rewrite <- !app_assoc.
    + apply release_releases.
    + change (viewport_html (release (ScreenCommon.interceptors ps)
                                     (hidden_page (page w)))
              = viewport_html (page w)).
      now rewrite release_viewport_html.
    + now cbn.
Qed.

Lemma Part001_preCreate_run (tab prev : nat) (t pt : Tab) (pcur : loc)
    (ps : Screen) (w : World) :
  tabs w !! tab = Some t ->
  TabBarCommon.find_from 0 (tabs w) (selectedTabViewId w) = Some prev ->
  tabs w !! prev = Some pt ->
  Backstack.getCurrent (backstack pt) = Some pcur ->
  heap w !! pcur = Some ps ->
  exists w1,
    Part001.preCreate tab w = Ret tt w1
    /\ torn_down [JqCss (appViewId w) "visibility" "hidden"] ps t w w1.
Proof.
  intros Ht Hf Hpt Hc Hs. eexists. split.
  - unfold Part001.preCreate, Part001.animateOut.
    rewrite (bind_Ret _ _ _ _ _ (jq_viewport_hidden_run _)).
    eapply animateOut_onComplete_run; [exact Ht|exact Hf|exact Hpt|exact Hc|exact Hs].
  - unfold torn_down. split; [|split; [|split]].
    + cbn. now rewrite <- !app_assoc.
    + apply release_releases.
    + change (viewport_html (release (ScreenCommon.interceptors ps)
                                     (hidden_page (page w)))
              = viewport_html (page w)).
      now rewrite release_viewport_html.
    + now cbn.
Qed.

(** C5. A click on a Tab, while the selected Tab exists and has a current
    Screen: first the listeners of that Screen are released
    (the viewport still holds the old markup and nothing has been written to it
    in this turn), and [selectedTabViewId] becomes the clicked Tab's id; only
    then does the clicked Tab fetch or re-use its markup, so every write to the
    viewport, in this turn or in any later one, comes after the release.
    Both variants. *)
Theorem tab_switch_releases_before_write (parse_html : string -> list Attrs)
    (w : World) (tab prev : nat) (t pt : Tab) (pcur : loc) (ps : Screen)
    (e : EventData) :
  tabs w !! tab = Some t ->
  TabBarCommon.find_from 0 (tabs w) (selectedTabViewId w) = Some prev ->
  tabs w !! prev = Some pt ->
  Backstack.getCurrent (backstack pt) = Some pcur ->
  heap w !! pcur = Some ps ->
  (exists before w1,
     forallb (fun x => negb (is_html_write x)) before = true
     /\ PublicLib.preCreate tab w = Ret tt w1
     /\ torn_down before ps t w w1
     /\ PublicLib.run_handler parse_html (TabClick tab) e w
        = PublicLib.getHtml parse_html tab w1
     /\ let w2 := world_of (PublicLib.run_handler parse_html (TabClick tab) e w) in
        selectedTabViewId w2 = viewId t
        /\ forall later, exists after,
             trace (PublicLib.run parse_html later w2)
             = trace w ++ before ++ off_calls (ScreenCommon.interceptors ps) ++ after)
  /\ (exists before w1,
     forallb (fun x => negb (is_html_write x)) before = true
     /\ Part001.preCreate tab w = Ret tt w1
     /\ torn_down before ps t w w1
     /\ Part001.run_handler parse_html (TabClick tab) e w
        = Part001.setCurrentScreenHTML parse_html tab "GET" None true w1
     /\ let w2 := world_of (Part001.run_handler parse_html (TabClick tab) e w) in
        selectedTabViewId w2 = viewId t
        /\ forall later, exists after,
             trace (Part001.run parse_html later w2)
             = trace w ++ before ++ off_calls (ScreenCommon.interceptors ps) ++ after).
Proof.
  intros Ht Hf Hpt Hc Hs. split.
  - destruct (PublicLib_preCreate_run tab prev t pt pcur ps w Ht Hf Hpt Hc Hs)
      as (w1 & Hpre & Htd).
    exists [ConsoleLog "animateOut(): starting";
            JqCss (appViewId w) "visibility" "hidden"], w1.
    split; [reflexivity|]. split; [exact Hpre|]. split; [exact Htd|].
    assert (Hrun : PublicLib.run_handler parse_html (TabClick tab) e w
                   = PublicLib.getHtml parse_html tab w1)
      by (cbn [PublicLib.run_handler]; now rewrite (bind_Ret _ _ _ _ _ Hpre)).
    split; [exact Hrun|]. cbn zeta. rewrite Hrun.
    destruct Htd as (Htr & _ & _ & Hsel & _). split.
    + rewrite <- Hsel. apply PublicLib_getHtml_same_selection.
    + intros later.
      destruct (trace_extends_trans _ _ _
                  (PublicLib_getHtml_grows parse_html tab w1)
                  (PublicLib_run_grows parse_html later _)) as [after Hafter].
      exists after. rewrite Hafter, Htr. now rewrite <- !app_assoc.
  - destruct (Part001_preCreate_run tab prev t pt pcur ps w Ht Hf Hpt Hc Hs)
      as (w1 & Hpre & Htd).
    exists [JqCss (appViewId w) "visibility" "hidden"], w1.
    split; [reflexivity|]. split; [exact Hpre|]. split; [exact Htd|].
    assert (Hrun : Part001.run_handler parse_html (TabClick tab) e w
                   = Part001.setCurrentScreenHTML parse_html tab "GET" None true w1)
      by (cbn [Part001.run_handler]; now rewrite (bind_Ret _ _ _ _ _ Hpre)).
    split; [exact Hrun|]. cbn zeta. rewrite Hrun.
    destruct Htd as (Htr & _ & _ & Hsel & _). split.
    + rewrite <- Hsel. apply Part001_setCurrentScreenHTML_same_selection.
    + intros later.
      destruct (trace_extends_trans _ _ _
                  (Part001_setCurrentScreenHTML_grows parse_html tab "GET" None true w1)
                  (Part001_run_grows parse_html later _)) as [after Hafter].
      exists after. rewrite Hafter, Htr. now rewrite <- !app_assoc.
Qed.

(** ** Rendering and binding, run on a world *)

(** The worlds after one effect, one [.html(h)], one reveal of the viewport,
    one [.click(h)] / [.submit(h)], one [.css("visibility", v)]. *)

Lemma set_run (self : loc) (s : Screen) (term : Screen -> string) (ev : EventName)
    (h : Handler) (w : World) :
  heap w !! self = Some s ->
  (let* this := deref self in jq_on (term this) ev h) w
  = Ret tt (on_world (term s) ev h w).
Proof. intros H. now rewrite (bind_Ret _ _ _ _ _ (deref_Some _ _ _ H)). Qed.

Lemma setBackVisibilityOverride_run (self : loc) (s : Screen) (b : bool) (w : World) :
  heap w !! self = Some s ->
  ScreenCommon.setBackVisibilityOverride self b w
  = Ret tt (css_world (backTerm s) (if b then "visible" else "hidden") w).
Proof.
  intros H. unfold ScreenCommon.setBackVisibilityOverride.
  rewrite (bind_Ret _ _ _ _ _ (deref_Some _ _ _ H)). now destruct b.
Qed.

Lemma setupOverrides_run (self : loc) (s : Screen) (b : bool) (tab : nat) (w : World) :
  heap w !! self = Some s ->
  ScreenCommon.setupOverrides self b tab w = Ret tt (bound s self b tab w).
Proof.
  intros H. unfold ScreenCommon.setupOverrides, ScreenCommon.setGoOverride,
    ScreenCommon.setBackOverride, ScreenCommon.setGoAndClearOverride,
    ScreenCommon.setSubmitOverride, ScreenCommon.setRefreshOverride.
  erewrite bind_Ret by (apply setBackVisibilityOverride_run; exact H).
  erewrite bind_Ret by (apply (set_run self s goTerm); exact H).
  erewrite bind_Ret by (apply (set_run self s backTerm); exact H).
  erewrite bind_Ret by (apply (set_run self s goAndClearTerm); exact H).
  erewrite bind_Ret by (apply (set_run self s submitTerm); exact H).
  now rewrite (set_run self s refreshTerm) by exact H.
Qed.

Lemma jq_html_run (parse_html : string -> list Attrs) (h : string) (w : World) :
  jq_html parse_html (Some h) w = Ret tt (rendered parse_html h w).
Proof. reflexivity. Qed.

Lemma jq_html_undefined_run (parse_html : string -> list Attrs) (w : World) :
  jq_html parse_html None w = Ret tt (logged (JqHtml (appViewId w) None) w).
Proof. reflexivity. Qed.

Lemma PublicLib_onGetHTML_run (parse_html : string -> list Attrs) (tab : nat) (t : Tab)
    (h : string) (u : option string) (w : World) :
  tabs w !! tab = Some t ->
  PublicLib.onGetHTML parse_html tab (Some h) u w
  = Ret tt (PublicLib_shown parse_html t h u w).
Proof.
  intros H. unfold PublicLib.onGetHTML.
  rewrite (bind_Ret _ _ _ _ _ (jq_html_run parse_html h w)).
  assert (H' : tabs (rendered parse_html h w) !! tab = Some t) by exact H.
  now rewrite (bind_Ret _ _ _ _ _ (the_tab_Some _ _ _ H')).
Qed.

Lemma Part001_onSuccess_run (parse_html : string -> list Attrs) (tab : nat) (t : Tab)
    (h : string) (u : option string) (w : World) :
  tabs w !! tab = Some t ->
  Part001.onSuccess parse_html tab (Some h) u w
  = Ret tt (Part001_shown parse_html t h u w).
Proof.
  intros H. unfold Part001.onSuccess.
  rewrite (bind_Ret _ _ _ _ _ (jq_html_run parse_html h w)).
  assert (H' : tabs (rendered parse_html h w) !! tab = Some t) by exact H.
  now rewrite (bind_Ret _ _ _ _ _ (the_tab_Some _ _ _ H')).
Qed.

Lemma update_screen_run (self : loc) (s : Screen) (f : Screen -> Screen) (w : World) :
  heap w !! self = Some s ->
  update_screen self f w = Ret tt (store self (f s) w).
Proof.
  intros H. unfold update_screen. now rewrite (bind_Ret _ _ _ _ _ (deref_Some _ _ _ H)).
Qed.

Lemma heap_store (self : loc) (s s' : Screen) (w : World) :
  heap w !! self = Some s -> heap (store self s' w) !! self = Some s'.
Proof.
  intros H. unfold store. cbn. apply list_lookup_insert_eq. now apply lookup_lt_Some in H.
Qed.

Lemma PublicLib_initialise_callback_run (parse_html : string -> list Attrs)
    (this : nat) (self : loc) (s : Screen) (b : bool) (tab : nat) (t : Tab)
    (body : string) (w : World) :
  heap w !! self = Some s ->
  tabs w !! tab = Some t ->
  PublicLib.initialise_callback parse_html this self b tab body w
  = Ret tt (bound (cache body s) self b tab
              (PublicLib_shown parse_html t body (Some (url s))
                 (store self (cache body s) (flag_on_settings this w)))).
Proof.
  intros Hs Ht. unfold PublicLib.initialise_callback.
  rewrite (bind_Ret _ _ _ _ _ (eq_refl : modify _ w = Ret tt (flag_on_settings this w))).
  assert (Hs1 : heap (flag_on_settings this w) !! self = Some s) by exact Hs.
  rewrite (bind_Ret _ _ _ _ _ (update_screen_run self s _ _ Hs1)).
  fold (cache body s).
  pose proof (heap_store self s (cache body s) _ Hs1) as Hs2.
  rewrite (bind_Ret _ _ _ _ _ (deref_Some _ _ _ Hs2)).
  assert (Ht2 : tabs (store self (cache body s) (flag_on_settings this w)) !! tab = Some t)
    by exact Ht.
  rewrite (bind_Ret _ _ _ _ _ (PublicLib_onGetHTML_run parse_html tab t body _ _ Ht2)).
  apply setupOverrides_run. exact Hs2.
Qed.

Lemma PublicLib_complete_run (parse_html : string -> list Attrs) (id : nat)
    (req : AjaxSettings) (r : Response) (w : World) :
  requests w !! id = Some req ->
  ajax_completed req = false ->
  PublicLib.complete parse_html id r w
  = PublicLib.run_callbacks parse_html id (ajax_callbacks req) r (mark_completed id req w).
Proof.
  intros H Hc. unfold PublicLib.complete.
  rewrite (bind_Ret _ _ _ _ _ (eq_refl : get requests w = Ret _ w)).
  now rewrite H, Hc.
Qed.

Lemma Part001_complete_run (parse_html : string -> list Attrs) (id : nat)
    (req : AjaxSettings) (r : Response) (w : World) :
  requests w !! id = Some req ->
  ajax_completed req = false ->
  Part001.complete parse_html id r w
  = Part001.run_callbacks parse_html req r (mark_completed id req w).
Proof.
  intros H Hc. unfold Part001.complete.
  rewrite (bind_Ret _ _ _ _ _ (eq_refl : get requests w = Ret _ w)).
  now rewrite H, Hc.
Qed.

Lemma requests_send (u type : string) (data : option FormData) (k : Continuation)
    (w : World) :
  requests (send u type data k w) !! length (requests w)
  = Some (mkAjax u type data k false None).
Proof.
  unfold send. cbn. rewrite lookup_app_r by lia. now rewrite Nat.sub_diag.
Qed.

(** ** Fetch completion in public/lib/backstackjs/js/backstack.js *)

Lemma PublicLib_initialise_fetch (parse_html : string -> list Attrs) (self : loc)
    (s : Screen) (b : bool) (tab : nat) (w : World) :
  heap w !! self = Some s ->
  is_null (htmlCode s) || ToBoolean_flag (forceRefreshOnLoad s) = true ->
  PublicLib.initialise parse_html self b tab w
  = Ret tt (send (url s) "GET" None (InitialiseCallbacks self b tab) w).
Proof.
  intros Hs Hn. unfold PublicLib.initialise.
  rewrite (bind_Ret _ _ _ _ _ (deref_Some _ _ _ Hs)), Hn. apply jq_ajax_run.
Qed.

Lemma PublicLib_initialiseIgnoreCache_run (self : loc) (s : Screen) (b : bool)
    (tab : nat) (w : World) :
  heap w !! self = Some s ->
  PublicLib.initialiseIgnoreCache self b tab w
  = Ret tt (send (url s) "GET" None (InitialiseCallbacks self b tab) w).
Proof.
  intros Hs. unfold PublicLib.initialiseIgnoreCache.
  rewrite (bind_Ret _ _ _ _ _ (deref_Some _ _ _ Hs)). apply jq_ajax_run.
Qed.

(** C4, on the code.  When [Screen.initialise] fetches (no cached markup, or
    the stale flag set), and likewise for [initialiseIgnoreCache], the
    completion stores the response in [htmlCode], but [forceRefreshOnLoad] of
    the Screen is left as it was: the callback assigns [false] through [this],
    which is the settings object of the request, not the Screen. *)
Theorem initialise_fetch_keeps_stale_flag (parse_html : string -> list Attrs)
    (w : World) (self : loc) (s : Screen) (tab : nat) (t : Tab)
    (isBackVisible : bool) (body : string) :
  heap w !! self = Some s ->
  tabs w !! tab = Some t ->
  is_null (htmlCode s) || ToBoolean_flag (forceRefreshOnLoad s) = true ->
  let id := length (requests w) in
  exists w1 w2,
    PublicLib.initialise parse_html self isBackVisible tab w = Ret tt w1
    /\ PublicLib.initialiseIgnoreCache self isBackVisible tab w = Ret tt w1
    /\ requests w1 !! id
       = Some (mkAjax (url s) "GET" None (InitialiseCallbacks self isBackVisible tab)
                      false None)
    /\ PublicLib.complete parse_html id (Success body) w1 = Ret tt w2
    /\ (exists s2, heap w2 !! self = Some s2
                   /\ htmlCode s2 = Some body
                   /\ forceRefreshOnLoad s2 = forceRefreshOnLoad s)
    /\ (exists r2, requests w2 !! id = Some r2
                   /\ ajax_forceRefreshOnLoad r2 = Some false).
Proof.
  intros Hs Ht Hn id.
  set (req := mkAjax (url s) "GET" None (InitialiseCallbacks self isBackVisible tab)
                     false None).
  set (w1 := send (url s) "GET" None (InitialiseCallbacks self isBackVisible tab) w).
  assert (Hreq : requests w1 !! id = Some req) by apply requests_send.
  assert (Hlt : (id < length (requests w1))%nat) by (now apply lookup_lt_Some in Hreq).
  set (wm := mark_completed id req w1).
  assert (Hsm : heap wm !! self = Some s) by exact Hs.
  assert (Htm : tabs wm !! tab = Some t) by exact Ht.
  eexists w1, _. split; [now apply PublicLib_initialise_fetch|].
  split; [now apply PublicLib_initialiseIgnoreCache_run|].
  split; [exact Hreq|]. split.
  - rewrite (PublicLib_complete_run parse_html id req _ w1 Hreq eq_refl).
    cbn [ajax_callbacks req PublicLib.run_callbacks].
    apply (PublicLib_initialise_callback_run parse_html id self s isBackVisible tab t
             body wm Hsm Htm).
  - split.
    + exists (cache body s). split; [|split; reflexivity].
      apply (heap_store self s (cache body s) (flag_on_settings id wm) Hsm).
    + exists (mkAjax (url s) "GET" None (InitialiseCallbacks self isBackVisible tab)
                     true (Some false)).
      split; [|reflexivity].
      change (requests (flag_on_settings id wm) !! id = Some
                (mkAjax (url s) "GET" None (InitialiseCallbacks self isBackVisible tab)
                        true (Some false))).
      unfold flag_on_settings, wm, mark_completed, with_requests.
      cbn [requests].
      rewrite list_lookup_insert_eq by exact Hlt.
      apply list_lookup_insert_eq. now rewrite length_insert.
Qed.

(** ** Submitting a form *)

Lemma Part001_initialise_success_run (parse_html : string -> list Attrs)
    (self : loc) (s : Screen) (b : bool) (tab : nat) (t : Tab)
    (body action : string) (w : World) :
  heap w !! self = Some s ->
  tabs w !! tab = Some t ->
  Part001.initialise_success parse_html self b tab body action w
  = Ret tt (bound (cache body s) self b tab
              (Part001_shown parse_html t body (Some action)
                 (store self (cache body s) w))).
Proof.
  intros Hs Ht. unfold Part001.initialise_success.
  rewrite (bind_Ret _ _ _ _ _ (update_screen_run self s _ _ Hs)).
  fold (cache body s).
  pose proof (heap_store self s (cache body s) _ Hs) as Hs2.
  assert (Ht2 : tabs (store self (cache body s) w) !! tab = Some t) by exact Ht.
  rewrite (bind_Ret _ _ _ _ _ (Part001_onSuccess_run parse_html tab t body _ _ Ht2)).
  apply setupOverrides_run. exact Hs2.
Qed.

(** C2, amended.  In part_001, [Tab.onSubmit] pushes a new Screen for the
    form's action and sends the form data to it with the form's method in
    upper case; when that request succeeds the response becomes the markup of
    the new Screen, is written to the viewport, and the Screen's listeners are
    installed.  In public/lib, [Tab.onSubmit] only sends the data: nothing is
    pushed, and when the request succeeds the viewport and the stack are as
    before. *)
Theorem onSubmit_by_variant (parse_html : string -> list Attrs)
    (w : World) (tab : nat) (t : Tab) (action method : string) (data : FormData) :
  tabs w !! tab = Some t ->
  let id := length (requests w) in
  (exists w1,
     Part001.onSubmit parse_html tab action method (Some data) w = Ret tt w1
     /\ submitted tab t action method (Some data) w w1
     /\ forall body, exists w2,
          Part001.complete parse_html id (Success body) w1 = Ret tt w2
          /\ response_shown tab action body w w1 w2)
  /\ (exists w1,
     PublicLib.onSubmit tab action method data w = Ret tt w1
     /\ only_sent tab action method data w w1
     /\ forall body, exists w2,
          PublicLib.complete parse_html id (Success body) w1 = Ret tt w2
          /\ tabs w2 = tabs w /\ heap w2 = heap w
          /\ viewport_html (page w2) = viewport_html (page w)
          /\ viewport_children (page w2) = viewport_children (page w)).
Proof.
  intros Ht id. split.
  - set (n := length (heap w)).
    set (stack' := Backstack.screens (backstack t) ++ [n]).
    set (k := InitialiseCallbacks n (1 <? length stack')%nat tab).
    set (wa := alloc (fresh_screen None action) w).
    assert (Hta : tabs wa !! tab = Some t) by exact Ht.
    set (wp := set_stack tab t stack' wa).
    assert (Htp : tabs wp !! tab = Some (mkTab (Backstack.mk stack') (viewId t)))
      by (now apply tabs_set_stack).
    assert (Hsp : heap wp !! n = Some (fresh_screen None action))
      by apply heap_alloc.
    set (w1 := send action (toUpperCase method) (Some data) k wp).
    exists w1. split; [|split].
    + unfold Part001.onSubmit.
      rewrite (bind_Ret _ _ _ _ _ (Part001_new_Screen_run action w)).
      rewrite (bind_Ret _ _ _ _ _ (backstack_push_run tab t n wa Hta)).
      exact (Part001_setCurrentScreenHTML_fetch parse_html tab _ n
               (fresh_screen None action) wp method (Some data) false Htp
               (last_snoc _ _) Hsp eq_refl).
    + repeat split.
    + intros body.
      set (req := mkAjax action (toUpperCase method) (Some data) k false None).
      assert (Hreq : requests w1 !! id = Some req)
        by exact (requests_send action (toUpperCase method) (Some data) k wp).
      set (wm := mark_completed id req w1).
      assert (Hsm : heap wm !! n = Some (fresh_screen None action)) by exact Hsp.
      assert (Htm : tabs wm !! tab = Some (mkTab (Backstack.mk stack') (viewId t)))
        by exact Htp.
      eexists. split.
      * rewrite (Part001_complete_run parse_html id req _ w1 Hreq eq_refl).
        unfold Part001.run_callbacks. cbn [ajax_callbacks ajax_url req k].
        apply (Part001_initialise_success_run parse_html n _ _ tab _ body action wm
                 Hsm Htm).
      * unfold response_shown. split; [reflexivity|]. split; [reflexivity|]. split.
        -- exists (cache body (fresh_screen None action)). split; [|split; reflexivity].
           apply (heap_store n _ _ wm Hsm).
        -- cbn. apply last_snoc.
  - set (w1 := send action (toUpperCase method) (Some data) (SubmitFormCallbacks tab) w).
    exists w1. split; [reflexivity|]. split; [repeat split|].
    intros body.
    set (req := mkAjax action (toUpperCase method) (Some data)
                       (SubmitFormCallbacks tab) false None).
    assert (Hreq : requests w1 !! id = Some req) by apply requests_send.
    set (wm := mark_completed id req w1).
    assert (Htm : tabs wm !! tab = Some t) by exact Ht.
    eexists. split.
    + rewrite (PublicLib_complete_run parse_html id req _ w1 Hreq eq_refl).
      cbn [ajax_callbacks req PublicLib.run_callbacks].
      unfold PublicLib.onGetHTML.
      rewrite (bind_Ret _ _ _ _ _ (jq_html_undefined_run parse_html wm)).
      assert (Htm' : tabs (logged (JqHtml (appViewId wm) None) wm) !! tab = Some t)
        by exact Ht.
      rewrite (bind_Ret _ _ _ _ _ (the_tab_Some _ _ _ Htm')).
      reflexivity.
    + repeat split.
Qed.

(** ** Refreshing *)

(** The Screen with [forceRefreshOnLoad] set. *)

Lemma Part001_setCurrentScreenHTML_cached (parse_html : string -> list Attrs)
    (tab : nat) (t : Tab) (cur : loc) (s : Screen) (c : string) (w : World)
    (method : string) (data : option FormData) :
  tabs w !! tab = Some t ->
  last (Backstack.screens (backstack t)) = Some cur ->
  heap w !! cur = Some s ->
  htmlCode s = Some c ->
  Part001.setCurrentScreenHTML parse_html tab method data false w
  = Ret tt (bound s cur (1 <? Backstack.depth (backstack t))%nat tab
              (Part001_shown parse_html t c (Some (url s)) w)).
Proof.
  intros Ht Hc Hs Hh. unfold Part001.setCurrentScreenHTML.
  rewrite (bind_Ret _ _ _ _ _ (backstack_getCurrent_run _ _ _ Ht)), Hc. cbn [method_of].
  rewrite (bind_Ret _ _ _ _ _ (eq_refl : ret cur w = Ret cur w)).
  rewrite (bind_Ret _ _ _ _ _ (isHeaderBackVisible_run _ _ _ Ht)).
  unfold Part001.initialise.
  rewrite (bind_Ret _ _ _ _ _ (deref_Some _ _ _ Hs)), Hh. cbn [is_null orb].
  rewrite (bind_Ret _ _ _ _ _ (Part001_onSuccess_run parse_html tab t c _ w Ht)).
  apply setupOverrides_run. exact Hs.
Qed.

Lemma destroyed_viewport_html (s : Screen) (w : World) :
  viewport_html (page (destroyed s w)) = viewport_html (page w).
Proof. unfold destroyed. cbn [page with_trace with_page]. apply release_viewport_html. Qed.


(** ** The theorems at work on the demo page *)

(** An event on an element without [href], [action] or [method]. *)

Lemma onBack_single_screen_noop_witness :
  tabs Demo.lib_home !! 0%nat = Some Demo.tab_one
  /\ Backstack.depth (backstack Demo.tab_one) = 1%nat
  /\ PublicLib.onBack Demo.parse_html 0 Demo.lib_home
     = Ret tt (with_trace (fun tr => tr ++ [ConsoleLog onBack_diagnostic]) Demo.lib_home).
Proof.
  split; [reflexivity|]. split; [reflexivity|].
  exact (proj1 (onBack_single_screen_noop Demo.parse_html Demo.lib_home 0 Demo.tab_one
                  eq_refl eq_refl)).
Defined.

(** Scenario C, run as a click: the closure bound by [setBackOverride] has
    released the Screen's listeners before [Tab.onBack] finds nothing to pop. *)
Example back_click_at_depth_one :
  let w := PublicLib.run Demo.parse_html [UserClick Demo.back_link] Demo.lib_home in
  Demo.stack_urls w 0 = [Some "Home"]
  /\ requests w = requests Demo.lib_home
  /\ heap w = heap Demo.lib_home
  /\ last (trace w) = Some (ConsoleLog onBack_diagnostic)
  /\ listeners_on ".bs-override-back" click (page w) = [].
Proof. vm_compute. repeat split. Qed.

Lemma onGoAndClear_replaces_witness :
  tabs Demo.lib_home !! 0%nat = Some Demo.tab_one
  /\ exists w', PublicLib.onGoAndClear Demo.parse_html 0 "page3" Demo.lib_home = Ret tt w'
                /\ replaced (Some false) 0 Demo.tab_one "page3" Demo.lib_home w'.
Proof.
  split; [reflexivity|].
  exact (proj1 (onGoAndClear_replaces Demo.parse_html Demo.lib_home 0 Demo.tab_one
                  "page3" eq_refl)).
Defined.

(** Scenario D, run: from [Home], a click on the go-and-clear link to page3. *)
Example scenario_D :
  Demo.stack_urls (PublicLib.run Demo.parse_html [UserClick Demo.clear_link] Demo.lib_home) 0
    = [Some "page3"]
  /\ Demo.stack_urls (Part001.run Demo.parse_html [UserClick Demo.clear_link]
                        Demo.part001_home) 0
    = [Some "page3"].
Proof. split; vm_compute; reflexivity. Qed.

Lemma destroy_idempotent_witness :
  heap Demo.lib_home !! 0%nat = Some (Demo.home (Some false))
  /\ exists w1,
       ScreenCommon.destroy 0 Demo.lib_home = Ret tt w1
       /\ page (world_of (ScreenCommon.destroy 0 w1)) = page w1.
Proof.
  split; [reflexivity|].
  destruct (destroy_idempotent 0 (Demo.home (Some false)) Demo.lib_home eq_refl)
    as (w1 & H1 & _ & _ & _ & H2).
  exists w1. split; assumption.
Defined.

Lemma tab_switch_releases_before_write_witness :
  tabs Demo.lib_home !! 1%nat = Some Demo.tab_two
  /\ TabBarCommon.find_from 0 (tabs Demo.lib_home) (selectedTabViewId Demo.lib_home)
     = Some 0%nat
  /\ tabs Demo.lib_home !! 0%nat = Some Demo.tab_one
  /\ Backstack.getCurrent (backstack Demo.tab_one) = Some 0%nat
  /\ heap Demo.lib_home !! 0%nat = Some (Demo.home (Some false))
  /\ exists before w1,
       PublicLib.preCreate 1 Demo.lib_home = Ret tt w1
       /\ torn_down before (Demo.home (Some false)) Demo.tab_two Demo.lib_home w1.
Proof.
  repeat (split; [reflexivity|]).
  destruct (tab_switch_releases_before_write Demo.parse_html Demo.lib_home 1 0
              Demo.tab_two Demo.tab_one 0 (Demo.home (Some false)) no_event
              eq_refl eq_refl eq_refl eq_refl eq_refl)
    as [(before & w1 & _ & H1 & H2 & _) _].
  exists before, w1. split; assumption.
Defined.

(** Scenario F, run: tabs [tab-one (selected); tab-two], a click on tab-two. *)
Example scenario_F :
  let w := PublicLib.run Demo.parse_html [UserClick Demo.tab_two_button] Demo.lib_home in
  selectedTabViewId w = "tab-two"
  /\ skipn (length (trace Demo.lib_home)) (trace w)
     = [ JqRemoveClass ".btn-tab" "btn-tab-selected";
         JqAddClass "#tab-two" "btn-tab-selected";
         ConsoleLog "animateOut(): starting";
         JqCss "main" "visibility" "hidden";
         JqOff ".bs-override-go" click; JqOff ".bs-override-back" click;
         JqOff ".bs-override-clear" click; JqOff ".bs-override-submit" submit;
         JqOff ".bs-override-refresh" click;
         Ajax 1 "Other" "GET" None ].
Proof. split; vm_compute; reflexivity. Qed.

Lemma initialise_fetch_keeps_stale_flag_witness :
  heap lib_after_submit !! 0%nat = Some (flagged (Demo.home (Some false)))
  /\ tabs lib_after_submit !! 0%nat = Some Demo.tab_one
  /\ is_null (htmlCode (flagged (Demo.home (Some false))))
     || ToBoolean_flag (forceRefreshOnLoad (flagged (Demo.home (Some false)))) = true
  /\ exists w1 w2 s2,
       PublicLib.initialise Demo.parse_html 0 false 0 lib_after_submit = Ret tt w1
       /\ PublicLib.complete Demo.parse_html (length (requests lib_after_submit))
            (Success "<fresh>") w1 = Ret tt w2
       /\ heap w2 !! 0%nat = Some s2
       /\ htmlCode s2 = Some "<fresh>"
       /\ forceRefreshOnLoad s2 = Some true.
Proof.
  repeat (split; [reflexivity|]).
  destruct (initialise_fetch_keeps_stale_flag Demo.parse_html lib_after_submit 0
              (flagged (Demo.home (Some false))) 0 Demo.tab_one false "<fresh>"
              eq_refl eq_refl eq_refl)
    as (w1 & w2 & H1 & _ & _ & H2 & (s2 & H3 & H4 & H5) & _).
  exists w1, w2, s2. repeat split; assumption.
Defined.

(** The same, as a run of the page: the form on Home is submitted, tab-one is
    clicked again, the re-fetch of Home completes; Home is still marked stale. *)
Example stale_flag_survives_refetch :
  let w := PublicLib.run Demo.parse_html
             [ UserSubmit Demo.form x_is_1; UserClick (InChrome 1);
               AjaxResponse 2 (Success "<fresh>") ] Demo.lib_home in
  heap w !! 0%nat
  = Some (mkScreen "Home" (Some "<fresh>") (Some true) ".bs-override-go"
            ".bs-override-back" ".bs-override-clear" ".bs-override-submit"
            ".bs-override-refresh").
Proof. vm_compute. reflexivity. Qed.

(** C2, as stated, fails in public/lib: after a successful submit from [Home]
    the stack is still [Home], and the response was not rendered. *)
Lemma publiclib_submit_pushes_nothing :
  let w := PublicLib.run Demo.parse_html
             [UserSubmit Demo.form x_is_1; AjaxResponse 1 (Success "saved")]
             Demo.lib_home in
  Demo.stack_urls w 0 = [Some "Home"]
  /\ Demo.stack_urls w 0 <> [Some "Home"; Some "save.endpoint"]
  /\ viewport_html (page w) = "<home>"
  /\ viewport_html (page w) <> "saved".
Proof. vm_compute. repeat split; discriminate. Qed.

Lemma onSubmit_by_variant_witness :
  tabs Demo.part001_home !! 0%nat = Some Demo.tab_one
  /\ exists w1,
       Part001.onSubmit Demo.parse_html 0 "save.endpoint" "post" (Some x_is_1)
         Demo.part001_home = Ret tt w1
       /\ submitted 0 Demo.tab_one "save.endpoint" "post" (Some x_is_1)
            Demo.part001_home w1.
Proof.
  split; [reflexivity|].
  destruct (onSubmit_by_variant Demo.parse_html Demo.part001_home 0 Demo.tab_one
              "save.endpoint" "post" x_is_1 eq_refl)
    as [(w1 & H1 & H2 & _) _].
  exists w1. split; assumption.
Defined.

(** Scenario E, run in part_001. *)
Example scenario_E_part001 :
  let w := Part001.run Demo.parse_html
             [UserSubmit Demo.form x_is_1; AjaxResponse 1 (Success "saved")]
             Demo.part001_home in
  Demo.stack_urls w 0 = [Some "Home"; Some "save.endpoint"]
  /\ viewport_html (page w) = "saved".
Proof. split; vm_compute; reflexivity. Qed.



(** ** More about class Backstack *)

Lemma depth_snoc (l : list loc) (s : loc) :
  Backstack.depth (Backstack.mk (l ++ [s])) = S (length l).
Proof. unfold Backstack.depth. cbn. rewrite length_app. cbn. lia. Qed.

(** X1. [push] followed by [popForced] gives the stack back, and so does
    [push] followed by [pop] unless the stack was empty, in which case [pop]
    refuses and the pushed Screen stays; right after [push], [getCurrent] is
    the pushed Screen. *)
Theorem push_then_pop (s : loc) (b : Backstack.t) :
  Backstack.getCurrent (snd (Backstack.push s b)) = Some s
  /\ Backstack.popForced (snd (Backstack.push s b)) = (true, b)
  /\ ((1 <= Backstack.depth b)%nat ->
      Backstack.pop (snd (Backstack.push s b)) = (true, b))
  /\ (Backstack.depth b = 0%nat ->
      Backstack.pop (snd (Backstack.push s b)) = (false, snd (Backstack.push s b))).
Proof.
  rewrite BackstackFacts.push_eq. cbn [snd].
  split; [|split; [|split]].
  - rewrite BackstackFacts.getCurrent_eq. cbn. apply last_snoc.
  - rewrite BackstackFacts.popForced_eq, depth_snoc. cbn [Nat.leb Backstack.screens].
    now rewrite removelast_last, Backstack_eta.
  - intros H. rewrite BackstackFacts.pop_eq, depth_snoc.
    unfold Backstack.depth in H.
    destruct (Nat.ltb_spec 1 (S (length (Backstack.screens b)))); [|lia].
    cbn [Backstack.screens]. now rewrite removelast_last, Backstack_eta.
  - intros H. rewrite BackstackFacts.pop_eq, depth_snoc.
    unfold Backstack.depth in H. now rewrite H.
Qed.

Lemma push_then_pop_witness :
  Backstack.pop (snd (Backstack.push 7 (Backstack.mk [3%nat])))
  = (true, Backstack.mk [3%nat])
  /\ Backstack.pop (snd (Backstack.push 7 (Backstack.mk [])))
     = (false, Backstack.mk [7%nat]).
Proof.
  split.
  - exact (proj1 (proj2 (proj2 (push_then_pop 7 (Backstack.mk [3%nat])))) (le_n 1)).
  - exact (proj2 (proj2 (proj2 (push_then_pop 7 (Backstack.mk [])))) eq_refl).
Defined.

(** X2. [popForced] removes the top Screen and returns [true] exactly when
    the stack is not empty, and does nothing and returns [false] on an empty
    stack; among the three mutators, only [popForced] on a one-Screen stack
    turns a non-empty stack into an empty one. *)
Theorem popForced_only_empties (c : Backstack.call) (b : Backstack.t) :
  Backstack.popForced b
    = (if (1 <=? Backstack.depth b)%nat
       then (true, Backstack.mk (removelast (Backstack.screens b)))
       else (false, b))
  /\ (fst (Backstack.popForced b) = true <->
      S (Backstack.depth (snd (Backstack.popForced b))) = Backstack.depth b)
  /\ ((1 <= Backstack.depth b)%nat ->
      Backstack.depth (snd (Backstack.run_call c b)) = 0%nat ->
      c = Backstack.PopForced /\ Backstack.depth b = 1%nat).
Proof.
  split; [apply BackstackFacts.popForced_eq|]. split.
  - rewrite BackstackFacts.popForced_eq.
    destruct (Nat.leb_spec 1 (Backstack.depth b)) as [H|H]; cbn [fst snd].
    + split; [intros _|reflexivity]. unfold Backstack.depth in *. cbn.
      apply length_removelast_lt. destruct (Backstack.screens b); cbn in *; [lia|congruence].
    + split; [discriminate|lia].
  - intros Hb H0. destruct c as [s| |]; cbn [Backstack.run_call] in H0.
    + pose proof (BackstackFacts.depth_push s b). lia.
    + pose proof (BackstackFacts.depth_pop b Hb). lia.
    + split; [reflexivity|].
      rewrite BackstackFacts.popForced_eq in H0.
      destruct (Nat.leb_spec 1 (Backstack.depth b)); [|lia].
      cbn [snd] in H0. unfold Backstack.depth in *. cbn in H0.
      assert (Backstack.screens b <> [])
        by (destruct (Backstack.screens b); cbn in *; [lia|congruence]).
      pose proof (length_removelast_lt (Backstack.screens b) ltac:(assumption)). lia.
Qed.

Lemma popForced_only_empties_witness :
  Backstack.depth (snd (Backstack.run_call Backstack.PopForced (Backstack.mk [3%nat])))
  = 0%nat
  /\ Backstack.PopForced = Backstack.PopForced /\ Backstack.depth (Backstack.mk [3%nat]) = 1%nat.
Proof.
  split; [reflexivity|].
  exact (proj2 (proj2 (popForced_only_empties Backstack.PopForced (Backstack.mk [3%nat])))
           (le_n 1) eq_refl).
Defined.

(** ** Going forward and back *)

(** What [Tab.onGo] leaves behind: [flag] is the value the variant's
    constructor gives [forceRefreshOnLoad]. *)

Lemma ltb_length_snoc (l : list loc) (n : loc) :
  (1 <? length (l ++ [n]))%nat = (1 <=? length l)%nat.
Proof.
  rewrite length_app. cbn [length].
  destruct (Nat.ltb_spec 1 (length l + 1)); destruct (Nat.leb_spec 1 (length l));
    lia || reflexivity.
Qed.

Lemma went_visible (t : Tab) (n : nat) :
  (1 <? Backstack.depth
          (backstack (mkTab (Backstack.mk (Backstack.screens (backstack t) ++ [n]))
                            (viewId t))))%nat
  = (1 <=? Backstack.depth (backstack t))%nat.
Proof.
  unfold Backstack.depth. cbn [backstack Backstack.screens]. apply ltb_length_snoc.
Qed.

Lemma PublicLib_onGo_run (parse_html : string -> list Attrs)
    (w : World) (tab : nat) (t : Tab) (dest : string) :
  tabs w !! tab = Some t ->
  exists w', PublicLib.onGo parse_html tab dest w = Ret tt w'
             /\ went (Some false) tab t dest w w'.
Proof.
  intros Ht.
  set (n := length (heap w)).
  set (wa := alloc (fresh_screen (Some false) dest) w).
  assert (Hta : tabs wa !! tab = Some t) by exact Ht.
  set (wp := set_stack tab t (Backstack.screens (backstack t) ++ [n]) wa).
  assert (Htp : tabs wp !! tab
                = Some (mkTab (Backstack.mk (Backstack.screens (backstack t) ++ [n]))
                              (viewId t)))
    by (now apply tabs_set_stack).
  assert (Hsp : heap wp !! n = Some (fresh_screen (Some false) dest)) by apply heap_alloc.
  pose proof (PublicLib_getHtml_uncached parse_html tab _ n
                (fresh_screen (Some false) dest) wp Htp (last_snoc _ _) Hsp eq_refl)
    as Hrun.
  rewrite (went_visible t n) in Hrun.
  eexists. split.
  - unfold PublicLib.onGo.
    rewrite (bind_Ret _ _ _ _ _ (PublicLib_new_Screen_run dest w)).
    rewrite (bind_Ret _ _ _ _ _ (backstack_push_run tab t n wa Hta)).
    exact Hrun.
  - repeat split.
Qed.

Lemma Part001_onGo_run (parse_html : string -> list Attrs)
    (w : World) (tab : nat) (t : Tab) (dest : string) :
  tabs w !! tab = Some t ->
  exists w', Part001.onGo parse_html tab dest w = Ret tt w'
             /\ went None tab t dest w w'.
Proof.
  intros Ht.
  set (n := length (heap w)).
  set (wa := alloc (fresh_screen None dest) w).
  assert (Hta : tabs wa !! tab = Some t) by exact Ht.
  set (wp := set_stack tab t (Backstack.screens (backstack t) ++ [n]) wa).
  assert (Htp : tabs wp !! tab
                = Some (mkTab (Backstack.mk (Backstack.screens (backstack t) ++ [n]))
                              (viewId t)))
    by (now apply tabs_set_stack).
  assert (Hsp : heap wp !! n = Some (fresh_screen None dest)) by apply heap_alloc.
  pose proof (Part001_setCurrentScreenHTML_fetch parse_html tab _ n
                (fresh_screen None dest) wp "GET" None true Htp (last_snoc _ _) Hsp eq_refl)
    as Hrun.
  rewrite (went_visible t n) in Hrun.
  eexists. split.
  - unfold Part001.onGo.
    rewrite (bind_Ret _ _ _ _ _ (Part001_new_Screen_run dest w)).
    rewrite (bind_Ret _ _ _ _ _ (backstack_push_run tab t n wa Hta)).
    exact Hrun.
  - repeat split.
Qed.

(** X3. [Tab.onGo(url)] pushes a new Screen for [url] on top of the Tab's
    stack, whatever the stack, and issues a GET for [url]; nothing is written
    to the page in this turn; the callback of the request will show the back
    controls exactly when the stack was not empty before the push.
    Both variants. *)
Theorem onGo_pushes_and_fetches (parse_html : string -> list Attrs)
    (w : World) (tab : nat) (t : Tab) (dest : string) :
  tabs w !! tab = Some t ->
  (exists w', PublicLib.onGo parse_html tab dest w = Ret tt w'
              /\ went (Some false) tab t dest w w')
  /\ (exists w', Part001.onGo parse_html tab dest w = Ret tt w'
                 /\ went None tab t dest w w').
Proof.
  intros Ht. split.
  - now apply PublicLib_onGo_run.
  - now apply Part001_onGo_run.
Qed.

Lemma onGo_pushes_and_fetches_witness :
  tabs Demo.lib_home !! 0%nat = Some Demo.tab_one
  /\ exists w', PublicLib.onGo Demo.parse_html 0 "page2" Demo.lib_home = Ret tt w'
                /\ went (Some false) 0 Demo.tab_one "page2" Demo.lib_home w'.
Proof.
  split; [reflexivity|].
  exact (proj1 (onGo_pushes_and_fetches Demo.parse_html Demo.lib_home 0 Demo.tab_one
                  "page2" eq_refl)).
Defined.

Lemma PublicLib_getHtml_cached (parse_html : string -> list Attrs)
    (tab : nat) (t : Tab) (cur : loc) (s : Screen) (c : string) (w : World) :
  tabs w !! tab = Some t ->
  last (Backstack.screens (backstack t)) = Some cur ->
  heap w !! cur = Some s ->
  htmlCode s = Some c ->
  ToBoolean_flag (forceRefreshOnLoad s) = false ->
  PublicLib.getHtml parse_html tab w
  = Ret tt (bound s cur (1 <? Backstack.depth (backstack t))%nat tab
              (PublicLib_shown parse_html t c (Some (url s)) w)).
Proof.
  intros Ht Hc Hs Hh Hf. unfold PublicLib.getHtml.
  rewrite (bind_Ret _ _ _ _ _ (backstack_getCurrent_run _ _ _ Ht)), Hc. cbn [method_of].
  rewrite (bind_Ret _ _ _ _ _ (eq_refl : ret cur w = Ret cur w)).
  rewrite (bind_Ret _ _ _ _ _ (isHeaderBackVisible_run _ _ _ Ht)).
  unfold PublicLib.initialise.
  rewrite (bind_Ret _ _ _ _ _ (deref_Some _ _ _ Hs)), Hh, Hf. cbn [is_null orb].
  rewrite (bind_Ret _ _ _ _ _ (PublicLib_onGetHTML_run parse_html tab t c _ w Ht)).
  apply setupOverrides_run. exact Hs.
Qed.

(** X4. [Tab.onBack] on a stack of more than one Screen pops the top and,
    when the Screen below has cached markup (and, in public/lib, is not
    marked stale), writes exactly that markup to the viewport, tells the
    embedder and installs that Screen's listeners, without any request.
    Both variants. *)
Theorem onBack_reuses_cache (parse_html : string -> list Attrs)
    (w : World) (tab : nat) (t : Tab) (prev : loc) (s : Screen) (c : string) :
  tabs w !! tab = Some t ->
  (1 < Backstack.depth (backstack t))%nat ->
  last (removelast (Backstack.screens (backstack t))) = Some prev ->
  heap w !! prev = Some s ->
  htmlCode s = Some c ->
  (ToBoolean_flag (forceRefreshOnLoad s) = false ->
   exists w', PublicLib.onBack parse_html tab w = Ret tt w'
              /\ went_back tab t prev s c w w')
  /\ (exists w', Part001.onBack parse_html tab w = Ret tt w'
                 /\ went_back tab t prev s c w w').
Proof.
  intros Ht Hd Hp Hs Hh.
  set (popped := removelast (Backstack.screens (backstack t))) in *.
  pose proof (backstack_pop_run tab t w Ht Hd) as Hpop. fold popped in Hpop.
  set (w1 := set_stack tab t popped w) in *.
  assert (Ht1 : tabs w1 !! tab = Some (mkTab (Backstack.mk popped) (viewId t)))
    by (now apply tabs_set_stack).
  assert (Hs1 : heap w1 !! prev = Some s) by exact Hs.
  split.
  - intros Hf. eexists. split.
    + unfold PublicLib.onBack. rewrite (bind_Ret _ _ _ _ _ Hpop).
      exact (PublicLib_getHtml_cached parse_html tab _ prev s c w1 Ht1 Hp Hs1 Hh Hf).
    + unfold went_back. fold popped. split; [reflexivity|]. split; [reflexivity|].
      split; [reflexivity|]. split; [reflexivity|].
      cbn. rewrite !in_app_iff. cbn. tauto.
  - eexists. split.
    + unfold Part001.onBack. rewrite (bind_Ret _ _ _ _ _ Hpop).
      exact (Part001_setCurrentScreenHTML_cached parse_html tab _ prev s c w1 "GET" None
               Ht1 Hp Hs1 Hh).
    + unfold went_back. fold popped. split; [reflexivity|]. split; [reflexivity|].
      split; [reflexivity|]. split; [reflexivity|].
      cbn. rewrite !in_app_iff. cbn. tauto.
Qed.

Lemma onBack_reuses_cache_witness :
  tabs lib_page2 !! 0%nat = Some (mkTab (Backstack.mk [0; 2]%nat) "tab-one")
  /\ heap lib_page2 !! 0%nat = Some (Demo.home (Some false))
  /\ exists w', PublicLib.onBack Demo.parse_html 0 lib_page2 = Ret tt w'
                /\ went_back 0 (mkTab (Backstack.mk [0; 2]%nat) "tab-one") 0
                     (Demo.home (Some false)) "<home>" lib_page2 w'.
Proof.
  split; [reflexivity|]. split; [reflexivity|].
  exact (proj1 (onBack_reuses_cache Demo.parse_html lib_page2 0
                  (mkTab (Backstack.mk [0; 2]%nat) "tab-one") 0 (Demo.home (Some false))
                  "<home>" eq_refl (le_n 2) eq_refl eq_refl eq_refl) eq_refl).
Defined.

(** X5. public/lib: [Tab.onBack] onto a Screen whose [forceRefreshOnLoad] is
    set does not use that Screen's cached markup: the top is popped and a GET
    for the Screen's locator is issued; the viewport is not written. *)
Theorem PublicLib_onBack_refetches_stale (parse_html : string -> list Attrs)
    (w : World) (tab : nat) (t : Tab) (prev : loc) (s : Screen) :
  tabs w !! tab = Some t ->
  (1 < Backstack.depth (backstack t))%nat ->
  last (removelast (Backstack.screens (backstack t))) = Some prev ->
  heap w !! prev = Some s ->
  forceRefreshOnLoad s = Some true ->
  exists w',
    PublicLib.onBack parse_html tab w = Ret tt w'
    /\ tabs w' = <[tab := mkTab (Backstack.mk (removelast (Backstack.screens (backstack t))))
                             (viewId t)]> (tabs w)
    /\ requests w' = requests w ++
         [mkAjax (url s) "GET" None
                 (InitialiseCallbacks prev
                    (1 <? length (removelast (Backstack.screens (backstack t))))%nat tab)
                 false None]
    /\ page w' = page w
    /\ heap w' = heap w.
Proof.
  intros Ht Hd Hp Hs Hf.
  set (popped := removelast (Backstack.screens (backstack t))) in *.
  pose proof (backstack_pop_run tab t w Ht Hd) as Hpop. fold popped in Hpop.
  set (w1 := set_stack tab t popped w) in *.
  assert (Ht1 : tabs w1 !! tab = Some (mkTab (Backstack.mk popped) (viewId t)))
    by (now apply tabs_set_stack).
  assert (Hs1 : heap w1 !! prev = Some s) by exact Hs.
  eexists. split.
  - unfold PublicLib.onBack. rewrite (bind_Ret _ _ _ _ _ Hpop).
    refine (PublicLib_getHtml_uncached parse_html tab _ prev s w1 Ht1 Hp Hs1 _).
    rewrite Hf. apply orb_true_r.
  - repeat split.
Qed.

Lemma PublicLib_onBack_refetches_stale_witness :
  tabs lib_page2_stale_home !! 0%nat = Some (mkTab (Backstack.mk [0; 2]%nat) "tab-one")
  /\ heap lib_page2_stale_home !! 0%nat = Some (flagged (Demo.home (Some false)))
  /\ exists w',
       PublicLib.onBack Demo.parse_html 0 lib_page2_stale_home = Ret tt w'
       /\ page w' = page lib_page2_stale_home.
Proof.
  split; [reflexivity|]. split; [reflexivity|].
  destruct (PublicLib_onBack_refetches_stale Demo.parse_html lib_page2_stale_home 0
              (mkTab (Backstack.mk [0; 2]%nat) "tab-one") 0
              (flagged (Demo.home (Some false))) eq_refl (le_n 2) eq_refl eq_refl eq_refl)
    as (w' & H1 & _ & _ & H2 & _).
  exists w'. split; assumption.
Defined.

(** ** TabBar: finding and marking the selected Tab *)

(** What [findTab] logs when no Tab has the view id. *)

Lemma find_from_first (v : string) (ts : list Tab) (k i : nat) (t : Tab) :
  ts !! i = Some t ->
  viewId t = v ->
  (forall j t', (j < i)%nat -> ts !! j = Some t' -> viewId t' <> v) ->
  TabBarCommon.find_from k ts v = Some (k + i)%nat.
Proof.
  revert k i. induction ts as [|a ts IH]; intros k i Hi Hv Hfirst; [discriminate|].
  cbn [TabBarCommon.find_from]. destruct i as [|i].
  - cbn in Hi. injection Hi as ->. rewrite Hv, String.eqb_refl. f_equal. lia.
  - destruct (String.eqb_spec (viewId a) v) as [E|_].
    + exfalso. exact (Hfirst 0%nat a ltac:(lia) eq_refl E).
    + replace (k + S i)%nat with (S k + i)%nat by lia.
      apply IH; [exact Hi|exact Hv|].
      intros j t' Hj Hl. apply (Hfirst (S j) t'); [lia|exact Hl].
Qed.

Lemma find_from_none (v : string) (ts : list Tab) (k : nat) :
  (forall i t, ts !! i = Some t -> viewId t <> v) ->
  TabBarCommon.find_from k ts v = None.
Proof.
  revert k. induction ts as [|a ts IH]; intros k H; [reflexivity|].
  cbn [TabBarCommon.find_from].
  destruct (String.eqb_spec (viewId a) v) as [E|_].
  - exfalso. exact (H 0%nat a eq_refl E).
  - apply IH. intros i t Hi. exact (H (S i) t Hi).
Qed.

Lemma findTab_none_run (v : string) (w : World) :
  no_tab_with v w ->
  TabBarCommon.findTab v w = Ret None (logged (findTab_error v) w).
Proof.
  intros Hnone. unfold TabBarCommon.findTab, bind, get.
  now rewrite (find_from_none v (tabs w) 0 Hnone).
Qed.

(** X6. [TabBar.findTab] returns the first Tab, in the order of [tabs], whose
    view id is the one asked for, and touches nothing; when no Tab has that
    id it logs one error on the console and returns [undefined]. *)
Theorem findTab_first_or_undefined (v : string) (w : World) :
  (forall i t,
     tabs w !! i = Some t ->
     viewId t = v ->
     (forall j t', (j < i)%nat -> tabs w !! j = Some t' -> viewId t' <> v) ->
     TabBarCommon.findTab v w = Ret (Some i) w)
  /\ (no_tab_with v w ->
      TabBarCommon.findTab v w = Ret None (logged (findTab_error v) w)).
Proof.
  split.
  - intros i t Hi Hv Hfirst. apply findTab_run.
    exact (find_from_first v (tabs w) 0 i t Hi Hv Hfirst).
  - apply findTab_none_run.
Qed.

Lemma findTab_first_or_undefined_witness :
  TabBarCommon.findTab "tab-two" Demo.lib_home = Ret (Some 1%nat) Demo.lib_home
  /\ TabBarCommon.findTab "tab-nine" Demo.lib_home
     = Ret None (logged (findTab_error "tab-nine") Demo.lib_home).
Proof.
  split.
  - apply (proj1 (findTab_first_or_undefined "tab-two" Demo.lib_home) 1%nat Demo.tab_two
             eq_refl eq_refl).
    intros j t' Hj Hl. assert (j = 0%nat) as -> by lia.
    vm_compute in Hl. injection Hl as <-. discriminate.
  - apply (proj2 (findTab_first_or_undefined "tab-nine" Demo.lib_home)).
    intros i t Hi. destruct i as [|[|i]]; vm_compute in Hi; try discriminate;
      injection Hi as <-; discriminate.
Defined.

(** X7. When [selectedTabViewId] names no Tab of the TabBar (a TabBar
    constructed with an unknown initial id), a click on any Tab hides the
    viewport, logs the [findTab] error and ends in a TypeError: nothing is
    fetched or rendered, and [selectedTabViewId] is not updated, so the next
    click ends the same way.  Both variants. *)
Theorem tab_click_with_unknown_selection (parse_html : string -> list Attrs)
    (w : World) (tab : nat) (e : EventData) :
  no_tab_with (selectedTabViewId w) w ->
  (exists w',
     PublicLib.run_handler parse_html (TabClick tab) e w
     = Throw (undefined_receiver "destroy") w'
     /\ stuck [ConsoleLog "animateOut(): starting"] w w'
     /\ no_tab_with (selectedTabViewId w') w')
  /\ (exists w',
     Part001.run_handler parse_html (TabClick tab) e w
     = Throw (undefined_receiver "destroy") w'
     /\ stuck [] w w'
     /\ no_tab_with (selectedTabViewId w') w').
Proof.
  intros Hnone.
  assert (Hcomplete : forall w0,
            tabs w0 = tabs w -> selectedTabViewId w0 = selectedTabViewId w ->
            TabBarCommon.animateOut_onComplete tab w0
            = Throw (undefined_receiver "destroy")
                    (logged (findTab_error (selectedTabViewId w)) w0)).
  { intros w0 Ht Hsel. unfold TabBarCommon.animateOut_onComplete.
    rewrite (bind_Ret _ _ _ _ _ (eq_refl : get selectedTabViewId w0 = Ret _ w0)).
    assert (Hn0 : no_tab_with (selectedTabViewId w0) w0)
      by (unfold no_tab_with; rewrite Ht, Hsel; exact Hnone).
    rewrite (bind_Ret _ _ _ _ _ (findTab_none_run (selectedTabViewId w0) w0 Hn0)).
    now rewrite Hsel. }
  split.
  - eexists. split; [|split].
    + cbn [PublicLib.run_handler].
      apply bind_Throw. unfold PublicLib.preCreate, PublicLib.animateOut.
      rewrite (bind_Ret _ _ _ _ _ (eq_refl : console_log _ w = Ret tt _)).
      rewrite (bind_Ret _ _ _ _ _ (jq_viewport_hidden_run _)).
      apply Hcomplete; reflexivity.
    + unfold stuck. cbn. rewrite <- !app_assoc. repeat split.
    + exact Hnone.
  - eexists. split; [|split].
    + cbn [Part001.run_handler].
      apply bind_Throw. unfold Part001.preCreate, Part001.animateOut.
      rewrite (bind_Ret _ _ _ _ _ (jq_viewport_hidden_run _)).
      apply Hcomplete; reflexivity.
    + unfold stuck. cbn. rewrite <- !app_assoc. repeat split.
    + exact Hnone.
Qed.

Lemma tab_click_with_unknown_selection_witness :
  no_tab_with (selectedTabViewId lib_wrong_start) lib_wrong_start
  /\ exists w',
       PublicLib.run_handler Demo.parse_html (TabClick 0) no_event lib_wrong_start
       = Throw (undefined_receiver "destroy") w'
       /\ stuck [ConsoleLog "animateOut(): starting"] lib_wrong_start w'.
Proof.
  assert (H : no_tab_with (selectedTabViewId lib_wrong_start) lib_wrong_start).
  { intros i t Hi. destruct i as [|[|i]]; vm_compute in Hi; try discriminate;
      injection Hi as <-; discriminate. }
  split; [exact H|].
  destruct (tab_click_with_unknown_selection Demo.parse_html lib_wrong_start 0 no_event H)
    as [(w' & H1 & H2 & _) _].
  exists w'. split; assumption.
Defined.

(** ** Elements of the page, one at a time *)

(** The element carries the class [c]. *)

Lemma lookup_map {A B} (f : A -> B) (l : list A) (i : nat) :
  map f l !! i = option_map f (l !! i).
Proof.
  revert i. induction l as [|a l IH]; intros [|i]; cbn; try reflexivity. apply IH.
Qed.

Lemma element_at_jq_each (sel : string) (f : Element -> Element) (p : Page) (r : ElemRef) :
  element_at r (jq_each sel f p)
  = option_map (fun e => if matches sel e then f e else e) (element_at r p).
Proof. destruct r; cbn [element_at jq_each chrome viewport_children]; apply lookup_map. Qed.

Lemma matches_same (sel : string) (e e' : Element) :
  el_attrs e' = el_attrs e -> el_classes e' = el_classes e ->
  matches sel e' = matches sel e.
Proof. intros Ha Hc. unfold matches. now rewrite Ha, Hc. Qed.

Lemma element_in_page (r : ElemRef) (p : Page) (e : Element) :
  element_at r p = Some e -> In e (all_elements p).
Proof.
  unfold all_elements. rewrite in_app_iff.
  destruct r; cbn [element_at]; intros H; [left|right];
    apply list_elem_of_In; eapply list_elem_of_lookup_2; exact H.
Qed.

(** *** Marking the clicked Tab *)

Lemma existsb_filter_out (c : string) (l : list string) :
  existsb (String.eqb c) (List.filter (fun c' => negb (String.eqb c' c)) l) = false.
Proof.
  induction l as [|a l IH]; cbn; [reflexivity|].
  destruct (String.eqb_spec a c) as [->|N]; cbn; [exact IH|].
  rewrite IH. destruct (String.eqb_spec c a); [congruence|reflexivity].
Qed.

Lemma existsb_filter_other (c d : string) (l : list string) :
  c <> d ->
  existsb (String.eqb c) (List.filter (fun c' => negb (String.eqb c' d)) l)
  = existsb (String.eqb c) l.
Proof.
  intros N. induction l as [|a l IH]; cbn; [reflexivity|].
  destruct (String.eqb_spec a d) as [->|Na]; cbn.
  - rewrite IH. destruct (String.eqb_spec c d); [congruence|reflexivity].
  - now rewrite IH.
Qed.

Lemma has_class_addClass (c d : string) (e : Element) :
  has_class c (el_addClass d e) = has_class c e || String.eqb c d.
Proof.
  unfold has_class, el_addClass.
  destruct (existsb (String.eqb d) (el_classes e)) eqn:E.
  - destruct (String.eqb_spec c d) as [->|N]; [now rewrite E|now rewrite orb_false_r].
  - cbn. rewrite existsb_app. cbn. now rewrite orb_false_r.
Qed.

(** X8. The closure that marks the clicked Tab leaves the selected-class on
    exactly one kind of tab button: afterwards an element of class [btn-tab]
    carries [btn-tab-selected] if and only if its id is the clicked Tab's view
    id; attributes, listeners and the viewport are untouched. *)
Theorem select_closure_marks_clicked_only (w : World) (tab : nat) (t : Tab) :
  tabs w !! tab = Some t ->
  exists w',
    TabBarCommon.select_closure tab w = Ret tt w'
    /\ heap w' = heap w /\ tabs w' = tabs w /\ requests w' = requests w
    /\ viewport_html (page w') = viewport_html (page w)
    /\ forall r e, element_at r (page w) = Some e ->
       exists e',
         element_at r (page w') = Some e'
         /\ el_attrs e' = el_attrs e /\ el_listeners e' = el_listeners e
         /\ has_class tabClassName e' = has_class tabClassName e
         /\ (has_class tabClassName e' = true ->
             (has_class tabSelectedClassName e' = true
              <-> at_id (el_attrs e') = viewId t)).
Proof.
  intros Ht. eexists. split.
  - unfold TabBarCommon.select_closure.
    rewrite (bind_Ret _ _ _ _ _ (the_tab_Some _ _ _ Ht)). reflexivity.
  - do 4 (split; [reflexivity|]).
    intros r e Hr.
    cbn [page with_trace with_page].
    rewrite !element_at_jq_each, Hr. cbn [option_map].
    eexists. split; [reflexivity|].
    change (matches ("." +:+ "btn-tab") e) with (has_class tabClassName e).
    set (e1 := if has_class tabClassName e
               then el_removeClass tabSelectedClassName e else e).
    change (matches ("#" +:+ viewId t) e1)
      with (String.eqb (viewId t) (at_id (el_attrs e1))).
    assert (Ha1 : el_attrs e1 = el_attrs e) by (unfold e1; now destruct (has_class _ e)).
    assert (Hl1 : el_listeners e1 = el_listeners e)
      by (unfold e1; now destruct (has_class _ e)).
    assert (Ht1 : has_class tabClassName e1 = has_class tabClassName e).
    { unfold e1. destruct (has_class tabClassName e) eqn:E; [|exact E].
      unfold has_class, el_removeClass. cbn [el_classes].
      rewrite existsb_filter_other by discriminate. exact E. }
    assert (Hs1 : has_class tabClassName e = true ->
                  has_class tabSelectedClassName e1 = false).
    { intros E. unfold e1. rewrite E. apply existsb_filter_out. }
    rewrite Ha1.
    destruct (String.eqb_spec (viewId t) (at_id (el_attrs e))) as [Eid|Nid].
    + assert (Hadd : forall c, has_class c (el_addClass tabSelectedClassName e1)
                               = has_class c e1 || String.eqb c tabSelectedClassName)
        by (intros c; apply has_class_addClass).
      assert (Haa : el_attrs (el_addClass tabSelectedClassName e1) = el_attrs e1)
        by (unfold el_addClass; now destruct (existsb _ _)).
      assert (Hal : el_listeners (el_addClass tabSelectedClassName e1) = el_listeners e1)
        by (unfold el_addClass; now destruct (existsb _ _)).
      rewrite Haa, Hal, Ha1, Hl1, !Hadd, Ht1.
      split; [reflexivity|]. split; [reflexivity|].
      split; [now rewrite orb_false_r|].
      intros _. cbn [String.eqb]. rewrite String.eqb_refl, orb_true_r.
      split; [intros _; symmetry; exact Eid|reflexivity].
    + rewrite Ha1, Hl1, Ht1.
      split; [reflexivity|]. split; [reflexivity|]. split; [reflexivity|].
      intros E. rewrite (Hs1 E). split; [discriminate|].
      intros Eid. exfalso. apply Nid. symmetry. exact Eid.
Qed.

(** *** Installing the listeners of a Screen *)

Lemma select_closure_marks_clicked_only_witness :
  tabs Demo.lib_home !! 1%nat = Some Demo.tab_two
  /\ exists w', TabBarCommon.select_closure 1 Demo.lib_home = Ret tt w'
                /\ tabs w' = tabs Demo.lib_home.
Proof.
  split; [reflexivity|].
  destruct (select_closure_marks_clicked_only Demo.lib_home 1 Demo.tab_two eq_refl)
    as (w' & H1 & _ & H2 & _).
  exists w'. split; assumption.
Defined.

Lemma on_if_spec (sel : string) (ev : EventName) (h : Handler) (e0 e : Element) :
  el_attrs e = el_attrs e0 -> el_classes e = el_classes e0 ->
  let e' := if matches sel e then el_on ev h e else e in
  el_attrs e' = el_attrs e0 /\ el_classes e' = el_classes e0
  /\ el_visibility e' = el_visibility e
  /\ el_listeners e' = el_listeners e ++ (if matches sel e0 then [(ev, h)] else []).
Proof.
  intros Ha Hc. cbn zeta. rewrite (matches_same sel e0 e Ha Hc).
  destruct (matches sel e0); cbn; [tauto|].
  now rewrite app_nil_r.
Qed.

Lemma page_bound (s : Screen) (self : loc) (b : bool) (tab : nat) (w : World) :
  page (bound s self b tab w)
  = jq_each (refreshTerm s) (el_on click (RefreshOverride self tab))
      (jq_each (submitTerm s) (el_on submit (SubmitOverride self tab))
         (jq_each (goAndClearTerm s) (el_on click (GoAndClearOverride self tab))
            (jq_each (backTerm s) (el_on click (BackOverride self tab))
               (jq_each (goTerm s) (el_on click (GoOverride self tab))
                  (jq_each (backTerm s)
                     (el_css_visibility (if b then "visible" else "hidden"))
                     (page w)))))).
Proof. reflexivity. Qed.

(** X9. [Screen.setupOverrides] changes each element of the page as follows,
    and nothing else: the element keeps its attributes, classes and the
    listeners it had, and gets in addition, in this order, the go, back,
    go-and-clear, submit and refresh closures of this Screen for those of the
    five selectors that select it; its visibility is set, to [visible] or
    [hidden] as [isBackVisible] says, exactly when the back selector selects
    it. *)
Theorem setupOverrides_per_element (self : loc) (s : Screen) (isBackVisible : bool)
    (tab : nat) (w : World) :
  heap w !! self = Some s ->
  exists w',
    ScreenCommon.setupOverrides self isBackVisible tab w = Ret tt w'
    /\ heap w' = heap w /\ tabs w' = tabs w /\ requests w' = requests w
    /\ selectedTabViewId w' = selectedTabViewId w
    /\ viewport_html (page w') = viewport_html (page w)
    /\ (forall r, element_at r (page w) = None -> element_at r (page w') = None)
    /\ forall r e, element_at r (page w) = Some e ->
       exists e', element_at r (page w') = Some e'
                  /\ overridden s self isBackVisible tab e e'.
Proof.
  intros Hs. exists (bound s self isBackVisible tab w).
  split; [now apply setupOverrides_run|].
  do 5 (split; [reflexivity|]).
  split.
  - intros r Hr. rewrite page_bound, !element_at_jq_each, Hr. reflexivity.
  - intros r e Hr. rewrite page_bound, !element_at_jq_each, Hr. cbn [option_map].
    eexists. split; [reflexivity|].
    set (v := if isBackVisible then "visible" else "hidden").
    set (e0 := if matches (backTerm s) e then el_css_visibility v e else e).
    assert (H0 : el_attrs e0 = el_attrs e /\ el_classes e0 = el_classes e
                 /\ el_listeners e0 = el_listeners e
                 /\ el_visibility e0
                    = if matches (backTerm s) e then Some v else el_visibility e)
      by (unfold e0; destruct (matches (backTerm s) e); cbn; tauto).
    destruct H0 as (Ha0 & Hc0 & Hl0 & Hv0).
    destruct (on_if_spec (goTerm s) click (GoOverride self tab) e e0 Ha0 Hc0)
      as (Ha1 & Hc1 & Hv1 & Hl1).
    set (e1 := if matches (goTerm s) e0 then _ else e0) in *.
    destruct (on_if_spec (backTerm s) click (BackOverride self tab) e e1 Ha1 Hc1)
      as (Ha2 & Hc2 & Hv2 & Hl2).
    set (e2 := if matches (backTerm s) e1 then _ else e1) in *.
    destruct (on_if_spec (goAndClearTerm s) click (GoAndClearOverride self tab) e e2 Ha2 Hc2)
      as (Ha3 & Hc3 & Hv3 & Hl3).
    set (e3 := if matches (goAndClearTerm s) e2 then _ else e2) in *.
    destruct (on_if_spec (submitTerm s) submit (SubmitOverride self tab) e e3 Ha3 Hc3)
      as (Ha4 & Hc4 & Hv4 & Hl4).
    set (e4 := if matches (submitTerm s) e3 then _ else e3) in *.
    destruct (on_if_spec (refreshTerm s) click (RefreshOverride self tab) e e4 Ha4 Hc4)
      as (Ha5 & Hc5 & Hv5 & Hl5).
    set (e5 := if matches (refreshTerm s) e4 then _ else e4) in *.
    unfold overridden, installed.
    split; [exact Ha5|]. split; [exact Hc5|]. split.
    + rewrite Hl5, Hl4, Hl3, Hl2, Hl1, Hl0. now rewrite <- !app_assoc.
    + now rewrite Hv5, Hv4, Hv3, Hv2, Hv1, Hv0.
Qed.

Lemma setupOverrides_per_element_witness :
  heap Demo.lib_home !! 0%nat = Some (Demo.home (Some false))
  /\ exists w',
       ScreenCommon.setupOverrides 0 true 0 Demo.lib_home = Ret tt w'
       /\ heap w' = heap Demo.lib_home.
Proof.
  split; [reflexivity|].
  destruct (setupOverrides_per_element 0 (Demo.home (Some false)) true 0 Demo.lib_home
              eq_refl) as (w' & H1 & H2 & _).
  exists w'. split; assumption.
Defined.

(** *** A second click while the fetch is under way *)

Lemma released_dispatch_noop (run : Handler -> EventData -> M unit) (sel : string)
    (ev : EventName) (r : ElemRef) (e : Element) (data : FormData) (w : World) :
  listeners_on sel ev (page w) = [] ->
  element_at r (page w) = Some e ->
  matches sel e = true ->
  dispatch run ev r data w = Ret tt w.
Proof.
  intros Hu Hr Hm. unfold dispatch.
  rewrite (bind_Ret _ _ _ _ _ (eq_refl : get page w = Ret _ w)), Hr.
  apply unbound_iff in Hu. rewrite Forall_forall in Hu.
  assert (Hsil : silent sel ev e).
  { apply Hu. apply list_elem_of_In. now apply (element_in_page r). }
  unfold listeners_of. unfold silent, on_ev in Hsil. now rewrite (Hsil Hm).
Qed.

Lemma released_disarmed (run : Handler -> EventData -> M unit) (s : Screen) (w : World) :
  Forall (fun it => listeners_on (fst it) (snd it) (page w) = [])
         (ScreenCommon.interceptors s) ->
  disarmed run s w.
Proof.
  intros H sel ev r e data Hin Hr Hm.
  rewrite Forall_forall in H.
  apply (released_dispatch_noop run sel ev r e data w); [|exact Hr|exact Hm].
  exact (H (sel, ev) (proj2 (list_elem_of_In _ _) Hin)).
Qed.



(** Two clicks on the go link in a row, on the demo page: one Screen pushed,
    one request. *)
Example double_click_on_go :
  let w := PublicLib.run Demo.parse_html
             [UserClick Demo.go_link; UserClick Demo.go_link] Demo.lib_home in
  Demo.stack_urls w 0 = [Some "Home"; Some "page2"]
  /\ length (requests w) = 2%nat.
Proof. vm_compute. split; reflexivity. Qed.

(** ** Requests that fail *)

(** What [Screen.initialise] of part_001 logs when its request fails. *)

Lemma completed_marked (id : nat) (req : AjaxSettings) (w : World) :
  requests w !! id = Some req ->
  option_map ajax_completed (requests (mark_completed id req w) !! id) = Some true.
Proof.
  intros H. unfold mark_completed. cbn [requests with_requests].
  rewrite list_lookup_insert_eq by (now apply lookup_lt_Some in H). reflexivity.
Qed.

(** X11. part_001: when the request issued by [Screen.initialise] fails, the
    status is logged on the console and the embedder's error callback gets
    the Tab's view id and the locator; nothing else happens: a Screen pushed
    for that request stays on its stack without markup, the viewport is
    neither written nor revealed, and no listener is installed. *)
Theorem Part001_fetch_failure (parse_html : string -> list Attrs)
    (w : World) (id : nat) (req : AjaxSettings) (self : loc) (isBackVisible : bool)
    (tab : nat) (t : Tab) (status : Z) (statusText : string) :
  requests w !! id = Some req ->
  ajax_completed req = false ->
  ajax_callbacks req = InitialiseCallbacks self isBackVisible tab ->
  tabs w !! tab = Some t ->
  exists w',
    Part001.complete parse_html id (Failure status statusText) w = Ret tt w'
    /\ only_said id [initialise_error_line status statusText;
                     OnError (viewId t) (Some (ajax_url req))] w w'.
Proof.
  intros Hreq Hc Hk Ht. eexists. split.
  - rewrite (Part001_complete_run parse_html id req _ w Hreq Hc).
    unfold Part001.run_callbacks. rewrite Hk. unfold Part001.initialise_error.
    rewrite (bind_Ret _ _ _ _ _ (eq_refl : console_error _ _ = Ret tt _)).
    unfold Part001.onError.
    assert (Ht' : tabs (logged (initialise_error_line status statusText)
                          (mark_completed id req w)) !! tab = Some t) by exact Ht.
    unfold console_error. fold (initialise_error_line status statusText).
    fold (logged (initialise_error_line status statusText) (mark_completed id req w)).
    rewrite (bind_Ret _ _ _ _ _ (the_tab_Some _ _ _ Ht')). reflexivity.
  - unfold only_said. split; [cbn; now rewrite <- app_assoc|].
    do 4 (split; [reflexivity|]). split.
    + cbn. apply length_insert.
    + exact (completed_marked id req w Hreq).
Qed.

Lemma Part001_fetch_failure_witness :
  requests part001_going !! 1%nat
  = Some (mkAjax "page2" "GET" None (InitialiseCallbacks 2 true 0) false None)
  /\ tabs part001_going !! 0%nat = Some (mkTab (Backstack.mk [0; 2]%nat) "tab-one")
  /\ exists w',
       Part001.complete Demo.parse_html 1 (Failure 404 "Not Found") part001_going
       = Ret tt w'
       /\ only_said 1 [initialise_error_line 404 "Not Found";
                       OnError "tab-one" (Some "page2")] part001_going w'.
Proof.
  split; [reflexivity|]. split; [reflexivity|].
  exact (Part001_fetch_failure Demo.parse_html part001_going 1
           (mkAjax "page2" "GET" None (InitialiseCallbacks 2 true 0) false None)
           2 true 0 (mkTab (Backstack.mk [0; 2]%nat) "tab-one") 404 "Not Found"
           eq_refl eq_refl eq_refl eq_refl).
Defined.

(** X12. public/lib: a failed GET of [Screen.initialise] is reported to no
    one, neither console nor embedder, and changes nothing; a failed form
    submission is logged on the console with its status and changes nothing
    else. *)
Theorem PublicLib_failures (parse_html : string -> list Attrs)
    (w : World) (id : nat) (req : AjaxSettings) (status : Z) (statusText : string) :
  requests w !! id = Some req ->
  ajax_completed req = false ->
  (forall self isBackVisible tab,
     ajax_callbacks req = InitialiseCallbacks self isBackVisible tab ->
     exists w',
       PublicLib.complete parse_html id (Failure status statusText) w = Ret tt w'
       /\ only_said id [] w w')
  /\ (forall tab,
     ajax_callbacks req = SubmitFormCallbacks tab ->
     exists w',
       PublicLib.complete parse_html id (Failure status statusText) w = Ret tt w'
       /\ only_said id [submit_failure_line status statusText] w w').
Proof.
  intros Hreq Hc. split.
  - intros self b tab Hk. eexists. split.
    + rewrite (PublicLib_complete_run parse_html id req _ w Hreq Hc), Hk. reflexivity.
    + unfold only_said. split; [cbn; now rewrite app_nil_r|].
      do 4 (split; [reflexivity|]). split.
      * cbn. apply length_insert.
      * exact (completed_marked id req w Hreq).
  - intros tab Hk. eexists. split.
    + rewrite (PublicLib_complete_run parse_html id req _ w Hreq Hc), Hk. reflexivity.
    + unfold only_said. split; [reflexivity|].
      do 4 (split; [reflexivity|]). split.
      * cbn. apply length_insert.
      * exact (completed_marked id req w Hreq).
Qed.

Lemma PublicLib_failures_witness :
  requests lib_after_submit !! 1%nat
  = Some (mkAjax "save.endpoint" "POST" (Some x_is_1) (SubmitFormCallbacks 0) false None)
  /\ exists w',
       PublicLib.complete Demo.parse_html 1 (Failure 500 "Server Error") lib_after_submit
       = Ret tt w'
       /\ only_said 1 [submit_failure_line 500 "Server Error"] lib_after_submit w'.
Proof.
  split; [reflexivity|].
  exact (proj2 (PublicLib_failures Demo.parse_html lib_after_submit 1
                  (mkAjax "save.endpoint" "POST" (Some x_is_1) (SubmitFormCallbacks 0)
                          false None) 500 "Server Error" eq_refl eq_refl)
           0%nat eq_refl).
Defined.

(** ** Coming back to a Tab *)

(** X13. A click on a Tab whose current Screen has cached markup, while the
    selected Tab exists and has a current Screen.  public/lib (Screen not
    marked stale): the cached markup is written to the viewport and the
    viewport is revealed in the same turn, without any request.  part_001:
    the cache is not used: a GET for the Screen's locator is issued and the
    viewport stays hidden, with its old markup, until the response. *)

Theorem tab_click_cached_screen (parse_html : string -> list Attrs)
    (w : World) (tab prev : nat) (t pt : Tab) (pcur cur : loc) (ps s : Screen)
    (c : string) (e : EventData) :
  tabs w !! tab = Some t ->
  TabBarCommon.find_from 0 (tabs w) (selectedTabViewId w) = Some prev ->
  tabs w !! prev = Some pt ->
  Backstack.getCurrent (backstack pt) = Some pcur ->
  heap w !! pcur = Some ps ->
  Backstack.getCurrent (backstack t) = Some cur ->
  heap w !! cur = Some s ->
  htmlCode s = Some c ->
  (ToBoolean_flag (forceRefreshOnLoad s) = false ->
   exists w',
     PublicLib.run_handler parse_html (TabClick tab) e w = Ret tt w'
     /\ requests w' = requests w
     /\ viewport_html (page w') = c
     /\ viewport_visibility (page w') = Some "visible"
     /\ selectedTabViewId w' = viewId t
     /\ tabs w' = tabs w)
  /\ (exists w',
     Part001.run_handler parse_html (TabClick tab) e w = Ret tt w'
     /\ requests w' = requests w ++
          [mkAjax (url s) "GET" None
                  (InitialiseCallbacks cur (1 <? Backstack.depth (backstack t))%nat tab)
                  false None]
     /\ viewport_html (page w') = viewport_html (page w)
     /\ viewport_visibility (page w') = Some "hidden"
     /\ selectedTabViewId w' = viewId t
     /\ tabs w' = tabs w).
Proof.
  intros Ht Hf Hpt Hpc Hps Hc Hs Hh.
  assert (Hl : last (Backstack.screens (backstack t)) = Some cur)
    by (now rewrite <- BackstackFacts.getCurrent_eq).
  split.
  - intros Hflag.
    set (w0 := hide (logged (ConsoleLog "animateOut(): starting") w)).
    assert (Hpre : PublicLib.preCreate tab w
                   = Ret tt (with_selected (viewId t) (destroyed ps w0))).
    { unfold PublicLib.preCreate, PublicLib.animateOut.
      rewrite (bind_Ret _ _ _ _ _ (eq_refl : console_log _ w = Ret tt _)).
      rewrite (bind_Ret _ _ _ _ _ (jq_viewport_hidden_run _)).
      exact (animateOut_onComplete_run tab prev t pt pcur ps w0 Ht Hf Hpt Hpc Hps). }
    set (w1 := with_selected (viewId t) (destroyed ps w0)) in *.
    assert (Ht1 : tabs w1 !! tab = Some t) by exact Ht.
    assert (Hs1 : heap w1 !! cur = Some s) by exact Hs.
    eexists. split.
    + cbn [PublicLib.run_handler]. rewrite (bind_Ret _ _ _ _ _ Hpre).
      exact (PublicLib_getHtml_cached parse_html tab t cur s c w1 Ht1 Hl Hs1 Hh Hflag).
    + repeat split.
  - set (w0 := hide w).
    assert (Hpre : Part001.preCreate tab w
                   = Ret tt (with_selected (viewId t) (destroyed ps w0))).
    { unfold Part001.preCreate, Part001.animateOut.
      rewrite (bind_Ret _ _ _ _ _ (jq_viewport_hidden_run _)).
      exact (animateOut_onComplete_run tab prev t pt pcur ps w0 Ht Hf Hpt Hpc Hps). }
    set (w1 := with_selected (viewId t) (destroyed ps w0)) in *.
    assert (Ht1 : tabs w1 !! tab = Some t) by exact Ht.
    assert (Hs1 : heap w1 !! cur = Some s) by exact Hs.
    eexists. split.
    + cbn [Part001.run_handler]. rewrite (bind_Ret _ _ _ _ _ Hpre).
      exact (Part001_setCurrentScreenHTML_fetch parse_html tab t cur s w1 "GET" None true
               Ht1 Hl Hs1 (orb_true_r _)).
    + split; [reflexivity|]. split.
      * change (viewport_html (page (destroyed ps w0)) = viewport_html (page w)).
        now rewrite destroyed_viewport_html.
      * split; [|split; reflexivity].
        change (viewport_visibility
                  (release (ScreenCommon.interceptors ps) (hidden_page (page w)))
                = Some "hidden").
        reflexivity.
Qed.

Lemma tab_click_cached_screen_witness :
  tabs Demo.lib_home !! 0%nat = Some Demo.tab_one
  /\ TabBarCommon.find_from 0 (tabs Demo.lib_home) (selectedTabViewId Demo.lib_home)
     = Some 0%nat
  /\ Backstack.getCurrent (backstack Demo.tab_one) = Some 0%nat
  /\ heap Demo.lib_home !! 0%nat = Some (Demo.home (Some false))
  /\ exists w',
       PublicLib.run_handler Demo.parse_html (TabClick 0) no_event Demo.lib_home
       = Ret tt w'
       /\ requests w' = requests Demo.lib_home
       /\ viewport_html (page w') = "<home>".
Proof.
  repeat (split; [reflexivity|]).
  destruct (proj1 (tab_click_cached_screen Demo.parse_html Demo.lib_home 0 0
                     Demo.tab_one Demo.tab_one 0 0 (Demo.home (Some false))
                     (Demo.home (Some false)) "<home>" no_event
                     eq_refl eq_refl eq_refl eq_refl eq_refl eq_refl eq_refl eq_refl)
              eq_refl)
    as (w' & H1 & H2 & H3 & _).
  exists w'. repeat split; assumption.
Defined.

(** ** What every turn of the event loop keeps *)

(** An update of a Screen that leaves its locator and selectors alone and
    does not take cached markup away. *)

Lemma PublicLib_onGoAndClear_as_onGo (parse_html : string -> list Attrs)
    (tab : nat) (u : string) (w : World) :
  PublicLib.onGoAndClear parse_html tab u w
  = (TabCommon.backstack_popForced tab >>> PublicLib.onGo parse_html tab u) w.
Proof.
  unfold PublicLib.onGoAndClear, PublicLib.onGo.
  unfold bind at 1 4.
  destruct (TabCommon.backstack_popForced tab w) as [r w1|e w1]; [|reflexivity].
  rewrite !(bind_Ret _ _ _ _ _ (PublicLib_new_Screen_run u w1)).
  symmetry. apply bind_push_branch.
Qed.

(** [R] is a preorder kept by every write to the page, the requests, the
    trace and the selection; the writes to Screens and Backstacks that the
    library makes keep it for the Tabs in [mine]. *)
Section Steady.

Variable R : World -> World -> Prop.
Variable mine : nat -> Prop.
Hypothesis R_refl : forall w, R w w.
Hypothesis R_trans : forall w1 w2 w3, R w1 w2 -> R w2 w3 -> R w1 w3.
Hypothesis R_page : forall f w, R w (with_page f w).
Hypothesis R_requests : forall f w, R w (with_requests f w).
Hypothesis R_emit : forall e w, R w (with_trace (fun tr => tr ++ [e]) w).
Hypothesis R_selected : forall s w, R w (with_selected s w).
Hypothesis R_alloc : forall s w, R w (alloc s w).
Hypothesis R_update : forall l f, gentle f -> preserves R (update_screen l f).
Hypothesis R_push : forall tab s, mine tab -> preserves R (TabCommon.backstack_push tab s).
Hypothesis R_pop : forall tab, mine tab -> preserves R (TabCommon.backstack_pop tab).

Variable parse_html : string -> list Attrs.

Ltac side :=
  first [ exact R_refl | exact R_trans | exact R_page | exact R_requests | exact R_emit ].

Ltac split_bind := simple apply (preserves_bind R R_trans).

Ltac gentle_update :=
  simple apply R_update; intros ?; cbn; repeat split;
  first [ reflexivity | discriminate | tauto | congruence ].

Ltac leaf :=
  first
    [ simple apply preserves_ret; side
    | simple apply preserves_throw; side
    | simple apply preserves_get; side
    | simple apply preserves_deref; side
    | simple apply preserves_the_tab; side
    | simple apply preserves_method_of; side
    | simple apply preserves_console_log; side
    | simple apply preserves_console_error; side
    | simple apply preserves_emit; side
    | simple apply preserves_jq_ajax; side
    | simple apply preserves_jq_html; side
    | simple apply preserves_jq_viewport_visibility; side
    | simple apply preserves_with_requests; side
    | simple apply preserves_findTab; side
    | simple apply preserves_select_closure; side
    | simple apply preserves_Screen_destroy; side
    | simple apply preserves_Tab_destroy; side
    | simple apply preserves_setupOverrides; side
    | simple apply preserves_backstack_getCurrent; side
    | simple apply preserves_isHeaderBackVisible; side
    | simple apply preserves_PublicLib_onGetHTML; side
    | simple apply preserves_PublicLib_getHtml; side
    | simple apply preserves_PublicLib_onSubmit; side
    | simple apply preserves_Part001_onSuccess; side
    | simple apply preserves_Part001_onError; side
    | gentle_update
    | simple apply R_push; assumption
    | simple apply R_pop; assumption ].

Ltac steady :=
  repeat first
    [ progress intros
    | leaf
    | split_bind
    | match goal with
      | |- preserves _ (if ?x then _ else _) => destruct x
      | |- preserves _ (match ?x with _ => _ end) => destruct x
      end ].

Lemma steady_new_Screen_PublicLib u : preserves R (PublicLib.new_Screen u).
Proof. intros w. apply R_alloc. Qed.

Lemma steady_new_Screen_Part001 u : preserves R (Part001.new_Screen u).
Proof. intros w. apply R_alloc. Qed.

Lemma steady_selected s : preserves R (modify (with_selected s)).
Proof. intros w. apply R_selected. Qed.

Lemma steady_PublicLib_onGo tab u :
  mine tab -> preserves R (PublicLib.onGo parse_html tab u).
Proof.
  intros Hm. unfold PublicLib.onGo.
  split_bind; [apply steady_new_Screen_PublicLib|]. steady.
Qed.

Lemma steady_Part001_setCurrentScreenHTML tab m d f :
  preserves R (Part001.setCurrentScreenHTML parse_html tab m d f).
Proof.
  unfold Part001.setCurrentScreenHTML, Part001.initialise, Part001.Screen_getHtml.
  steady.
Qed.

Lemma steady_Part001_onGo tab u :
  mine tab -> preserves R (Part001.onGo parse_html tab u).
Proof.
  intros Hm. unfold Part001.onGo.
  split_bind; [apply steady_new_Screen_Part001|]. intros screen.
  split_bind; [leaf|]. intros [|]; [apply steady_Part001_setCurrentScreenHTML|leaf].
Qed.

Lemma steady_PublicLib_onBack tab :
  mine tab -> preserves R (PublicLib.onBack parse_html tab).
Proof. intros Hm. unfold PublicLib.onBack. steady. Qed.

Lemma steady_Part001_onBack tab :
  mine tab -> preserves R (Part001.onBack parse_html tab).
Proof.
  intros Hm. unfold Part001.onBack.
  split_bind; [leaf|]. intros [|]; [apply steady_Part001_setCurrentScreenHTML|steady].
Qed.

Lemma steady_Part001_onSubmit tab a m d :
  mine tab -> preserves R (Part001.onSubmit parse_html tab a m d).
Proof.
  intros Hm. unfold Part001.onSubmit.
  split_bind; [apply steady_new_Screen_Part001|]. intros screen.
  split_bind; [leaf|]. intros [|]; [apply steady_Part001_setCurrentScreenHTML|leaf].
Qed.

Lemma steady_clear (go : M unit) tab :
  preserves R (TabCommon.backstack_popForced tab) -> preserves R go ->
  preserves R (TabCommon.backstack_popForced tab >>> go).
Proof. intros H1 H2. split_bind; [exact H1|intros _; exact H2]. Qed.

Lemma steady_PublicLib_onGoAndClear tab u :
  preserves R (TabCommon.backstack_popForced tab) -> mine tab ->
  preserves R (PublicLib.onGoAndClear parse_html tab u).
Proof.
  intros Hpop Hm w. rewrite PublicLib_onGoAndClear_as_onGo. revert w.
  apply steady_clear; [exact Hpop|now apply steady_PublicLib_onGo].
Qed.

Lemma steady_Part001_onGoAndClear tab u :
  preserves R (TabCommon.backstack_popForced tab) -> mine tab ->
  preserves R (Part001.onGoAndClear parse_html tab u).
Proof.
  intros Hpop Hm. unfold Part001.onGoAndClear.
  apply steady_clear; [exact Hpop|now apply steady_Part001_onGo].
Qed.

Lemma steady_animateOut_onComplete tab :
  preserves R (TabBarCommon.animateOut_onComplete tab).
Proof.
  unfold TabBarCommon.animateOut_onComplete.
  do 5 (split_bind; [leaf|intros ?]). apply steady_selected.
Qed.

Lemma steady_PublicLib_preCreate tab : preserves R (PublicLib.preCreate tab).
Proof.
  unfold PublicLib.preCreate, PublicLib.animateOut.
  repeat first [ apply steady_animateOut_onComplete | leaf | split_bind | progress intros ].
Qed.

Lemma steady_Part001_preCreate tab : preserves R (Part001.preCreate tab).
Proof.
  unfold Part001.preCreate, Part001.animateOut.
  repeat first [ apply steady_animateOut_onComplete | leaf | split_bind | progress intros ].
Qed.

Lemma steady_PublicLib_callbacks this k r :
  preserves R (PublicLib.run_callbacks parse_html this k r).
Proof.
  unfold PublicLib.run_callbacks, PublicLib.initialise_callback.
  destruct k, r; steady.
Qed.

Lemma steady_PublicLib_complete id r :
  preserves R (PublicLib.complete parse_html id r).
Proof.
  unfold PublicLib.complete. split_bind; [leaf|intros rs].
  destruct (rs !! id) as [req|]; [|leaf].
  destruct (ajax_completed req); [leaf|].
  split_bind; [leaf|intros _]. apply steady_PublicLib_callbacks.
Qed.

Lemma steady_Part001_complete id r :
  preserves R (Part001.complete parse_html id r).
Proof.
  unfold Part001.complete. split_bind; [leaf|intros rs].
  destruct (rs !! id) as [req|]; [|leaf].
  destruct (ajax_completed req); [leaf|].
  split_bind; [leaf|intros _].
  unfold Part001.run_callbacks, Part001.initialise_success, Part001.initialise_error.
  destruct (ajax_callbacks req), r; steady.
Qed.

(** The two steps of [onGoAndClear] are taken together: between them the
    Backstack may be empty. *)
Hypothesis R_clear_PublicLib :
  forall tab u, mine tab -> preserves R (PublicLib.onGoAndClear parse_html tab u).
Hypothesis R_clear_Part001 :
  forall tab u, mine tab -> preserves R (Part001.onGoAndClear parse_html tab u).

Lemma steady_PublicLib_run_handler h e :
  mine (handler_tab h) -> preserves R (PublicLib.run_handler parse_html h e).
Proof.
  intros Hm. destruct h; cbn [handler_tab] in Hm; cbn [PublicLib.run_handler];
    unfold PublicLib.set_forceRefreshOnLoad, PublicLib.onRefresh.
  - leaf.
  - split_bind; [apply steady_PublicLib_preCreate|intros _; leaf].
  - do 2 (split_bind; [leaf|intros _]). now apply steady_PublicLib_onGo.
  - split_bind; [leaf|intros _]. now apply steady_PublicLib_onBack.
  - split_bind; [leaf|intros _]. now apply R_clear_PublicLib.
  - split_bind; [leaf|intros _]. leaf.
  - do 3 (split_bind; [leaf|intros _]). leaf.
Qed.

Lemma steady_Part001_run_handler h e :
  mine (handler_tab h) -> preserves R (Part001.run_handler parse_html h e).
Proof.
  intros Hm. destruct h; cbn [handler_tab] in Hm; cbn [Part001.run_handler];
    unfold Part001.onRefresh.
  - leaf.
  - split_bind; [apply steady_Part001_preCreate|intros _].
    apply steady_Part001_setCurrentScreenHTML.
  - repeat (split_bind; [leaf|intros _]). now apply steady_Part001_onGo.
  - repeat (split_bind; [leaf|intros _]). now apply steady_Part001_onBack.
  - repeat (split_bind; [leaf|intros _]). now apply R_clear_Part001.
  - repeat (split_bind; [leaf|intros _]). now apply steady_Part001_onSubmit.
  - repeat (split_bind; [leaf|intros _]). apply steady_Part001_setCurrentScreenHTML.
Qed.

Hypothesis all_mine : forall tab, mine tab.

Lemma steady_PublicLib_step i w : R w (PublicLib.step parse_html i w).
Proof.
  unfold PublicLib.step. revert w. change (preserves R (PublicLib.handle parse_html i)).
  destruct i; cbn [PublicLib.handle].
  - apply (preserves_dispatch R R_refl R_trans). intros h e.
    apply steady_PublicLib_run_handler, all_mine.
  - apply (preserves_dispatch R R_refl R_trans). intros h e.
    apply steady_PublicLib_run_handler, all_mine.
  - apply steady_PublicLib_complete.
Qed.

Lemma steady_Part001_step i w : R w (Part001.step parse_html i w).
Proof.
  unfold Part001.step. revert w. change (preserves R (Part001.handle parse_html i)).
  destruct i; cbn [Part001.handle].
  - apply (preserves_dispatch R R_refl R_trans). intros h e.
    apply steady_Part001_run_handler, all_mine.
  - apply (preserves_dispatch R R_refl R_trans). intros h e.
    apply steady_Part001_run_handler, all_mine.
  - apply steady_Part001_complete.
Qed.

Lemma steady_PublicLib_run inputs w : R w (PublicLib.run parse_html inputs w).
Proof. apply (preserves_fold R R_refl R_trans). apply steady_PublicLib_step. Qed.

Lemma steady_Part001_run inputs w : R w (Part001.run parse_html inputs w).
Proof. apply (preserves_fold R R_refl R_trans). apply steady_Part001_step. Qed.

End Steady.

(** *** The world after a call on a Tab's Backstack *)

Lemma the_tab_None (tab : nat) (w : World) :
  tabs w !! tab = None -> the_tab tab w = Throw DanglingReference w.
Proof. intros H. unfold the_tab. now rewrite H. Qed.

Lemma backstack_push_world (tab : nat) (s : loc) (w : World) :
  world_of (TabCommon.backstack_push tab s w)
  = match tabs w !! tab with
    | Some t => set_stack tab t (Backstack.screens (snd (Backstack.push s (backstack t)))) w
    | None => w
    end.
Proof.
  destruct (tabs w !! tab) as [t|] eqn:Ht.
  - rewrite (backstack_push_run _ _ _ _ Ht), BackstackFacts.push_eq. reflexivity.
  - unfold TabCommon.backstack_push. now rewrite (bind_Throw _ _ _ _ _ (the_tab_None _ _ Ht)).
Qed.

Lemma backstack_pop_world (tab : nat) (w : World) :
  world_of (TabCommon.backstack_pop tab w)
  = match tabs w !! tab with
    | Some t => set_stack tab t (Backstack.screens (snd (Backstack.pop (backstack t)))) w
    | None => w
    end.
Proof.
  destruct (tabs w !! tab) as [t|] eqn:Ht.
  - unfold TabCommon.backstack_pop.
    rewrite (bind_Ret _ _ _ _ _ (the_tab_Some _ _ _ Ht)).
    destruct (Backstack.pop (backstack t)) as [r b].
    now rewrite (bind_Ret _ _ _ _ _ (update_backstack_run _ _ _ _ Ht)).
  - unfold TabCommon.backstack_pop. now rewrite (bind_Throw _ _ _ _ _ (the_tab_None _ _ Ht)).
Qed.

Lemma backstack_popForced_world (tab : nat) (w : World) :
  world_of (TabCommon.backstack_popForced tab w)
  = match tabs w !! tab with
    | Some t => set_stack tab t (Backstack.screens (snd (Backstack.popForced (backstack t)))) w
    | None => w
    end.
Proof.
  destruct (tabs w !! tab) as [t|] eqn:Ht.
  - unfold TabCommon.backstack_popForced.
    rewrite (bind_Ret _ _ _ _ _ (the_tab_Some _ _ _ Ht)).
    destruct (Backstack.popForced (backstack t)) as [r b].
    now rewrite (bind_Ret _ _ _ _ _ (update_backstack_run _ _ _ _ Ht)).
  - unfold TabCommon.backstack_popForced.
    now rewrite (bind_Throw _ _ _ _ _ (the_tab_None _ _ Ht)).
Qed.

Lemma update_screen_world (l : loc) (f : Screen -> Screen) (w : World) :
  world_of (update_screen l f w)
  = match heap w !! l with Some s => store l (f s) w | None => w end.
Proof.
  destruct (heap w !! l) as [s|] eqn:Hs.
  - now rewrite (update_screen_run _ _ _ _ Hs).
  - unfold update_screen, bind, deref. now rewrite Hs.
Qed.

(** *** No Backstack is left empty *)

(** Every Tab has a Screen on its Backstack. *)

Lemma populated_set_stack (tab : nat) (t : Tab) (stack : list loc) (w : World) :
  (1 <= length stack)%nat -> populated w -> populated (set_stack tab t stack w).
Proof.
  intros Hs Hp. unfold populated, set_stack. cbn [tabs with_tabs].
  apply Forall_insert; [exact Hp|exact Hs].
Qed.

Lemma stays_populated_push (tab : nat) (s : loc) :
  preserves stays_populated (TabCommon.backstack_push tab s).
Proof.
  intros w Hp. rewrite backstack_push_world.
  destruct (tabs w !! tab) as [t|]; [|exact Hp].
  apply populated_set_stack; [|exact Hp]. apply BackstackFacts.depth_push.
Qed.

Lemma stays_populated_pop (tab : nat) :
  preserves stays_populated (TabCommon.backstack_pop tab).
Proof.
  intros w Hp. rewrite backstack_pop_world.
  destruct (tabs w !! tab) as [t|] eqn:Ht; [|exact Hp].
  apply populated_set_stack; [|exact Hp]. apply BackstackFacts.depth_pop.
  exact (Forall_lookup_1 _ _ _ _ Hp Ht).
Qed.

Lemma stays_populated_update (l : loc) (f : Screen -> Screen) :
  preserves stays_populated (update_screen l f).
Proof.
  intros w Hp. rewrite update_screen_world. destruct (heap w !! l); exact Hp.
Qed.

(** Emptying a Backstack and going to a new Screen at once. *)
Lemma stays_populated_clear (go : M unit) (flag : option bool) (tab : nat) (dest : string) :
  (forall w t, tabs w !! tab = Some t ->
     exists w', go w = Ret tt w' /\ went flag tab t dest w w') ->
  preserves stays_populated (TabCommon.backstack_popForced tab >>> go).
Proof.
  intros Hgo w Hp. destruct (tabs w !! tab) as [t|] eqn:Ht.
  - rewrite (bind_Ret _ _ _ _ _ (backstack_popForced_run _ _ _ Ht)).
    pose proof (tabs_set_stack tab t (removelast (Backstack.screens (backstack t))) w Ht)
      as Ht1.
    destruct (Hgo _ _ Ht1) as (w' & Hrun & Htabs & _).
    rewrite Hrun. cbn [world_of]. unfold populated. rewrite Htabs.
    unfold set_stack. cbn [tabs with_tabs]. rewrite list_insert_insert_eq.
    apply Forall_insert; [exact Hp|].
    unfold Backstack.depth. cbn. rewrite length_app. cbn. lia.
  - unfold TabCommon.backstack_popForced.
    rewrite (bind_Throw _ _ _ _ _ (bind_Throw _ _ _ _ _ (the_tab_None _ _ Ht))).
    exact Hp.
Qed.

Lemma stays_populated_engine (parse_html : string -> list Attrs) (inputs : list Input)
    (w : World) :
  stays_populated w (PublicLib.run parse_html inputs w)
  /\ stays_populated w (Part001.run parse_html inputs w).
Proof.
  split.
  - apply (steady_PublicLib_run stays_populated (fun _ => True));
      try (intros; intros Hp; exact Hp); auto.
    + intros w1 w2 w3 H1 H2 Hp. exact (H2 (H1 Hp)).
    + intros l f _. apply stays_populated_update.
    + intros tab s _. apply stays_populated_push.
    + intros tab _. apply stays_populated_pop.
    + intros tab u _ w0. rewrite PublicLib_onGoAndClear_as_onGo. revert w0.
      apply (stays_populated_clear _ (Some false) tab u).
      intros w0 t Ht. now apply PublicLib_onGo_run.
  - apply (steady_Part001_run stays_populated (fun _ => True));
      try (intros; intros Hp; exact Hp); auto.
    + intros w1 w2 w3 H1 H2 Hp. exact (H2 (H1 Hp)).
    + intros l f _. apply stays_populated_update.
    + intros tab s _. apply stays_populated_push.
    + intros tab _. apply stays_populated_pop.
    + intros tab u _. unfold Part001.onGoAndClear.
      apply (stays_populated_clear _ None tab u).
      intros w0 t Ht. now apply Part001_onGo_run.
Qed.

(** X14. In both variants, if every Tab has a Screen on its Backstack, then
    so it is after any sequence of clicks, submissions and Ajax responses:
    [onBack] never pops the last Screen, and [onGoAndClear], which may empty
    the Backstack with [popForced], pushes the new Screen before the turn
    ends. *)
Theorem backstacks_stay_populated (parse_html : string -> list Attrs)
    (inputs : list Input) (w : World) :
  populated w ->
  populated (PublicLib.run parse_html inputs w)
  /\ populated (Part001.run parse_html inputs w).
Proof.
  intros Hp. destruct (stays_populated_engine parse_html inputs w) as [H1 H2].
  split; [exact (H1 Hp)|exact (H2 Hp)].
Qed.

Lemma backstacks_stay_populated_witness :
  populated Demo.lib_home
  /\ populated (PublicLib.run Demo.parse_html
                  [UserClick Demo.clear_link; AjaxResponse 1 (Success "<page2>");
                   UserClick Demo.back_link]
                  Demo.lib_home).
Proof.
  assert (H : populated Demo.lib_home) by (vm_compute; repeat constructor).
  split; [exact H|].
  exact (proj1 (backstacks_stay_populated Demo.parse_html
                  [UserClick Demo.clear_link; AjaxResponse 1 (Success "<page2>");
                   UserClick Demo.back_link]
                  Demo.lib_home H)).
Defined.

(** *** Screens are kept *)

(** Every Screen of [w] is still there in [w'], with the same locator and the
    same selectors, and still has markup if it had some. *)

Lemma persists_refl (w : World) : persists w w.
Proof. intros l s H. exists s. auto. Qed.

Lemma persists_trans (w1 w2 w3 : World) :
  persists w1 w2 -> persists w2 w3 -> persists w1 w3.
Proof.
  intros H1 H2 l s H. destruct (H1 l s H) as (s2 & Hs2 & Hu2 & Hi2 & Hc2).
  destruct (H2 l s2 Hs2) as (s3 & Hs3 & Hu3 & Hi3 & Hc3).
  exists s3. split; [exact Hs3|]. split; [congruence|]. split; [congruence|auto].
Qed.

Lemma persists_alloc (s : Screen) (w : World) : persists w (alloc s w).
Proof.
  intros l s0 H. exists s0. unfold alloc. cbn [heap with_heap].
  split; [now apply lookup_app_l_Some|auto].
Qed.

Lemma persists_update (l : loc) (f : Screen -> Screen) :
  gentle f -> preserves persists (update_screen l f).
Proof.
  intros Hf w. rewrite update_screen_world.
  destruct (heap w !! l) as [s|] eqn:Hs; [|apply persists_refl].
  intros l' s' H'. unfold store. cbn [heap with_heap].
  destruct (decide (l' = l)) as [->|Hne].
  - assert (Some s' = Some s) as E
      by (transitivity (heap w !! l); [symmetry; exact H'|exact Hs]).
    injection E as ->.
    exists (f s). destruct (Hf s) as (Hu & Hi & Hc).
    split; [|auto]. apply list_lookup_insert_eq. now apply lookup_lt_Some in Hs.
  - exists s'. split; [|auto]. now rewrite list_lookup_insert_ne by congruence.
Qed.

Lemma persists_tabs (f : list Tab -> list Tab) (w : World) : persists w (with_tabs f w).
Proof. intros l s H. exists s. split; [exact H|auto]. Qed.

Lemma persists_engine (parse_html : string -> list Attrs) (inputs : list Input)
    (w : World) :
  persists w (PublicLib.run parse_html inputs w)
  /\ persists w (Part001.run parse_html inputs w).
Proof.
  assert (Hpush : forall tab s, preserves persists (TabCommon.backstack_push tab s))
    by (intros; apply preserves_backstack_push;
        first [exact persists_refl | exact persists_trans | exact persists_tabs]).
  assert (Hpop : forall tab, preserves persists (TabCommon.backstack_pop tab))
    by (intros; apply preserves_backstack_pop;
        first [exact persists_refl | exact persists_trans | exact persists_tabs]).
  assert (Hforced : forall tab, preserves persists (TabCommon.backstack_popForced tab))
    by (intros; apply preserves_backstack_popForced;
        first [exact persists_refl | exact persists_trans | exact persists_tabs]).
  assert (Hframe : forall w1 w2, heap w2 = heap w1 -> persists w1 w2)
    by (intros w1 w2 E l s H; exists s; rewrite E; auto).
  split.
  - apply (steady_PublicLib_run persists (fun _ => True));
      try (intros; apply Hframe; reflexivity); auto using persists_alloc, persists_update.
    + exact persists_trans.
    + intros tab u _.
      apply (steady_PublicLib_onGoAndClear persists (fun _ => True));
        try (intros; apply Hframe; reflexivity);
        auto using persists_alloc, persists_update.
      exact persists_trans.
  - apply (steady_Part001_run persists (fun _ => True));
      try (intros; apply Hframe; reflexivity); auto using persists_alloc, persists_update.
    + exact persists_trans.
    + intros tab u _.
      apply (steady_Part001_onGoAndClear persists (fun _ => True));
        try (intros; apply Hframe; reflexivity);
        auto using persists_alloc, persists_update.
      exact persists_trans.
Qed.



(** *** A Tab's closures keep to that Tab *)

(** Between [w] and [w'] the Tabs are the same in number and in view ids, and
    every Tab but [tab] has the Backstack it had. *)

Lemma same_tabs_only_stack_of (tab : nat) (w w' : World) :
  tabs w' = tabs w -> only_stack_of tab w w'.
Proof. intros E. split; [now rewrite E|]. intros i t H. exists t. rewrite E. auto. Qed.

Lemma only_stack_of_trans (tab : nat) (w1 w2 w3 : World) :
  only_stack_of tab w1 w2 -> only_stack_of tab w2 w3 -> only_stack_of tab w1 w3.
Proof.
  intros [L1 H1] [L2 H2]. split; [congruence|]. intros i t H.
  destruct (H1 i t H) as (t2 & Ht2 & Hv2 & Hs2).
  destruct (H2 i t2 Ht2) as (t3 & Ht3 & Hv3 & Hs3).
  exists t3. split; [exact Ht3|]. split; [congruence|].
  intros Hne. rewrite (Hs3 Hne). exact (Hs2 Hne).
Qed.

Lemma only_stack_of_set_stack (tab : nat) (t : Tab) (stack : list loc) (w : World) :
  tabs w !! tab = Some t -> only_stack_of tab w (set_stack tab t stack w).
Proof.
  intros Ht. unfold only_stack_of, set_stack. cbn [tabs with_tabs].
  split; [apply length_insert|]. intros i t0 H.
  destruct (decide (i = tab)) as [->|Hne].
  - assert (Some t0 = Some t) as E
      by (transitivity (tabs w !! tab); [symmetry; exact H|exact Ht]).
    injection E as ->.
    exists (mkTab (Backstack.mk stack) (viewId t)).
    split; [|split; [reflexivity|tauto]].
    apply list_lookup_insert_eq. now apply lookup_lt_Some in Ht.
  - exists t0. split; [|auto]. now rewrite list_lookup_insert_ne by congruence.
Qed.

Lemma only_stack_of_push (tab : nat) (s : loc) :
  preserves (only_stack_of tab) (TabCommon.backstack_push tab s).
Proof.
  intros w. rewrite backstack_push_world.
  destruct (tabs w !! tab) as [t|] eqn:Ht;
    [now apply only_stack_of_set_stack|now apply same_tabs_only_stack_of].
Qed.

Lemma only_stack_of_pop (tab : nat) :
  preserves (only_stack_of tab) (TabCommon.backstack_pop tab).
Proof.
  intros w. rewrite backstack_pop_world.
  destruct (tabs w !! tab) as [t|] eqn:Ht;
    [now apply only_stack_of_set_stack|now apply same_tabs_only_stack_of].
Qed.

Lemma only_stack_of_popForced (tab : nat) :
  preserves (only_stack_of tab) (TabCommon.backstack_popForced tab).
Proof.
  intros w. rewrite backstack_popForced_world.
  destruct (tabs w !! tab) as [t|] eqn:Ht;
    [now apply only_stack_of_set_stack|now apply same_tabs_only_stack_of].
Qed.

Lemma only_stack_of_update (tab : nat) (l : loc) (f : Screen -> Screen) :
  preserves (only_stack_of tab) (update_screen l f).
Proof.
  intros w. rewrite update_screen_world.
  destruct (heap w !! l); now apply same_tabs_only_stack_of.
Qed.


(** *** What a response leaves alone *)

(** Between [w] and [w'] no Screen was created, no Backstack changed and the
    selected Tab stayed. *)

Lemma navigation_kept_trans (w1 w2 w3 : World) :
  navigation_kept w1 w2 -> navigation_kept w2 w3 -> navigation_kept w1 w3.
Proof. unfold navigation_kept. intros (?&?&?) (?&?&?). repeat split; congruence. Qed.

Lemma navigation_kept_update (l : loc) (f : Screen -> Screen) :
  preserves navigation_kept (update_screen l f).
Proof.
  intros w. rewrite update_screen_world.
  destruct (heap w !! l); repeat split. unfold store. cbn. apply length_insert.
Qed.

(** X17. In both variants the completion of an Ajax request, successful or
    not, known or not, creates no Screen, changes no Backstack and does not
    change which Tab is selected: a response only fills the cache of a Screen
    and redraws. *)
Theorem response_keeps_navigation (parse_html : string -> list Attrs)
    (id : nat) (r : Response) (w : World) :
  navigation_kept w (PublicLib.step parse_html (AjaxResponse id r) w)
  /\ navigation_kept w (Part001.step parse_html (AjaxResponse id r) w).
Proof.
  split.
  - unfold PublicLib.step. cbn [PublicLib.handle].
    apply (steady_PublicLib_complete navigation_kept);
      try (intros; repeat split; reflexivity).
    + apply navigation_kept_trans.
    + intros l f _. apply navigation_kept_update.
  - unfold Part001.step. cbn [Part001.handle].
    apply (steady_Part001_complete navigation_kept);
      try (intros; repeat split; reflexivity).
    + apply navigation_kept_trans.
    + intros l f _. apply navigation_kept_update.
Qed.

(** ** The listeners of the tab buttons *)

(** The listeners that [setTabsClickListeners] adds to the element [e] for the
    Tabs [ts], the first of which has position [i], in the order in which it
    adds them. *)

Lemma tab_listeners_same (i : nat) (ts : list Tab) (e e' : Element) :
  el_attrs e' = el_attrs e -> el_classes e' = el_classes e ->
  tab_listeners i ts e' = tab_listeners i ts e.
Proof.
  intros Ha Hc. revert i. induction ts as [|t ts IH]; intros i; cbn [tab_listeners].
  - reflexivity.
  - now rewrite (matches_same _ e e' Ha Hc), IH.
Qed.

Lemma tab_bound_run (tab : nat) (t : Tab) (w : World) :
  tabs w !! tab = Some t ->
  (let* t := the_tab tab in
   jq_on ("#" +:+ viewId t) click (TabSelect tab) >>>
   TabCommon.onClick tab) w
  = Ret tt (tab_bound tab t w).
Proof.
  intros Ht. rewrite (bind_Ret _ _ _ _ _ (the_tab_Some _ _ _ Ht)).
  rewrite (bind_Ret _ _ _ _ _
             (eq_refl : jq_on ("#" +:+ viewId t) click (TabSelect tab) w
                        = Ret tt (on_world _ click (TabSelect tab) w))).
  unfold TabCommon.onClick.
  assert (Ht' : tabs (on_world ("#" +:+ viewId t) click (TabSelect tab) w) !! tab = Some t)
    by exact Ht.
  now rewrite (bind_Ret _ _ _ _ _ (the_tab_Some _ _ _ Ht')).
Qed.

Lemma gained_tab_bound (tab : nat) (t : Tab) (w : World) :
  gained (fun e => if matches ("#" +:+ viewId t) e
                   then [(click, TabSelect tab); (click, TabClick tab)] else [])
         (page w) (page (tab_bound tab t w)).
Proof.
  set (sel := "#" +:+ viewId t).
  assert (Hp : page (tab_bound tab t w)
               = jq_each sel (el_on click (TabClick tab))
                   (jq_each sel (el_on click (TabSelect tab)) (page w)))
    by reflexivity.
  rewrite Hp. split; [reflexivity|]. split.
  - intros r Hr. now rewrite !element_at_jq_each, Hr.
  - intros r e Hr. rewrite !element_at_jq_each, Hr. cbn [option_map].
    eexists. split; [reflexivity|].
    destruct (on_if_spec sel click (TabSelect tab) e e eq_refl eq_refl)
      as (Ha1 & Hc1 & Hv1 & Hl1).
    set (e1 := if matches sel e then _ else e) in *.
    destruct (on_if_spec sel click (TabClick tab) e e1 Ha1 Hc1)
      as (Ha2 & Hc2 & Hv2 & Hl2).
    set (e2 := if matches sel e1 then _ else e1) in *.
    split; [exact Ha2|]. split; [exact Hc2|]. split; [congruence|].
    rewrite Hl2, Hl1. destruct (matches sel e); cbn; now rewrite <- ?app_assoc, ?app_nil_r.
Qed.

Lemma forEach_tab_run (n i : nat) (w : World) :
  (i + n)%nat = length (tabs w) ->
  exists w',
    TabBarCommon.forEach_tab (fun tab =>
      let* t := the_tab tab in
      jq_on ("#" +:+ viewId t) click (TabSelect tab) >>>
      TabCommon.onClick tab) i n w = Ret tt w'
    /\ heap w' = heap w /\ tabs w' = tabs w /\ requests w' = requests w
    /\ selectedTabViewId w' = selectedTabViewId w
    /\ gained (tab_listeners i (drop i (tabs w))) (page w) (page w').
Proof.
  revert i w. induction n as [|n IH]; intros i w Hlen; cbn [TabBarCommon.forEach_tab].
  - exists w. split; [reflexivity|]. do 4 (split; [reflexivity|]).
    rewrite drop_ge by lia. cbn [tab_listeners].
    split; [reflexivity|]. split; [auto|].
    intros r e Hr. exists e. rewrite app_nil_r. auto.
  - destruct (lookup_lt_is_Some_2 (tabs w) i ltac:(lia)) as [t Ht].
    rewrite (bind_Ret _ _ _ _ _ (tab_bound_run i t w Ht)).
    assert (Hlen' : (S i + n)%nat = length (tabs (tab_bound i t w))) by (cbn; lia).
    destruct (IH (S i) (tab_bound i t w) Hlen') as (w' & Hrun & Hh & Ht' & Hq & Hs & Hg).
    exists w'. split; [exact Hrun|].
    split; [exact Hh|]. split; [exact Ht'|]. split; [exact Hq|]. split; [exact Hs|].
    change (tabs (tab_bound i t w)) with (tabs w) in Hg.
    rewrite (drop_S _ _ _ Ht). cbn [tab_listeners].
    destruct (gained_tab_bound i t w) as (G1 & G2 & G3).
    destruct Hg as (K1 & K2 & K3).
    split; [congruence|]. split; [auto|].
    intros r e Hr. destruct (G3 r e Hr) as (e1 & Hr1 & Ha1 & Hc1 & Hv1 & Hl1).
    destruct (K3 r e1 Hr1) as (e2 & Hr2 & Ha2 & Hc2 & Hv2 & Hl2).
    exists e2. split; [exact Hr2|]. split; [congruence|]. split; [congruence|].
    split; [congruence|].
    rewrite Hl2, Hl1, (tab_listeners_same _ _ e e1 Ha1 Hc1). now rewrite <- app_assoc.
Qed.

(** X18. [TabBar.setTabsClickListeners] always returns, and changes each
    element of the page as follows and nothing else: for every Tab, in the
    order of [tabs], whose view id is the element's id, the element gets the
    closure that marks the tab button as selected and then the closure of
    [Tab.onClick], after the listeners it had; two Tabs with the same view id
    both bind their closures to the same element. *)
Theorem setTabsClickListeners_per_element (w : World) :
  exists w',
    TabBarCommon.setTabsClickListeners w = Ret tt w'
    /\ heap w' = heap w /\ tabs w' = tabs w /\ requests w' = requests w
    /\ selectedTabViewId w' = selectedTabViewId w
    /\ viewport_html (page w') = viewport_html (page w)
    /\ (forall r, element_at r (page w) = None -> element_at r (page w') = None)
    /\ forall r e, element_at r (page w) = Some e ->
       exists e', element_at r (page w') = Some e'
                  /\ el_attrs e' = el_attrs e
                  /\ el_classes e' = el_classes e
                  /\ el_visibility e' = el_visibility e
                  /\ el_listeners e' = el_listeners e ++ tab_listeners 0 (tabs w) e.
Proof.
  destruct (forEach_tab_run (length (tabs w)) 0 w eq_refl)
    as (w' & Hrun & Hh & Ht & Hq & Hs & Hg).
  exists w'. split; [exact Hrun|].
  split; [exact Hh|]. split; [exact Ht|]. split; [exact Hq|]. split; [exact Hs|].
  exact Hg.
Qed.
